(** * SignifyLearn backend: a shallow embedding of [main.py] and [schemas.py]

    The handlers of [main.py] are embedded as functions over an explicit
    document store.  The store plays the part of the MongoDB database
    behind the global [db]: a finite map from collection names to lists of
    documents, where a document is a finite map from field names to values.
    [db is None] is [None : option store].

    What the store does is the documented behaviour of the driver calls the
    handlers make ([find], [find_one], [count_documents], [insert_one],
    [update_one] with [$set], [$addToSet], [$pull] and [upsert]), under
    these conventions:
    - a collection keeps its documents in insertion order, [find] returns
      them in that order, and an update changes a document in place;
    - [ObjectId]s are drawn from a counter of the store;
    - an operator document without fields is a no-op;
    - errors of the store are raised to the handler, which does not catch
      them; integers are unbounded.
    The regular expression engine of the store and Python's [str] are
    parameters (class [Runtime]).  Request bodies are the validated
    objects of their pydantic class. *)

From Stdlib Require Import ZArith NArith String Ascii List Bool.
From Stdlib Require Import Floats.PrimFloat.
From stdpp Require Import gmap strings list fin_maps.

Set Warnings "-register-all,-inexact-float".

(** ** Values and documents *)

(** BSON/JSON values as the handlers see them.  Python [float] is a
    binary64 number; [ObjectId]s are abstracted to a counter. *)
Inductive value :=
  | VNull
  | VBool (b : bool)
  | VInt (n : Z)
  | VFloat (x : float)
  | VStr (s : string)
  | VObjectId (n : N)
  | VList (vs : list value)
  | VDoc (kvs : list (string * value)).

Abbreviation doc := (gmap string value).

(** Equality of two values as the store compares them (field equality in
    a filter, membership for [$addToSet], removal for [$pull]). *)
Fixpoint value_eqb (a b : value) : bool :=
  match a, b with
  | VNull, VNull => true
  | VBool x, VBool y => Bool.eqb x y
  | VInt x, VInt y => Z.eqb x y
  | VFloat x, VFloat y => PrimFloat.eqb x y
  | VStr x, VStr y => String.eqb x y
  | VObjectId x, VObjectId y => N.eqb x y
  | VList xs, VList ys =>
      (fix go (xs ys : list value) : bool :=
         match xs, ys with
         | [], [] => true
         | x :: xs', y :: ys' => value_eqb x y && go xs' ys'
         | _, _ => false
         end) xs ys
  | VDoc xs, VDoc ys =>
      (fix go (xs ys : list (string * value)) : bool :=
         match xs, ys with
         | [], [] => true
         | (k, x) :: xs', (k', y) :: ys' =>
             String.eqb k k' && value_eqb x y && go xs' ys'
         | _, _ => false
         end) xs ys
  | _, _ => false
  end.

(** Python truthiness of a [str] and of an [Optional[str]]. *)
Definition truthy (s : string) : bool := negb (String.eqb s "").

Definition opt_truthy (o : option string) : bool :=
  match o with
  | Some s => truthy s
  | None => false
  end.

(** How often the string [s] occurs in an array of values. *)
Definition is_str (s : string) (v : value) : bool :=
  match v with
  | VStr t => String.eqb s t
  | _ => false
  end.

Definition count_str (s : string) (vs : list value) : nat :=
  length (List.filter (is_str s) vs).

(** ** What the handlers take from their runtime

    Two library functions are not defined by the repository: the regular
    expression engine of the store ([$regex] with [$options]) and Python's
    [str] applied to a document identifier.  [regex_compile pattern options]
    is [None] when the store rejects the pattern, and otherwise the
    unanchored search predicate on subject strings. *)
Class Runtime := {
  regex_compile : string -> string -> option (string -> bool);
  py_str : value -> string
}.

(** ** schemas.py *)

Definition opt_value {A} (f : A -> value) (o : option A) : value :=
  match o with
  | Some a => f a
  | None => VNull
  end.

Definition str_list (l : list string) : value := VList (map VStr l).

(** The bounds a [Field] puts on a float. *)
Record float_field := {
  ge : option float;
  le : option float
}.

Definition check_float (c : float_field) (x : float) : bool :=
  match ge c with
  | Some lo => PrimFloat.leb lo x
  | None => true
  end
  && match le c with
     | Some hi => PrimFloat.leb x hi
     | None => true
     end.

Module Gesture.
Record t := {
  name : string;
  slug : string;
  category : string;
  difficulty : string;
  thumbnail : option string;
  video_url : option string;
  steps : list string;
  examples : list string;
  tags : list string
}.

Definition categories : list string :=
  ["letters"; "numbers"; "basic"; "emotions"; "activity"; "other"].

Definition difficulties : list string := ["easy"; "medium"; "hard"].

(** The two [Literal] fields are the constrained ones. *)
Definition validate (g : t) : bool :=
  existsb (String.eqb (category g)) categories
  && existsb (String.eqb (difficulty g)) difficulties.

Definition model_dump (g : t) : doc :=
  <["name" := VStr (name g)]>
  (<["slug" := VStr (slug g)]>
  (<["category" := VStr (category g)]>
  (<["difficulty" := VStr (difficulty g)]>
  (<["thumbnail" := opt_value VStr (thumbnail g)]>
  (<["video_url" := opt_value VStr (video_url g)]>
  (<["steps" := str_list (steps g)]>
  (<["examples" := str_list (examples g)]>
  (<["tags" := str_list (tags g)]> ∅)))))))).
End Gesture.

Module Module_.
Record t := {
  title : string;
  slug : string;
  description : option string;
  cover_image : option string;
  subtopics : list string;
  gesture_slugs : list string
}.

Definition model_dump (m : t) : doc :=
  <["title" := VStr (title m)]>
  (<["slug" := VStr (slug m)]>
  (<["description" := opt_value VStr (description m)]>
  (<["cover_image" := opt_value VStr (cover_image m)]>
  (<["subtopics" := str_list (subtopics m)]>
  (<["gesture_slugs" := str_list (gesture_slugs m)]> ∅))))).
End Module_.

Module QuizQuestion.
Record t := {
  prompt : string;
  media_url : option string;
  options : list string;
  answer_index : Z
}.

(** [answer_index: int = Field(ge=0)] *)
Definition validate (q : t) : bool := (0 <=? answer_index q)%Z.

Definition model_dump (q : t) : value :=
  VDoc [("prompt", VStr (prompt q));
        ("media_url", opt_value VStr (media_url q));
        ("options", str_list (options q));
        ("answer_index", VInt (answer_index q))].
End QuizQuestion.

Module Quiz.
Record t := {
  title : string;
  slug : string;
  questions : list QuizQuestion.t;
  related_module_slug : option string
}.

Definition validate (q : t) : bool :=
  forallb QuizQuestion.validate (questions q).

Definition model_dump (q : t) : doc :=
  <["title" := VStr (title q)]>
  (<["slug" := VStr (slug q)]>
  (<["questions" := VList (map QuizQuestion.model_dump (questions q))]>
  (<["related_module_slug" := opt_value VStr (related_module_slug q)]> ∅))).
End Quiz.

Module Profile.
Record t := {
  user_id : string;
  name : string;
  email : string;
  avatar_url : option string;
  points : Z;
  level : Z;
  streak_days : Z;
  favorite_gesture_slugs : list string;
  completed_module_slugs : list string
}.

(** [Profile(user_id=.., name=.., email=..)]: the other fields take the
    defaults of the class. *)
Definition make (user_id name email : string) : t :=
  {| user_id := user_id; name := name; email := email;
     avatar_url := None; points := 0; level := 1; streak_days := 0;
     favorite_gesture_slugs := []; completed_module_slugs := [] |}.

Definition model_dump (p : t) : doc :=
  <["user_id" := VStr (user_id p)]>
  (<["name" := VStr (name p)]>
  (<["email" := VStr (email p)]>
  (<["avatar_url" := opt_value VStr (avatar_url p)]>
  (<["points" := VInt (points p)]>
  (<["level" := VInt (level p)]>
  (<["streak_days" := VInt (streak_days p)]>
  (<["favorite_gesture_slugs" := str_list (favorite_gesture_slugs p)]>
  (<["completed_module_slugs" := str_list (completed_module_slugs p)]> ∅)))))))).
End Profile.

Module Accessibility.
Record t := {
  user_id : string;
  dark_mode : bool;
  high_contrast : bool;
  font_scale : float;
  reduce_motion : bool
}.

(** [Accessibility(user_id=..)] *)
Definition make (user_id : string) : t :=
  {| user_id := user_id; dark_mode := false; high_contrast := false;
     font_scale := 1.0%float; reduce_motion := false |}.

(** [font_scale: float = Field(1.0, ge=0.85, le=1.6)] *)
Definition font_scale_field : float_field :=
  {| ge := Some 0.85%float; le := Some 1.6%float |}.

Definition validate (a : t) : bool :=
  check_float font_scale_field (font_scale a).

Definition model_dump (a : t) : doc :=
  <["user_id" := VStr (user_id a)]>
  (<["dark_mode" := VBool (dark_mode a)]>
  (<["high_contrast" := VBool (high_contrast a)]>
  (<["font_scale" := VFloat (font_scale a)]>
  (<["reduce_motion" := VBool (reduce_motion a)]> ∅)))).
End Accessibility.

(** ** The document store *)

Record store := {
  colls : gmap string (list doc);
  next_id : N
}.

(** [db[c]]: a collection that was never written to is empty. *)
Definition coll (st : store) (c : string) : list doc :=
  default [] (colls st !! c).

Definition set_coll (st : store) (c : string) (l : list doc) : store :=
  {| colls := <[c := l]> (colls st); next_id := next_id st |}.

Definition empty_store : store := {| colls := ∅; next_id := 0 |}.

Inductive exn :=
  | HTTPException (status_code : nat) (detail : string)
  | StoreError (what : string).

Inductive outcome (A : Type) :=
  | Ok (a : A)
  | Raise (e : exn).
Arguments Ok {A} a.
Arguments Raise {A} e.

(** A filter document is a list of entries, all of which must hold:
    [{k: v}], [{k: {"$regex": p, "$options": o}}] and [{"$or": [...]}]. *)
Inductive filter :=
  | FEq (k : string) (v : value)
  | FRegex (k : string) (pattern options : string)
  | FOr (alts : list (list filter)).

(** An update document: [$set] is always present in the handlers, the
    other two operators are added with [setdefault]. *)
Record update := {
  op_set : gmap string value;
  op_addToSet : option (gmap string value);
  op_pull : option (gmap string value)
}.

Definition set_field (k : string) (v : value) (u : update) : update :=
  {| op_set := <[k := v]> (op_set u);
     op_addToSet := op_addToSet u; op_pull := op_pull u |}.

Definition setdefault_addToSet (k : string) (v : value) (u : update) : update :=
  {| op_set := op_set u;
     op_addToSet := Some (<[k := v]> (default ∅ (op_addToSet u)));
     op_pull := op_pull u |}.

Definition setdefault_pull (k : string) (v : value) (u : update) : update :=
  {| op_set := op_set u;
     op_addToSet := op_addToSet u;
     op_pull := Some (<[k := v]> (default ∅ (op_pull u))) |}.

(** [{k: v}] holds of a field equal to [v] or of an array holding [v];
    an absent field only equals null. *)
Definition eq_value (v fv : value) : bool :=
  value_eqb v fv
  || match fv with
     | VList vs => existsb (value_eqb v) vs
     | _ => false
     end.

(** A regular expression holds of a string it finds a match in, or of an
    array with such a string. *)
Definition regex_value (m : string -> bool) (fv : value) : bool :=
  match fv with
  | VStr s => m s
  | VList vs =>
      existsb (fun x => match x with VStr s => m s | _ => false end) vs
  | _ => false
  end.

Definition array_or_absent (o : option value) : bool :=
  match o with
  | None => true
  | Some (VList _) => true
  | Some _ => false
  end.

(** [$addToSet]: append unless an equal element is there; creates the
    array on an absent field. *)
Definition add_to_set (v : value) (old : option value) : option value :=
  match old with
  | None => Some (VList [v])
  | Some (VList vs) =>
      Some (VList (if existsb (value_eqb v) vs then vs else vs ++ [v]))
  | Some other => Some other
  end.

(** [$pull]: drop every element equal to [v]; nothing on an absent field. *)
Definition pull_from (v : value) (old : option value) : option value :=
  match old with
  | Some (VList vs) =>
      Some (VList (List.filter (fun x => negb (value_eqb v x)) vs))
  | other => other
  end.

Definition with_op (f : value -> option value -> option value)
    (op old : option value) : option value :=
  match op with
  | Some v => f v old
  | None => old
  end.

(** No field is named by both operator documents. *)
Definition no_common_key (a b : gmap string value) : bool :=
  bool_decide (map_Forall (λ k _, b !! k = None) a).

(** Every field named by [ops] is absent from [d] or holds an array. *)
Definition arrays_at (ops : gmap string value) (d : doc) : bool :=
  bool_decide (map_Forall (λ k _, array_or_absent (d !! k) = true) ops).

(** The store refuses an update whose operators name the same field twice,
    and [$addToSet]/[$pull] on a field that holds something else than an
    array.  Otherwise every operator is applied to its fields. *)
Definition apply_update (u : update) (d : doc) : outcome doc :=
  let adds := default ∅ (op_addToSet u) in
  let pulls := default ∅ (op_pull u) in
  if negb (no_common_key (op_set u) adds && no_common_key (op_set u) pulls
           && no_common_key adds pulls)
  then Raise (StoreError "conflicting update operators")
  else if negb (arrays_at adds d)
  then Raise (StoreError "Cannot apply $addToSet to non-array field")
  else if negb (arrays_at pulls d)
  then Raise (StoreError "Cannot apply $pull to a non-array value")
  else Ok (merge (with_op pull_from) pulls
             (merge (with_op add_to_set) adds (op_set u ∪ d))).

(** The document an upsert starts from: the equality entries of the filter. *)
Definition upsert_seed (flt : list filter) : doc :=
  foldr (fun f d => match f with FEq k v => <[k := v]> d | _ => d end) ∅ flt.

(** [insert_one]: the driver adds a fresh [_id] to a document without one. *)
Definition insert_one (st : store) (c : string) (d : doc) : store :=
  let d' := match d !! "_id" with
            | Some _ => d
            | None => <["_id" := VObjectId (next_id st)]> d
            end in
  {| colls := <[c := coll st c ++ [d']]> (colls st);
     next_id := N.succ (next_id st) |}.

(** Apply [f] to the first document that satisfies [p]; [None] when no
    document does. *)
Fixpoint update_first (p : doc -> bool) (f : doc -> outcome doc)
    (l : list doc) : option (outcome (list doc)) :=
  match l with
  | [] => None
  | d :: l' =>
      if p d then
        Some (match f d with
              | Ok d' => Ok (d' :: l')
              | Raise e => Raise e
              end)
      else
        match update_first p f l' with
        | Some (Ok l'') => Some (Ok (d :: l''))
        | other => other
        end
  end.

(** [cursor.skip(n)] raises on a negative [n]; [cursor.limit(n)] with
    [n = 0] is no limit and a negative [n] limits to its absolute value. *)
Definition cursor_skip (n : Z) (l : list doc) : outcome (list doc) :=
  if (n <? 0)%Z then Raise (StoreError "skip must be >= 0")
  else Ok (drop (Z.to_nat n) l).

Definition cursor_limit (n : Z) (l : list doc) : list doc :=
  if (n =? 0)%Z then l else take (Z.abs_nat n) l.

Section Store.
Context `{Runtime}.

Fixpoint entry_ok (f : filter) : bool :=
  match f with
  | FEq _ _ => true
  | FRegex _ p o =>
      match regex_compile p o with
      | Some _ => true
      | None => false
      end
  | FOr alts =>
      match alts with
      | [] => false
      | _ :: _ => forallb (forallb entry_ok) alts
      end
  end.

Fixpoint entry_matches (f : filter) (d : doc) : bool :=
  match f with
  | FEq k v =>
      match d !! k with
      | Some fv => eq_value v fv
      | None => value_eqb v VNull
      end
  | FRegex k p o =>
      match regex_compile p o, d !! k with
      | Some m, Some fv => regex_value m fv
      | _, _ => false
      end
  | FOr alts => existsb (forallb (fun g => entry_matches g d)) alts
  end.

Definition filter_ok (flt : list filter) : bool := forallb entry_ok flt.

Definition matches (flt : list filter) (d : doc) : bool :=
  forallb (fun f => entry_matches f d) flt.

(** [db[c].find(flt)], all of it, in natural order. *)
Definition find (st : store) (c : string) (flt : list filter)
    : outcome (list doc) :=
  if filter_ok flt then Ok (List.filter (matches flt) (coll st c))
  else Raise (StoreError "invalid filter").

Definition find_one (st : store) (c : string) (flt : list filter)
    : outcome (option doc) :=
  match find st c flt with
  | Ok l => Ok (head l)
  | Raise e => Raise e
  end.

Definition count_documents (st : store) (c : string) (flt : list filter)
    : outcome nat :=
  match find st c flt with
  | Ok l => Ok (length l)
  | Raise e => Raise e
  end.

(** [db[c].update_one(flt, u, upsert=upsert)] *)
Definition update_one (st : store) (c : string) (flt : list filter)
    (u : update) (upsert : bool) : outcome store :=
  if filter_ok flt then
    match update_first (matches flt) (apply_update u) (coll st c) with
    | Some (Ok l') => Ok (set_coll st c l')
    | Some (Raise e) => Raise e
    | None =>
        if upsert then
          match apply_update u (upsert_seed flt) with
          | Ok d => Ok (insert_one st c d)
          | Raise e => Raise e
          end
        else Ok st
    end
  else Raise (StoreError "invalid filter").
End Store.

(** ** Handlers run against the store and may raise *)

Definition M (A : Type) : Type := store -> outcome A * store.

Definition ret {A} (a : A) : M A := fun st => (Ok a, st).

Definition raise {A} (e : exn) : M A := fun st => (Raise e, st).

Definition bind {A B} (m : M A) (k : A -> M B) : M B :=
  fun st =>
    match m st with
    | (Ok a, st') => k a st'
    | (Raise e, st') => (Raise e, st')
    end.

Notation "x <- m ;; k" := (bind m (fun x => k))
  (at level 100, m at next level, right associativity).
Notation "m ;; k" := (bind m (fun _ => k))
  (at level 100, right associativity).

(** A call that reads the store. *)
Definition query {A} (f : store -> outcome A) : M A :=
  fun st => (f st, st).

(** [for x in l: body(x)] *)
Fixpoint for_each {A} (l : list A) (body : A -> M unit) : M unit :=
  match l with
  | [] => ret tt
  | x :: l' => body x ;; for_each l' body
  end.

(** Each handler starts with [if db is None: ...]. *)
Definition with_db {A} (db : option store) (unavailable : outcome A)
    (m : M A) : outcome A * option store :=
  match db with
  | None => (unavailable, None)
  | Some st => let (r, st') := m st in (r, Some st')
  end.

(** Modelled from the spec: [create_document] of [database.py], which is
    imported by [main.py] and is not among the sources.  The spec names it
    as the insert of the persistence gateway ("exposing find/count/insert/
    update per named collection"): the dumped model is inserted into the
    named collection. *)
Definition create_document (c : string) (data : doc) : M unit :=
  fun st => (Ok tt, insert_one st c data).

(** ** main.py *)

Module ProfileUpdate.
Record t := {
  name : option string;
  avatar_url : option string;
  favorite_gesture_slug : option string;
  remove_favorite : bool;
  completed_module_slug : option string
}.
End ProfileUpdate.

Module AccessibilityUpdate.
Record t := {
  dark_mode : option bool;
  high_contrast : option bool;
  font_scale : option float;
  reduce_motion : option bool
}.

(** [font_scale: Optional[float] = None]: no bound is declared. *)
Definition font_scale_field : float_field := {| ge := None; le := None |}.

(** What the validation layer checks of a body of this class. *)
Definition validate (p : t) : bool :=
  match font_scale p with
  | Some x => check_float font_scale_field x
  | None => true
  end.

(** [model_dump(exclude_none=True).items()], in the order of the class. *)
Definition model_dump_exclude_none (p : t) : list (string * value) :=
  match dark_mode p with Some b => [("dark_mode", VBool b)] | None => [] end
  ++ match high_contrast p with Some b => [("high_contrast", VBool b)] | None => [] end
  ++ match font_scale p with Some x => [("font_scale", VFloat x)] | None => [] end
  ++ match reduce_motion p with Some b => [("reduce_motion", VBool b)] | None => [] end.
End AccessibilityUpdate.

(** The body of [GET /api/gestures]. *)
Record gesture_page := {
  items : list (option doc);
  total : nat;
  page : Z;
  limit : Z
}.

Definition gesture_a : Gesture.t :=
  {| Gesture.name := "A"; Gesture.slug := "letter-a";
     Gesture.category := "letters"; Gesture.difficulty := "easy";
     Gesture.thumbnail :=
       Some "https://images.unsplash.com/photo-1520975916090-3105956dac38?w=400";
     Gesture.video_url :=
       Some "https://samplelib.com/lib/preview/mp4/sample-5s.mp4";
     Gesture.steps := ["Kepalkan tangan"; "Letakkan ibu jari di samping"];
     Gesture.examples := ["A untuk 'Aku'"];
     Gesture.tags := [] |}.

Definition gesture_halo : Gesture.t :=
  {| Gesture.name := "Halo"; Gesture.slug := "halo";
     Gesture.category := "basic"; Gesture.difficulty := "easy";
     Gesture.thumbnail :=
       Some "https://images.unsplash.com/photo-1516873240891-4bf2b74d0a2a?w=400";
     Gesture.video_url :=
       Some "https://samplelib.com/lib/preview/mp4/sample-5s.mp4";
     Gesture.steps := ["Lambaikan tangan"];
     Gesture.examples := ["Halo, apa kabar?"];
     Gesture.tags := [] |}.

Definition gesture_terima_kasih : Gesture.t :=
  {| Gesture.name := "Terima kasih"; Gesture.slug := "terima-kasih";
     Gesture.category := "basic"; Gesture.difficulty := "easy";
     Gesture.thumbnail :=
       Some "https://images.unsplash.com/photo-1520975916090-3105956dac38?w=400";
     Gesture.video_url :=
       Some "https://samplelib.com/lib/preview/mp4/sample-5s.mp4";
     Gesture.steps := ["Sentuh dagu, gerakkan ke depan"];
     Gesture.examples := ["Terima kasih atas bantuannya"];
     Gesture.tags := [] |}.

Definition sample_gestures : list Gesture.t :=
  [gesture_a; gesture_halo; gesture_terima_kasih].

Definition sample_modules : list Module_.t :=
  [ {| Module_.title := "Dasar Bahasa Isyarat";
       Module_.slug := "dasar-bahasa-isyarat";
       Module_.description := Some "Pelajari gestur dasar untuk memulai.";
       Module_.cover_image :=
         Some "https://images.unsplash.com/photo-1520975916090-3105956dac38?w=800";
       Module_.subtopics := ["Salam"; "Huruf"; "Angka"];
       Module_.gesture_slugs := ["halo"; "terima-kasih"; "letter-a"] |} ].

Definition sample_quiz : Quiz.t :=
  {| Quiz.title := "Kuis Dasar"; Quiz.slug := "kuis-dasar";
     Quiz.questions :=
       [ {| QuizQuestion.prompt := "Gestur untuk 'Halo' adalah...";
            QuizQuestion.media_url := None;
            QuizQuestion.options := ["A"; "Lambaian tangan"; "Kepalan"];
            QuizQuestion.answer_index := 1 |};
         {| QuizQuestion.prompt := "Bagaimana membuat huruf A?";
            QuizQuestion.media_url := None;
            QuizQuestion.options := ["Kepalkan tangan"; "Luruskan jari"];
            QuizQuestion.answer_index := 0 |} ];
     Quiz.related_module_slug := Some "dasar-bahasa-isyarat" |}.

(** [not doc] for the result of [find_one]: [None] or an empty dict. *)
Definition doc_falsy (o : option doc) : bool :=
  match o with
  | None => true
  | Some d => bool_decide (dom d = ∅)
  end.

Section Handlers.
Context `{Runtime}.

Definition db_find (c : string) (flt : list filter) : M (list doc) :=
  query (fun st => find st c flt).

Definition db_find_one (c : string) (flt : list filter) : M (option doc) :=
  query (fun st => find_one st c flt).

Definition db_count_documents (c : string) (flt : list filter) : M nat :=
  query (fun st => count_documents st c flt).

Definition db_update_one (c : string) (flt : list filter) (u : update)
    (upsert : bool) : M unit :=
  fun st =>
    match update_one st c flt u upsert with
    | Ok st' => (Ok tt, st')
    | Raise e => (Raise e, st)
    end.

Definition _to_json (o : option doc) : option doc :=
  if doc_falsy o then o
  else
    match o with
    | Some d =>
        Some (match d !! "_id" with
              | Some i => <["id" := VStr (py_str i)]> (delete "_id" d)
              | None => d
              end)
    | None => None
    end.

(** The filter [list_gestures] builds from its query parameters. *)
Definition gesture_filter (q category difficulty : option string)
    : list filter :=
  let filter_q := [] in
  let filter_q :=
    match q with
    | Some s =>
        if truthy s
        then filter_q ++ [FOr [[FRegex "name" s "i"]; [FRegex "tags" s "i"]]]
        else filter_q
    | None => filter_q
    end in
  let filter_q :=
    match category with
    | Some s =>
        if truthy s then filter_q ++ [FEq "category" (VStr s)] else filter_q
    | None => filter_q
    end in
  match difficulty with
  | Some s =>
      if truthy s then filter_q ++ [FEq "difficulty" (VStr s)] else filter_q
  | None => filter_q
  end.

Definition list_gestures (db : option store)
    (q category difficulty : option string) (page limit : Z)
    : outcome gesture_page * option store :=
  with_db db
    (Ok {| items := []; total := 0; page := page; limit := limit |})
    (let filter_q := gesture_filter q category difficulty in
     total <- db_count_documents "gesture" filter_q ;;
     found <- db_find "gesture" filter_q ;;
     skipped <- query (fun _ => cursor_skip ((page - 1) * limit) found) ;;
     let cursor := cursor_limit limit skipped in
     let items := map (fun x => _to_json (Some x)) cursor in
     ret {| items := items; total := total; page := page; limit := limit |}).

Definition get_gesture (db : option store) (slug : string)
    : outcome (option doc) * option store :=
  with_db db (Raise (HTTPException 404 "Database not available"))
    (doc <- db_find_one "gesture" [FEq "slug" (VStr slug)] ;;
     if doc_falsy doc then raise (HTTPException 404 "Gesture not found")
     else ret (_to_json doc)).

Definition list_modules (db : option store)
    : outcome (list (option doc)) * option store :=
  with_db db (Ok [])
    (found <- db_find "module" [] ;;
     ret (map (fun x => _to_json (Some x)) found)).

Definition get_module (db : option store) (slug : string)
    : outcome (option doc) * option store :=
  with_db db (Raise (HTTPException 404 "Database not available"))
    (doc <- db_find_one "module" [FEq "slug" (VStr slug)] ;;
     if doc_falsy doc then raise (HTTPException 404 "Module not found")
     else ret (_to_json doc)).

Definition get_quiz (db : option store) (slug : string)
    : outcome (option doc) * option store :=
  with_db db (Raise (HTTPException 404 "Database not available"))
    (doc <- db_find_one "quiz" [FEq "slug" (VStr slug)] ;;
     if doc_falsy doc then raise (HTTPException 404 "Quiz not found")
     else ret (_to_json doc)).

Definition get_profile (db : option store) (user_id : string)
    : outcome (option doc) * option store :=
  with_db db (Ok (Some ∅))
    (doc <- db_find_one "profile" [FEq "user_id" (VStr user_id)] ;;
     doc <- (if doc_falsy doc then
               let profile :=
                 Profile.make user_id "Pengguna" (user_id +:+ "@example.com") in
               create_document "profile" (Profile.model_dump profile) ;;
               db_find_one "profile" [FEq "user_id" (VStr user_id)]
             else ret doc) ;;
     ret (_to_json doc)).

(** [os_times] is [None] when [os] has no attribute [times] and
    otherwise the [elapsed] field of [os.times()] at the call. *)
Definition profile_update (os_times : option float)
    (payload : ProfileUpdate.t) : update :=
  let update :=
    {| op_set := {["updated_at" := opt_value VFloat os_times]};
       op_addToSet := None; op_pull := None |} in
  let update :=
    match ProfileUpdate.name payload with
    | Some v => set_field "name" (VStr v) update
    | None => update
    end in
  let update :=
    match ProfileUpdate.avatar_url payload with
    | Some v => set_field "avatar_url" (VStr v) update
    | None => update
    end in
  let update :=
    match ProfileUpdate.favorite_gesture_slug payload with
    | Some v =>
        if truthy v then
          if ProfileUpdate.remove_favorite payload
          then setdefault_pull "favorite_gesture_slugs" (VStr v) update
          else setdefault_addToSet "favorite_gesture_slugs" (VStr v) update
        else update
    | None => update
    end in
  match ProfileUpdate.completed_module_slug payload with
  | Some v =>
      if truthy v
      then setdefault_addToSet "completed_module_slugs" (VStr v) update
      else update
  | None => update
  end.

Definition update_profile (os_times : option float) (db : option store)
    (user_id : string) (payload : ProfileUpdate.t)
    : outcome (option doc) * option store :=
  with_db db (Raise (HTTPException 500 "Database not available"))
    (let update := profile_update os_times payload in
     db_update_one "profile" [FEq "user_id" (VStr user_id)] update true ;;
     doc <- db_find_one "profile" [FEq "user_id" (VStr user_id)] ;;
     ret (_to_json doc)).

Definition get_accessibility (db : option store) (user_id : string)
    : outcome (option doc) * option store :=
  with_db db (Ok (Some ∅))
    (doc <- db_find_one "accessibility" [FEq "user_id" (VStr user_id)] ;;
     doc <- (if doc_falsy doc then
               let pref := Accessibility.make user_id in
               create_document "accessibility" (Accessibility.model_dump pref) ;;
               db_find_one "accessibility" [FEq "user_id" (VStr user_id)]
             else ret doc) ;;
     ret (_to_json doc)).

Definition accessibility_update (payload : AccessibilityUpdate.t) : update :=
  let update := {| op_set := ∅; op_addToSet := None; op_pull := None |} in
  foldl (fun update kv => set_field kv.1 kv.2 update) update
    (AccessibilityUpdate.model_dump_exclude_none payload).

Definition update_accessibility (db : option store) (user_id : string)
    (payload : AccessibilityUpdate.t)
    : outcome (option doc) * option store :=
  with_db db (Raise (HTTPException 500 "Database not available"))
    (let update := accessibility_update payload in
     db_update_one "accessibility" [FEq "user_id" (VStr user_id)] update true ;;
     doc <- db_find_one "accessibility" [FEq "user_id" (VStr user_id)] ;;
     ret (_to_json doc)).

Definition seed_data (db : option store) : outcome doc * option store :=
  with_db db (Ok {["inserted" := VInt 0]})
    (n <- db_count_documents "gesture" [] ;;
     (if (n =? 0)%nat then
        for_each sample_gestures
          (fun g => create_document "gesture" (Gesture.model_dump g))
      else ret tt) ;;
     n <- db_count_documents "module" [] ;;
     (if (n =? 0)%nat then
        for_each sample_modules
          (fun m => create_document "module" (Module_.model_dump m))
      else ret tt) ;;
     n <- db_count_documents "quiz" [] ;;
     (if (n =? 0)%nat then
        create_document "quiz" (Quiz.model_dump sample_quiz)
      else ret tt) ;;
     ret {["status" := VStr "ok"]}).
End Handlers.

(** ** Requests and the stores they lead to *)

Inductive request :=
  | ListGestures (q category difficulty : option string) (page limit : Z)
  | GetGesture (slug : string)
  | ListModules
  | GetModule (slug : string)
  | GetQuiz (slug : string)
  | GetProfile (user_id : string)
  | UpdateProfile (os_times : option float) (user_id : string)
      (payload : ProfileUpdate.t)
  | GetAccessibility (user_id : string)
  | UpdateAccessibility (user_id : string) (payload : AccessibilityUpdate.t)
  | SeedData.

(** The database after the handler of a request has run. *)
Definition serve `{Runtime} (r : request) (db : option store) : option store :=
  match r with
  | ListGestures q category difficulty page limit =>
      (list_gestures db q category difficulty page limit).2
  | GetGesture slug => (get_gesture db slug).2
  | ListModules => (list_modules db).2
  | GetModule slug => (get_module db slug).2
  | GetQuiz slug => (get_quiz db slug).2
  | GetProfile user_id => (get_profile db user_id).2
  | UpdateProfile os_times user_id payload =>
      (update_profile os_times db user_id payload).2
  | GetAccessibility user_id => (get_accessibility db user_id).2
  | UpdateAccessibility user_id payload =>
      (update_accessibility db user_id payload).2
  | SeedData => (seed_data db).2
  end.

(** The stores that requests lead to from the empty one. *)
Inductive reachable `{Runtime} : store -> Prop :=
  | reachable_empty : reachable empty_store
  | reachable_serve st r st' :
      reachable st -> serve r (Some st) = Some st' -> reachable st'.

(** A slug list is absent or an array without a repeated string. *)
Definition slugs_wf (o : option value) : Prop :=
  match o with
  | None => True
  | Some (VList l) => forall s, count_str s l <= 1
  | Some _ => False
  end.

Definition profile_wf (d : doc) : Prop :=
  slugs_wf (d !! "favorite_gesture_slugs")
  /\ slugs_wf (d !! "completed_module_slugs").

Definition profiles_wf (st : store) : Prop :=
  Forall profile_wf (coll st "profile").

(** ** The text match of the spec *)

(** ASCII case folding. *)
Definition lower (c : ascii) : ascii :=
  let n := N_of_ascii c in
  if (65 <=? n)%N && (n <=? 90)%N then ascii_of_N (n + 32) else c.

Fixpoint lower_string (s : string) : string :=
  match s with
  | EmptyString => EmptyString
  | String c s' => String (lower c) (lower_string s')
  end.

(** [s] contains [q] as a case-insensitive substring. *)
Definition contains_ci (q s : string) : Prop :=
  exists pre post, lower_string s = pre +:+ lower_string q +:+ post.

(** The gesture [g] matches the text [q]: its name or one of its tags
    contains [q]. *)
Definition text_match (q : string) (g : Gesture.t) : Prop :=
  contains_ci q (Gesture.name g)
  \/ exists t, In t (Gesture.tags g) /\ contains_ci q t.

(** The stored document [d] carries the name and the tags of [g]. *)
Definition is_gesture (d : doc) (g : Gesture.t) : Prop :=
  d !! "name" = Some (VStr (Gesture.name g))
  /\ d !! "tags" = Some (str_list (Gesture.tags g)).

(** ** A runtime to compute with

    A regular expression engine for the patterns made of ordinary
    characters and [.]; every other pattern is refused.  [.] stands for any
    character but a newline, and the option [i] folds ASCII case. *)

Inductive atom :=
  | Lit (c : ascii)
  | Dot.

Definition metachar (c : ascii) : bool :=
  existsb (Ascii.eqb c) (list_ascii_of_string "\^$.|?*+()[]{}").

Fixpoint parse (p : string) : option (list atom) :=
  match p with
  | EmptyString => Some []
  | String c p' =>
      match parse p' with
      | Some r =>
          if Ascii.eqb c "."%char then Some (Dot :: r)
          else if metachar c then None
          else Some (Lit c :: r)
      | None => None
      end
  end.

Definition atom_matches (caseless : bool) (a : atom) (c : ascii) : bool :=
  match a with
  | Lit x => if caseless then Ascii.eqb (lower x) (lower c) else Ascii.eqb x c
  | Dot => negb (Ascii.eqb c "010"%char)
  end.

Fixpoint match_here (caseless : bool) (r : list atom) (s : string) : bool :=
  match r with
  | [] => true
  | a :: r' =>
      match s with
      | String c s' => atom_matches caseless a c && match_here caseless r' s'
      | EmptyString => false
      end
  end.

Fixpoint search (caseless : bool) (r : list atom) (s : string) : bool :=
  match_here caseless r s
  || match s with
     | String _ s' => search caseless r s'
     | EmptyString => false
     end.

Definition fragment_regex (pattern options : string)
    : option (string -> bool) :=
  match parse pattern with
  | Some r =>
      Some (search (existsb (Ascii.eqb "i"%char) (list_ascii_of_string options)) r)
  | None => None
  end.

Definition hex_digit (n : N) : ascii :=
  nth (N.to_nat n) (list_ascii_of_string "0123456789abcdef") "0"%char.

Fixpoint hex (digits : nat) (n : N) : string :=
  match digits with
  | O => EmptyString
  | S k => hex k (n / 16) +:+ String (hex_digit (n mod 16)) EmptyString
  end.

(** [str] of an [ObjectId] is its 24 hexadecimal digits. *)
Definition id_str (v : value) : string :=
  match v with
  | VObjectId n => hex 24 n
  | VStr s => s
  | _ => EmptyString
  end.

Definition fragment_runtime : Runtime :=
  {| regex_compile := fragment_regex; py_str := id_str |}.

(** ** Reading the store back *)

(** [d] is a document the filter [{"user_id": u}] selects. *)
Definition has_user (u : string) (d : doc) : bool :=
  match d !! "user_id" with
  | Some fv => eq_value (VStr u) fv
  | None => false
  end.

(** The document of collection [c] that the handlers read and update for
    the user [u]: the first one the filter selects. *)
Definition user_doc (st : store) (c u : string) : option doc :=
  head (List.filter (has_user u) (coll st c)).

(** The value of field [k] in that document, if there is one. *)
Definition user_field (st : store) (c u k : string) : option value :=
  match user_doc st c u with
  | Some d => d !! k
  | None => None
  end.

(** What a body of [POST /api/accessibility/{user_id}] supplies for the
    field [k]: the non-null fields among the four of the class. *)
Definition supplied (p : AccessibilityUpdate.t) (k : string) : option value :=
  if String.eqb k "dark_mode" then VBool <$> AccessibilityUpdate.dark_mode p
  else if String.eqb k "high_contrast"
       then VBool <$> AccessibilityUpdate.high_contrast p
  else if String.eqb k "font_scale"
       then VFloat <$> AccessibilityUpdate.font_scale p
  else if String.eqb k "reduce_motion"
       then VBool <$> AccessibilityUpdate.reduce_motion p
  else None.

(** The three operator documents of [profile_update], read field by field. *)
Definition profile_set (os_times : option float) (p : ProfileUpdate.t)
    (k : string) : option value :=
  if String.eqb k "updated_at" then Some (opt_value VFloat os_times)
  else if String.eqb k "name" then VStr <$> ProfileUpdate.name p
  else if String.eqb k "avatar_url" then VStr <$> ProfileUpdate.avatar_url p
  else None.

Definition profile_adds (p : ProfileUpdate.t) (k : string) : option value :=
  if String.eqb k "favorite_gesture_slugs" then
    match ProfileUpdate.favorite_gesture_slug p with
    | Some v =>
        if truthy v && negb (ProfileUpdate.remove_favorite p)
        then Some (VStr v) else None
    | None => None
    end
  else if String.eqb k "completed_module_slugs" then
    match ProfileUpdate.completed_module_slug p with
    | Some v => if truthy v then Some (VStr v) else None
    | None => None
    end
  else None.

Definition profile_pulls (p : ProfileUpdate.t) (k : string) : option value :=
  if String.eqb k "favorite_gesture_slugs" then
    match ProfileUpdate.favorite_gesture_slug p with
    | Some v =>
        if truthy v && ProfileUpdate.remove_favorite p
        then Some (VStr v) else None
    | None => None
    end
  else None.

(** Field [k] of a profile after the update, from its value before. *)
Definition profile_after (os_times : option float) (p : ProfileUpdate.t)
    (k : string) (old : option value) : option value :=
  with_op pull_from (profile_pulls p k)
    (with_op add_to_set (profile_adds p k)
       (match profile_set os_times p k with
        | Some v => Some v
        | None => old
        end)).

(** The two slug lists of a profile are arrays where they are present. *)
Definition slug_lists_ok (d : doc) : bool :=
  array_or_absent (d !! "favorite_gesture_slugs")
  && array_or_absent (d !! "completed_module_slugs").

(** The same of the profile of a user, where there is one. *)
Definition profile_lists_ok (o : option doc) : bool :=
  match o with
  | Some d => slug_lists_ok d
  | None => true
  end.

(** The profile of a user, where there is one, can take another favorite
    [s]: its completed modules are an array or absent, and its favorites
    are absent or an array that holds [s] at most once. *)
Definition favorites_ok (s : string) (o : option doc) : Prop :=
  match o with
  | None => True
  | Some d =>
      array_or_absent (d !! "completed_module_slugs") = true
      /\ match d !! "favorite_gesture_slugs" with
         | None => True
         | Some (VList l) => count_str s l <= 1
         | Some _ => False
         end
  end.

(** [updated_at] of the stored profile of [u] is unset or null. *)
Definition updated_at_unset (st : store) (u : string) : Prop :=
  user_field st "profile" u "updated_at" = None
  \/ user_field st "profile" u "updated_at" = Some VNull.

(** ** Inputs to run the handlers on *)

(** A body that only sets [font_scale]. *)
Definition font_scale_body (x : float) : AccessibilityUpdate.t :=
  {| AccessibilityUpdate.dark_mode := None;
     AccessibilityUpdate.high_contrast := None;
     AccessibilityUpdate.font_scale := Some x;
     AccessibilityUpdate.reduce_motion := None |}.

(** A store in which the user ["u"] has read their preferences and their
    profile once. *)
Definition visited_store : store :=
  insert_one
    (insert_one empty_store "accessibility"
       (Accessibility.model_dump (Accessibility.make "u")))
    "profile"
    (Profile.model_dump (Profile.make "u" "Pengguna" "u@example.com")).

(** A body of [POST /api/profile/{user_id}] that only names the user. *)
Definition name_body (n : string) : ProfileUpdate.t :=
  {| ProfileUpdate.name := Some n; ProfileUpdate.avatar_url := None;
     ProfileUpdate.favorite_gesture_slug := None;
     ProfileUpdate.remove_favorite := false;
     ProfileUpdate.completed_module_slug := None |}.

(** A reading of [os.times().elapsed]. *)
Definition elapsed_reading : float := 17180053.37%float.

(** The profile [get_profile] makes up for a user it does not know. *)
Definition default_profile (user_id : string) : doc :=
  Profile.model_dump
    (Profile.make user_id "Pengguna" (user_id +:+ "@example.com")).

(** The sample documents [seed_data] holds for a catalog collection. *)
Definition catalog_samples (c : string) : list doc :=
  if String.eqb c "gesture" then map Gesture.model_dump sample_gestures
  else if String.eqb c "module" then map Module_.model_dump sample_modules
  else if String.eqb c "quiz" then [Quiz.model_dump sample_quiz]
  else [].

(** One block of [seed_data] on the store: the documents go into the
    collection when it holds none. *)
Definition seed_block (c : string) (docs : list doc) (st : store) : store :=
  match coll st c with
  | [] => foldl (fun s d => insert_one s c d) st docs
  | _ :: _ => st
  end.

(** The store after the three blocks of [seed_data]. *)
Definition seed_all (st : store) : store :=
  seed_block "quiz" (catalog_samples "quiz")
    (seed_block "module" (catalog_samples "module")
       (seed_block "gesture" (catalog_samples "gesture") st)).

(** ** The listing, as the spec words it *)

(** A query parameter that is given: present and not empty. *)
Definition given (o : option string) : option string :=
  match o with
  | Some s => if truthy s then Some s else None
  | None => None
  end.

(** The field [k] of [d] is the string [s], or a list that holds it. *)
Definition field_is (k s : string) (d : doc) : bool :=
  match d !! k with
  | Some (VStr w) => String.eqb s w
  | Some (VList vs) =>
      existsb (fun x => match x with
                        | VStr w => String.eqb s w
                        | _ => false
                        end) vs
  | _ => false
  end.

(** The expression [m] finds a match in the field [k] of [d]: in the
    string it holds, or in a string of the list it holds. *)
Definition field_hit (m : string -> bool) (k : string) (d : doc) : bool :=
  match d !! k with
  | Some (VStr w) => m w
  | Some (VList vs) =>
      existsb (fun x => match x with VStr w => m w | _ => false end) vs
  | _ => false
  end.

(** The store accepts the text query: none is given, or the one given is
    a regular expression of its engine. *)
Definition text_accepted `{Runtime} (q : option string) : bool :=
  match given q with
  | Some s =>
      match regex_compile s "i" with
      | Some _ => true
      | None => false
      end
  | None => true
  end.

(** The document [d] matches the filter: the text query, where given,
    finds a match in its name or in one of its tags, and its category and
    its difficulty are the ones given. *)
Definition gesture_selected `{Runtime} (q category difficulty : option string)
    (d : doc) : bool :=
  match given q with
  | Some s =>
      match regex_compile s "i" with
      | Some m => field_hit m "name" d || field_hit m "tags" d
      | None => false
      end
  | None => true
  end
  && match given category with
     | Some c => field_is "category" c d
     | None => true
     end
  && match given difficulty with
     | Some c => field_is "difficulty" c d
     | None => true
     end.

(** ** The text search, as the spec words it *)

(** The expression [m] finds a match in the name of the gesture [g] or in
    one of its tags. *)
Definition regex_match (m : string -> bool) (g : Gesture.t) : Prop :=
  m (Gesture.name g) = true
  \/ exists t, In t (Gesture.tags g) /\ m t = true.

(** The query [q] selects, among the gestures the other filters select,
    exactly those in whose name or in one of whose tags [m] finds a
    match. *)
Definition text_search_by `{Runtime} (m : string -> bool) (st : store)
    (q : string) (category difficulty : option string) : Prop :=
  exists found others,
    find st "gesture" (gesture_filter (Some q) category difficulty) = Ok found
    /\ find st "gesture" (gesture_filter None category difficulty) = Ok others
    /\ forall d g, is_gesture d g ->
         (In d found <-> In d others /\ regex_match m g).

(** The query [q] selects, among the gestures the other filters select,
    exactly those whose name or one of whose tags contains [q]. *)
Definition text_search_exact `{Runtime} (st : store) (q : string)
    (category difficulty : option string) : Prop :=
  exists found others,
    find st "gesture" (gesture_filter (Some q) category difficulty) = Ok found
    /\ find st "gesture" (gesture_filter None category difficulty) = Ok others
    /\ forall d g, is_gesture d g ->
         (In d found <-> In d others /\ text_match q g).

(** A store that holds the sample gesture "A" and nothing else. *)
Definition one_gesture_store : store :=
  insert_one empty_store "gesture" (Gesture.model_dump gesture_a).

(** The atoms of a pattern of plain characters. *)
Definition literals (q : string) : list atom :=
  map Lit (list_ascii_of_string q).

(** ** Reading the catalog back *)

(** [d] is a document the filter [{"slug": slug}] selects. *)
Definition has_slug (slug : string) (d : doc) : bool :=
  match d !! "slug" with
  | Some fv => eq_value (VStr slug) fv
  | None => false
  end.

(** The document of collection [c] that a lookup by slug reads: the first
    one the filter selects. *)
Definition slug_doc (st : store) (c slug : string) : option doc :=
  head (List.filter (has_slug slug) (coll st c)).

(** The preferences [get_accessibility] makes up for a user it does not
    know. *)
Definition default_accessibility (user_id : string) : doc :=
  Accessibility.model_dump (Accessibility.make user_id).

(** The elements of a slug list; none where the field is absent. *)
Definition slug_list (o : option value) : list value :=
  match o with
  | Some (VList l) => l
  | _ => []
  end.

(** The fields a profile update can write. *)
Definition profile_update_fields : list string :=
  ["updated_at"; "name"; "avatar_url";
   "favorite_gesture_slugs"; "completed_module_slugs"].

(** A body that adds the favorite "halo". *)
Definition like_halo_body : ProfileUpdate.t :=
  {| ProfileUpdate.name := None; ProfileUpdate.avatar_url := None;
     ProfileUpdate.favorite_gesture_slug := Some "halo";
     ProfileUpdate.remove_favorite := false;
     ProfileUpdate.completed_module_slug := None |}.

(** [visited_store] after the user "u" has added the favorite "halo". *)
Definition liked_store : store :=
  default visited_store
    (serve (H := fragment_runtime)
       (UpdateProfile (Some elapsed_reading) "u" like_halo_body)
       (Some visited_store)).

(** The items of a page of the gesture listing; none where the listing
    fails. *)
Definition page_items `{Runtime} (st : store)
    (q category difficulty : option string) (page limit : Z)
    : list (option doc) :=
  match (list_gestures (Some st) q category difficulty page limit).1 with
  | Ok r => items r
  | Raise _ => []
  end.

(** ** What a request can do to the store *)

Definition catalog_collections : list string := ["gesture"; "module"; "quiz"].

Definition user_collections : list string := ["profile"; "accessibility"].

(** The collections the handler of a request writes to. *)
Definition touched (r : request) : list string :=
  match r with
  | GetProfile _ | UpdateProfile _ _ _ => ["profile"]
  | GetAccessibility _ | UpdateAccessibility _ _ => ["accessibility"]
  | SeedData => catalog_collections
  | _ => []
  end.

(** The user a request is about. *)
Definition request_user (r : request) : option string :=
  match r with
  | GetProfile u | UpdateProfile _ u _
  | GetAccessibility u | UpdateAccessibility u _ => Some u
  | _ => None
  end.

(** The four ways in which a handler leaves the store: as it was; with the
    document of its user updated in place, under the same [user_id]; with a
    document for its user appended, where there was none; seeded. *)
Inductive effect (cs : list string) (ou : option string) (st : store)
    : store -> Prop :=
  | effect_none : effect cs ou st st
  | effect_update c u d d' l1 l2 :
      In c cs -> In c user_collections -> ou = Some u ->
      user_doc st c u = Some d ->
      coll st c = l1 ++ d :: l2 ->
      d' !! "user_id" = d !! "user_id" ->
      effect cs ou st (set_coll st c (l1 ++ d' :: l2))
  | effect_insert c u d0 :
      In c cs -> In c user_collections -> ou = Some u ->
      user_doc st c u = None ->
      d0 !! "_id" = None ->
      d0 !! "user_id" = Some (VStr u) ->
      effect cs ou st (insert_one st c d0)
  | effect_seed :
      cs = catalog_collections -> effect cs ou st (seed_all st).

(** Every document of a user collection names its user by a string, and no
    two documents of the collection are of the same user. *)
Definition user_ids_ok (l : list doc) : Prop :=
  Forall (fun d => exists w, d !! "user_id" = Some (VStr w)) l
  /\ forall u, length (List.filter (has_user u) l) <= 1.

Definition users_unique (st : store) : Prop :=
  Forall (fun c => user_ids_ok (coll st c)) user_collections.

(** Every catalog collection is empty or holds the sample documents. *)
Definition catalog_fixed (st : store) : Prop :=
  Forall (fun c => coll st c = []
                   \/ map (delete "_id") (coll st c) = catalog_samples c)
    catalog_collections.

(** * Properties *)

(** ** The model on small inputs *)

Example doc_falsy_empty : doc_falsy (Some ∅) = true.
Proof. reflexivity. Qed.

Example doc_falsy_stored_doc : doc_falsy (Some {["_id" := VObjectId 0]}) = false.
Proof. reflexivity. Qed.

Example no_common_key_disjoint :
  no_common_key {["name" := VNull]} {["tags" := VNull]} = true.
Proof. reflexivity. Qed.

Example no_common_key_shared :
  no_common_key {["name" := VNull]} {["name" := VInt 1]} = false.
Proof. reflexivity. Qed.

Example add_to_set_new :
  add_to_set (VStr "halo") (Some (VList [VStr "a"]))
  = Some (VList [VStr "a"; VStr "halo"]).
Proof. reflexivity. Qed.

Example add_to_set_present :
  add_to_set (VStr "halo") (Some (VList [VStr "halo"; VStr "a"]))
  = Some (VList [VStr "halo"; VStr "a"]).
Proof. reflexivity. Qed.

Example pull_from_all :
  pull_from (VStr "a") (Some (VList [VStr "a"; VStr "b"; VStr "a"]))
  = Some (VList [VStr "b"]).
Proof. reflexivity. Qed.

Example apply_update_non_array :
  apply_update
    {| op_set := ∅; op_addToSet := Some {["tags" := VStr "x"]};
       op_pull := None |}
    {["tags" := VStr "not an array"]}
  = Raise (StoreError "Cannot apply $addToSet to non-array field").
Proof. reflexivity. Qed.

Example fragment_regex_refuses_star : fragment_regex "a*" "i" = None.
Proof. reflexivity. Qed.

Example fragment_regex_caseless :
  (fun m => m "Terima kasih") <$> fragment_regex "KASIH" "i" = Some true.
Proof. reflexivity. Qed.

Example fragment_regex_case_sensitive :
  (fun m => m "Terima kasih") <$> fragment_regex "KASIH" "" = Some false.
Proof. reflexivity. Qed.

Example seed_counts :
  map (fun c => length (coll (seed_all empty_store) c))
    ["gesture"; "module"; "quiz"; "profile"]
  = [3; 1; 1; 0].
Proof. reflexivity. Qed.

Example list_gestures_halo :
  (fun r => match r with Ok pg => Some (total pg, length (items pg))
                    | Raise _ => None end)
    (list_gestures (H := fragment_runtime) (Some (seed_all empty_store))
       (Some "HALO") None None 1 24).1
  = Some (1, 1).
Proof. reflexivity. Qed.

Example list_gestures_category :
  (fun r => match r with Ok pg => Some (total pg, length (items pg))
                    | Raise _ => None end)
    (list_gestures (H := fragment_runtime) (Some (seed_all empty_store))
       None (Some "basic") (Some "easy") 1 1).1
  = Some (2, 1).
Proof. reflexivity. Qed.

Example get_gesture_unknown :
  (get_gesture (H := fragment_runtime) (Some (seed_all empty_store)) "nope").1
  = Raise (HTTPException 404 "Gesture not found").
Proof. reflexivity. Qed.

(** ** Lists of documents *)

Lemma head_filter_split {A} (p : A -> bool) (l : list A) (d : A) :
  head (List.filter p l) = Some d ->
  exists l1 l2, l = l1 ++ d :: l2 /\ List.filter p l1 = [] /\ p d = true.
Proof.
  induction l as [|x l IH]; simpl; [discriminate|].
  destruct (p x) eqn:Hx; simpl.
  - intros [= ->]. exists [], l. auto.
  - intros Hd. destruct (IH Hd) as (l1 & l2 & -> & Hl1 & Hp).
    exists (x :: l1), l2. simpl. rewrite Hx. auto.
Qed.

Lemma head_filter_hit {A} (p : A -> bool) (l1 l2 : list A) (d : A) :
  List.filter p l1 = [] -> p d = true ->
  head (List.filter p (l1 ++ d :: l2)) = Some d.
Proof.
  intros Hl1 Hd. rewrite List.filter_app, Hl1. simpl. now rewrite Hd.
Qed.

Lemma update_first_miss (p : doc -> bool) f (l : list doc) :
  List.filter p l = [] -> update_first p f l = None.
Proof.
  induction l as [|x l IH]; simpl; [reflexivity|].
  destruct (p x); [discriminate|]. intros Hl. now rewrite IH.
Qed.

Lemma update_first_hit (p : doc -> bool) f (l1 l2 : list doc) (d : doc) :
  List.filter p l1 = [] -> p d = true ->
  update_first p f (l1 ++ d :: l2)
  = Some (match f d with
          | Ok d' => Ok (l1 ++ d' :: l2)
          | Raise e => Raise e
          end).
Proof.
  induction l1 as [|x l1 IH]; simpl; intros Hl1 Hd.
  - now rewrite Hd.
  - destruct (p x); [discriminate|]. rewrite (IH Hl1 Hd).
    now destruct (f d).
Qed.

Lemma head_filter_none {A} (p : A -> bool) (l : list A) :
  head (List.filter p l) = None -> List.filter p l = [].
Proof. now destruct (List.filter p l). Qed.

(** ** Collections of a store *)

Lemma coll_set_coll st c l : coll (set_coll st c l) c = l.
Proof. unfold coll, set_coll. simpl. now rewrite lookup_insert_eq. Qed.

Lemma coll_set_coll_ne st c c' l : c <> c' -> coll (set_coll st c l) c' = coll st c'.
Proof. intros Hne. unfold coll, set_coll. simpl. now rewrite lookup_insert_ne. Qed.

Lemma coll_insert_one st c d :
  coll (insert_one st c d) c
  = coll st c ++ [match d !! "_id" with
                  | Some _ => d
                  | None => <["_id" := VObjectId (next_id st)]> d
                  end].
Proof. unfold coll at 1, insert_one. simpl. now rewrite lookup_insert_eq. Qed.

Lemma coll_insert_one_ne st c c' d :
  c <> c' -> coll (insert_one st c d) c' = coll st c'.
Proof. intros Hne. unfold coll, insert_one. simpl. now rewrite lookup_insert_ne. Qed.

(** ** Update documents *)

Lemma diag_None_with_op f (a b : option value) :
  diag_None (with_op f) a b = with_op f a b.
Proof. now destruct a, b. Qed.

Lemma apply_update_lookup u d d' k :
  apply_update u d = Ok d' ->
  d' !! k
  = with_op pull_from (default ∅ (op_pull u) !! k)
      (with_op add_to_set (default ∅ (op_addToSet u) !! k)
         (match op_set u !! k with
          | Some v => Some v
          | None => d !! k
          end)).
Proof.
  unfold apply_update.
  destruct (negb _); [discriminate|].
  destruct (negb _); [discriminate|].
  destruct (negb _); [discriminate|].
  intros [= <-]. rewrite !lookup_merge, !diag_None_with_op, lookup_union.
  now destruct (op_set u !! k), (d !! k).
Qed.

Lemma no_common_key_true (a b : gmap string value) :
  (forall k, a !! k = None \/ b !! k = None) -> no_common_key a b = true.
Proof.
  intros Hk. apply bool_decide_eq_true. intros k v Hv.
  destruct (Hk k) as [Ha|Hb]; congruence.
Qed.

Lemma arrays_at_true (ops : gmap string value) (d : doc) :
  (forall k, ops !! k = None \/ array_or_absent (d !! k) = true) ->
  arrays_at ops d = true.
Proof.
  intros Hk. apply bool_decide_eq_true. intros k v Hv.
  destruct (Hk k) as [Ha|Hb]; congruence.
Qed.

Lemma arrays_at_lookup (ops : gmap string value) (d : doc) k v :
  arrays_at ops d = true -> ops !! k = Some v -> array_or_absent (d !! k) = true.
Proof.
  intros Ha Hv. apply bool_decide_eq_true in Ha. exact (Ha k v Hv).
Qed.

(** ** Reading and updating by [user_id] *)

Section ByUser.
Context `{Runtime}.

Lemma matches_by_user u d :
  matches [FEq "user_id" (VStr u)] d = has_user u d.
Proof.
  unfold matches, has_user. simpl. rewrite andb_true_r.
  now destruct (d !! "user_id").
Qed.

Lemma filter_by_user u l :
  List.filter (matches [FEq "user_id" (VStr u)]) l = List.filter (has_user u) l.
Proof. apply List.filter_ext. intros d. apply matches_by_user. Qed.

Lemma find_one_by_user st c u :
  find_one st c [FEq "user_id" (VStr u)] = Ok (user_doc st c u).
Proof.
  unfold find_one, find, user_doc. simpl. now rewrite filter_by_user.
Qed.

Lemma has_user_set u d : d !! "user_id" = Some (VStr u) -> has_user u d = true.
Proof.
  unfold has_user. intros ->.
  change (eq_value (VStr u) (VStr u)) with (String.eqb u u || false).
  now rewrite String.eqb_refl.
Qed.

Lemma has_user_same u d d' :
  d' !! "user_id" = d !! "user_id" -> has_user u d' = has_user u d.
Proof. unfold has_user. now intros ->. Qed.

(** The update reaches the first document of the user and leaves the
    rest of the store as it was. *)
Lemma update_one_hit st c u upd d d' :
  user_doc st c u = Some d ->
  apply_update upd d = Ok d' ->
  d' !! "user_id" = d !! "user_id" ->
  exists l1 l2,
    coll st c = l1 ++ d :: l2
    /\ update_one st c [FEq "user_id" (VStr u)] upd true
       = Ok (set_coll st c (l1 ++ d' :: l2))
    /\ user_doc (set_coll st c (l1 ++ d' :: l2)) c u = Some d'.
Proof.
  intros Hd Hup Hid. unfold user_doc in Hd.
  destruct (head_filter_split _ _ _ Hd) as (l1 & l2 & Hl & Hl1 & Hp).
  exists l1, l2. split; [exact Hl|]. split.
  - unfold update_one. simpl. rewrite Hl.
    rewrite (update_first_hit _ _ l1 l2 d).
    + now rewrite Hup.
    + now rewrite filter_by_user.
    + now rewrite matches_by_user.
  - unfold user_doc. rewrite coll_set_coll.
    apply head_filter_hit; [exact Hl1|].
    now rewrite (has_user_same u d d').
Qed.

Lemma update_one_hit_raise st c u upd d e :
  user_doc st c u = Some d ->
  apply_update upd d = Raise e ->
  update_one st c [FEq "user_id" (VStr u)] upd true = Raise e.
Proof.
  intros Hd Hup. unfold user_doc in Hd.
  destruct (head_filter_split _ _ _ Hd) as (l1 & l2 & Hl & Hl1 & Hp).
  unfold update_one. simpl. rewrite Hl.
  rewrite (update_first_hit _ _ l1 l2 d).
  - now rewrite Hup.
  - now rewrite filter_by_user.
  - now rewrite matches_by_user.
Qed.

(** Without a document of the user, the upsert inserts one built from
    the filter and the update. *)
Lemma update_one_miss st c u upd :
  user_doc st c u = None ->
  update_one st c [FEq "user_id" (VStr u)] upd true
  = match apply_update upd {["user_id" := VStr u]} with
    | Ok d => Ok (insert_one st c d)
    | Raise e => Raise e
    end.
Proof.
  intros Hd. unfold user_doc in Hd. apply head_filter_none in Hd.
  unfold update_one. simpl. rewrite update_first_miss.
  - reflexivity.
  - now rewrite filter_by_user.
Qed.

Lemma user_doc_insert_one st c u d :
  user_doc st c u = None ->
  d !! "user_id" = Some (VStr u) -> d !! "_id" = None ->
  user_doc (insert_one st c d) c u
  = Some (<["_id" := VObjectId (next_id st)]> d).
Proof.
  intros Hd Hu Hi. unfold user_doc in *. apply head_filter_none in Hd.
  rewrite coll_insert_one, Hi, List.filter_app, Hd. simpl.
  rewrite has_user_set; [reflexivity|].
  now rewrite lookup_insert_ne.
Qed.
End ByUser.

(** ** Accessibility preferences *)

Section AccessibilityProps.
Context `{Runtime}.

Lemma accessibility_update_ops p :
  op_addToSet (accessibility_update p) = None
  /\ op_pull (accessibility_update p) = None.
Proof. now destruct p as [[?|] [?|] [?|] [?|]]. Qed.

Lemma accessibility_update_set p k :
  op_set (accessibility_update p) !! k
  = supplied p k.
Proof.
  unfold supplied.
  destruct (String.eqb_spec k "dark_mode") as [->|N1];
    [now destruct p as [[?|] [?|] [?|] [?|]]|].
  destruct (String.eqb_spec k "high_contrast") as [->|N2];
    [now destruct p as [[?|] [?|] [?|] [?|]]|].
  destruct (String.eqb_spec k "font_scale") as [->|N3];
    [now destruct p as [[?|] [?|] [?|] [?|]]|].
  destruct (String.eqb_spec k "reduce_motion") as [->|N4];
    [now destruct p as [[?|] [?|] [?|] [?|]]|].
  destruct p as [[?|] [?|] [?|] [?|]];
    unfold accessibility_update, AccessibilityUpdate.model_dump_exclude_none,
      set_field; simpl;
    rewrite ?lookup_insert_ne by congruence; apply lookup_empty.
Qed.

Lemma apply_accessibility_update p d :
  exists d', apply_update (accessibility_update p) d = Ok d'.
Proof.
  unfold apply_update.
  destruct (accessibility_update_ops p) as [-> ->]. simpl.
  rewrite !no_common_key_true by (intros k; right; apply lookup_empty).
  rewrite arrays_at_true by (intros k; left; apply lookup_empty).
  simpl. eauto.
Qed.

Lemma accessibility_update_lookup p d d' k :
  apply_update (accessibility_update p) d = Ok d' ->
  d' !! k = match supplied p k with
            | Some v => Some v
            | None => d !! k
            end.
Proof.
  intros Hup. rewrite (apply_update_lookup _ _ _ k Hup).
  destruct (accessibility_update_ops p) as [-> ->]. simpl.
  now rewrite lookup_empty, accessibility_update_set.
Qed.

(** The handler on a user with a stored document. *)
Lemma update_accessibility_hit st u p d d' :
  user_doc st "accessibility" u = Some d ->
  apply_update (accessibility_update p) d = Ok d' ->
  exists l1 l2,
    coll st "accessibility" = l1 ++ d :: l2
    /\ update_accessibility (Some st) u p
       = (Ok (_to_json (Some d')),
          Some (set_coll st "accessibility" (l1 ++ d' :: l2)))
    /\ user_doc (set_coll st "accessibility" (l1 ++ d' :: l2))
         "accessibility" u = Some d'.
Proof.
  intros Hd Hup.
  destruct (update_one_hit st "accessibility" u _ d d' Hd Hup)
    as (l1 & l2 & Hl & Hone & Hdoc).
  { now rewrite (accessibility_update_lookup p d d' "user_id" Hup). }
  exists l1, l2. split; [exact Hl|]. split; [|exact Hdoc].
  unfold update_accessibility, with_db, bind, db_update_one, db_find_one,
    query, ret.
  now rewrite Hone, find_one_by_user, Hdoc.
Qed.

(** The handler on a user without one: the upsert. *)
Lemma update_accessibility_miss st u p :
  user_doc st "accessibility" u = None ->
  exists d' st',
    update_accessibility (Some st) u p = (Ok (_to_json (Some d')), Some st')
    /\ user_doc st' "accessibility" u = Some d'
    /\ d' !! "_id" = Some (VObjectId (next_id st))
    /\ (forall k, k <> "_id" ->
          d' !! k = match supplied p k with
                    | Some v => Some v
                    | None => if String.eqb k "user_id" then Some (VStr u)
                              else None
                    end)
    /\ forall c, c <> "accessibility" -> coll st' c = coll st c.
Proof.
  intros Hd.
  destruct (apply_accessibility_update p {["user_id" := VStr u]}) as [d' Hup].
  pose proof (accessibility_update_lookup p {["user_id" := VStr u]} d') as Hk.
  specialize (fun k => Hk k Hup).
  assert (Hdoc : user_doc (insert_one st "accessibility" d') "accessibility" u
                 = Some (<["_id" := VObjectId (next_id st)]> d')).
  { apply user_doc_insert_one; [exact Hd| |]; now rewrite Hk. }
  exists (<["_id" := VObjectId (next_id st)]> d'),
    (insert_one st "accessibility" d').
  split; [|split; [exact Hdoc|split; [|split]]].
  - unfold update_accessibility, with_db, bind, db_update_one, db_find_one,
      query, ret.
    now rewrite (update_one_miss _ _ _ _ Hd), Hup, find_one_by_user, Hdoc.
  - apply lookup_insert_eq.
  - intros k Hne. rewrite lookup_insert_ne by congruence. rewrite Hk.
    destruct (supplied p k); [reflexivity|].
    destruct (String.eqb_spec k "user_id") as [->|Hu].
    + apply lookup_singleton_eq.
    + apply lookup_singleton_ne. congruence.
  - intros c Hc. now apply coll_insert_one_ne.
Qed.
End AccessibilityProps.

(** ** Profiles *)

Section ProfileProps.
Context `{Runtime}.

Ltac payload_red :=
  lazy beta iota zeta delta
    [profile_update setdefault_addToSet setdefault_pull set_field
     ProfileUpdate.name ProfileUpdate.avatar_url
     ProfileUpdate.favorite_gesture_slug ProfileUpdate.remove_favorite
     ProfileUpdate.completed_module_slug
     op_set op_addToSet op_pull default andb negb].

Ltac payload_cases p :=
  destruct p as [[?n|] [?a|] [f|] [|] [c|]];
  payload_red;
  try destruct (truthy f);
  try destruct (truthy c);
  payload_red.

Ltac map_lookup :=
  repeat first
    [ rewrite lookup_insert_eq
    | rewrite lookup_insert_ne by congruence
    | rewrite lookup_singleton_eq
    | rewrite lookup_singleton_ne by congruence
    | rewrite lookup_empty ].

(** The operator documents [profile_update] ends with. *)
Lemma profile_update_op_set os p :
  op_set (profile_update os p)
  = let m := {["updated_at" := opt_value VFloat os]} in
    let m := match ProfileUpdate.name p with
             | Some v => <["name" := VStr v]> m
             | None => m
             end in
    match ProfileUpdate.avatar_url p with
    | Some v => <["avatar_url" := VStr v]> m
    | None => m
    end.
Proof. payload_cases p; reflexivity. Qed.

Lemma profile_update_op_addToSet os p :
  default ∅ (op_addToSet (profile_update os p))
  = let m := ∅ in
    let m := match ProfileUpdate.favorite_gesture_slug p with
             | Some v =>
                 if truthy v && negb (ProfileUpdate.remove_favorite p)
                 then <["favorite_gesture_slugs" := VStr v]> m else m
             | None => m
             end in
    match ProfileUpdate.completed_module_slug p with
    | Some v =>
        if truthy v then <["completed_module_slugs" := VStr v]> m else m
    | None => m
    end.
Proof. payload_cases p; reflexivity. Qed.

Lemma profile_update_op_pull os p :
  default ∅ (op_pull (profile_update os p))
  = match ProfileUpdate.favorite_gesture_slug p with
    | Some v =>
        if truthy v && ProfileUpdate.remove_favorite p
        then <["favorite_gesture_slugs" := VStr v]> ∅ else ∅
    | None => ∅
    end.
Proof. payload_cases p; reflexivity. Qed.

Lemma profile_update_set os p k :
  op_set (profile_update os p) !! k = profile_set os p k.
Proof.
  rewrite profile_update_op_set. unfold profile_set.
  destruct p as [[n|] [a|] f r c];
    cbn [ProfileUpdate.name ProfileUpdate.avatar_url
         fmap option_fmap option_map];
    (destruct (String.eqb_spec k "updated_at") as [->|N1];
       [map_lookup; reflexivity|]);
    (destruct (String.eqb_spec k "name") as [->|N2];
       [map_lookup; reflexivity|]);
    (destruct (String.eqb_spec k "avatar_url") as [->|N3];
       map_lookup; reflexivity).
Qed.

Lemma profile_update_adds os p k :
  default ∅ (op_addToSet (profile_update os p)) !! k = profile_adds p k.
Proof.
  rewrite profile_update_op_addToSet. unfold profile_adds.
  destruct p as [n a [f|] r [c|]];
    cbn [ProfileUpdate.favorite_gesture_slug ProfileUpdate.remove_favorite
         ProfileUpdate.completed_module_slug];
    try destruct (truthy f); try destruct r; try destruct (truthy c);
    cbn [andb negb];
    (destruct (String.eqb_spec k "favorite_gesture_slugs") as [->|N1];
       [map_lookup; reflexivity|]);
    (destruct (String.eqb_spec k "completed_module_slugs") as [->|N2];
       map_lookup; reflexivity).
Qed.

Lemma profile_update_pulls os p k :
  default ∅ (op_pull (profile_update os p)) !! k = profile_pulls p k.
Proof.
  rewrite profile_update_op_pull. unfold profile_pulls.
  destruct p as [n a [f|] r c];
    cbn [ProfileUpdate.favorite_gesture_slug ProfileUpdate.remove_favorite];
    try destruct (truthy f); try destruct r; cbn [andb negb];
    (destruct (String.eqb_spec k "favorite_gesture_slugs") as [->|N1];
       map_lookup; reflexivity).
Qed.

Lemma profile_update_lookup os p d d' k :
  apply_update (profile_update os p) d = Ok d' ->
  d' !! k = profile_after os p k (d !! k).
Proof.
  intros Hup. rewrite (apply_update_lookup _ _ _ k Hup).
  now rewrite profile_update_set, profile_update_adds, profile_update_pulls.
Qed.

(** No field is named by two operators of the update. *)
Lemma profile_update_no_conflict os p :
  let u := profile_update os p in
  no_common_key (op_set u) (default ∅ (op_addToSet u))
  && no_common_key (op_set u) (default ∅ (op_pull u))
  && no_common_key (default ∅ (op_addToSet u)) (default ∅ (op_pull u))
  = true.
Proof.
  cbv zeta. rewrite !no_common_key_true; [reflexivity| | |]; intros k.
  - rewrite profile_update_adds, profile_update_pulls.
    unfold profile_adds, profile_pulls.
    destruct (String.eqb_spec k "favorite_gesture_slugs") as [->|N1];
      [|now right].
    destruct (ProfileUpdate.favorite_gesture_slug p) as [v|]; [|now right].
    destruct (truthy v), (ProfileUpdate.remove_favorite p); auto.
  - rewrite profile_update_set, profile_update_pulls.
    unfold profile_set, profile_pulls.
    destruct (String.eqb_spec k "favorite_gesture_slugs") as [->|N1];
      [now left|now right].
  - rewrite profile_update_set, profile_update_adds.
    unfold profile_set, profile_adds.
    destruct (String.eqb_spec k "favorite_gesture_slugs") as [->|N1];
      [now left|].
    destruct (String.eqb_spec k "completed_module_slugs") as [->|N2];
      [now left|now right].
Qed.

(** The update goes through on a document whose slug lists are arrays. *)
Lemma apply_profile_update_ok os p d :
  slug_lists_ok d = true ->
  exists d', apply_update (profile_update os p) d = Ok d'.
Proof.
  unfold slug_lists_ok. intros [Hf Hc]%andb_true_iff.
  unfold apply_update.
  rewrite (profile_update_no_conflict os p).
  rewrite !arrays_at_true; [simpl; eauto| |]; intros k.
  - rewrite profile_update_pulls. unfold profile_pulls.
    destruct (String.eqb_spec k "favorite_gesture_slugs") as [->|N1];
      [now right|now left].
  - rewrite profile_update_adds. unfold profile_adds.
    destruct (String.eqb_spec k "favorite_gesture_slugs") as [->|N1];
      [now right|].
    destruct (String.eqb_spec k "completed_module_slugs") as [->|N2];
      [now right|now left].
Qed.

Lemma profile_after_user_id os p old :
  profile_after os p "user_id" old = old.
Proof. reflexivity. Qed.

Lemma profile_after_id os p old : profile_after os p "_id" old = old.
Proof. reflexivity. Qed.

(** The handler on a user with a stored profile. *)
Lemma update_profile_hit os st u p d d' :
  user_doc st "profile" u = Some d ->
  apply_update (profile_update os p) d = Ok d' ->
  exists st',
    update_profile os (Some st) u p = (Ok (_to_json (Some d')), Some st')
    /\ user_doc st' "profile" u = Some d'
    /\ (forall k, d' !! k = profile_after os p k (d !! k))
    /\ exists l1 l2, coll st "profile" = l1 ++ d :: l2
                     /\ st' = set_coll st "profile" (l1 ++ d' :: l2).
Proof.
  intros Hd Hup.
  pose proof (fun k => profile_update_lookup os p d d' k Hup) as Hk.
  destruct (update_one_hit st "profile" u _ d d' Hd Hup)
    as (l1 & l2 & Hl & Hone & Hdoc).
  { now rewrite Hk, profile_after_user_id. }
  exists (set_coll st "profile" (l1 ++ d' :: l2)).
  split; [|split; [exact Hdoc|split; [exact Hk|now exists l1, l2]]].
  unfold update_profile, with_db, bind, db_update_one, db_find_one,
    query, ret.
  now rewrite Hone, find_one_by_user, Hdoc.
Qed.

(** A refused update leaves the store as it was. *)
Lemma update_profile_hit_raise os st u p d e :
  user_doc st "profile" u = Some d ->
  apply_update (profile_update os p) d = Raise e ->
  update_profile os (Some st) u p = (Raise e, Some st).
Proof.
  intros Hd Hup.
  unfold update_profile, with_db, bind, db_update_one, db_find_one,
    query, ret.
  now rewrite (update_one_hit_raise _ _ _ _ _ _ Hd Hup).
Qed.

(** The handler on a user without one: the upsert. *)
Lemma update_profile_miss os st u p :
  user_doc st "profile" u = None ->
  exists d' st',
    update_profile os (Some st) u p = (Ok (_to_json (Some d')), Some st')
    /\ user_doc st' "profile" u = Some d'
    /\ coll st' "profile" = coll st "profile" ++ [d']
    /\ forall k, k <> "_id" ->
         d' !! k = profile_after os p k
                     (({["user_id" := VStr u]} : doc) !! k).
Proof.
  intros Hd.
  destruct (apply_profile_update_ok os p {["user_id" := VStr u]})
    as [d' Hup]; [reflexivity|].
  pose proof (fun k => profile_update_lookup os p _ d' k Hup) as Hk.
  assert (Hdoc : user_doc (insert_one st "profile" d') "profile" u
                 = Some (<["_id" := VObjectId (next_id st)]> d')).
  { apply user_doc_insert_one; [exact Hd| |].
    - now rewrite Hk, profile_after_user_id.
    - now rewrite Hk, profile_after_id. }
  exists (<["_id" := VObjectId (next_id st)]> d'),
    (insert_one st "profile" d').
  split; [|split; [exact Hdoc|split]].
  - unfold update_profile, with_db, bind, db_update_one, db_find_one,
      query, ret.
    now rewrite (update_one_miss _ _ _ _ Hd), Hup, find_one_by_user, Hdoc.
  - rewrite coll_insert_one.
    now rewrite (Hk "_id"), profile_after_id.
  - intros k Hne. rewrite lookup_insert_ne by congruence. apply Hk.
Qed.

Lemma profile_after_untouched os p k old :
  profile_set os p k = None -> profile_adds p k = None ->
  profile_pulls p k = None ->
  profile_after os p k old = old.
Proof. unfold profile_after. now intros -> -> ->. Qed.

(** A field that no operator of the update names keeps its value,
    whether the update goes through or is refused. *)
Lemma update_profile_field_frame os st u p k :
  profile_set os p k = None -> profile_adds p k = None ->
  profile_pulls p k = None ->
  k <> "user_id" -> k <> "_id" ->
  exists r st',
    update_profile os (Some st) u p = (r, Some st')
    /\ user_field st' "profile" u k = user_field st "profile" u k.
Proof.
  intros Hs Ha Hp Hu Hi. unfold user_field.
  destruct (user_doc st "profile" u) as [d|] eqn:Hd.
  - destruct (apply_update (profile_update os p) d) as [d'|e] eqn:Hup.
    + destruct (update_profile_hit os st u p d d' Hd Hup)
        as (st' & Hrun & Hdoc & Hk & _).
      exists (Ok (_to_json (Some d'))), st'. split; [exact Hrun|].
      rewrite Hdoc, Hk. now apply profile_after_untouched.
    + exists (Raise e), st. split.
      * now apply update_profile_hit_raise with d.
      * now rewrite Hd.
  - destruct (update_profile_miss os st u p Hd)
      as (d' & st' & Hrun & Hdoc & _ & Hk).
    exists (Ok (_to_json (Some d'))), st'. split; [exact Hrun|].
    rewrite Hdoc, (Hk k Hi), (profile_after_untouched os p k) by assumption.
    apply lookup_singleton_ne. congruence.
Qed.

Lemma value_eqb_str s v : value_eqb (VStr s) v = is_str s v.
Proof. now destruct v. Qed.

Lemma existsb_count_str s l :
  existsb (value_eqb (VStr s)) l = negb (count_str s l =? 0)%nat.
Proof.
  unfold count_str. induction l as [|x l IH]; [reflexivity|].
  cbn [existsb List.filter]. rewrite value_eqb_str, IH.
  now destruct (is_str s x).
Qed.

Lemma count_str_snoc s l : count_str s (l ++ [VStr s]) = S (count_str s l).
Proof.
  unfold count_str. rewrite List.filter_app, length_app. simpl.
  rewrite String.eqb_refl. simpl. lia.
Qed.

(** After [$addToSet] of [s], an array that held [s] at most once holds
    it once. *)
Lemma add_to_set_count s old :
  match old with
  | None => True
  | Some (VList l) => count_str s l <= 1
  | Some _ => False
  end ->
  exists l, add_to_set (VStr s) old = Some (VList l) /\ count_str s l = 1.
Proof.
  destruct old as [[| | | | | |l|]|]; try contradiction; intros Hc;
    unfold add_to_set.
  - rewrite existsb_count_str.
    destruct (count_str s l) as [|[|m]] eqn:Hn; cbn [Nat.eqb negb].
    + exists (l ++ [VStr s]). split; [reflexivity|].
      now rewrite count_str_snoc, Hn.
    + now exists l.
    + lia.
  - exists [VStr s]. split; [reflexivity|].
    unfold count_str. simpl. now rewrite String.eqb_refl.
Qed.

Lemma add_to_set_array v old :
  array_or_absent old = true -> array_or_absent (add_to_set v old) = true.
Proof. now destruct old as [[| | | | | |l|]|]. Qed.

Lemma profile_after_add_favorite os n a s c old :
  truthy s = true ->
  profile_after os
    {| ProfileUpdate.name := n; ProfileUpdate.avatar_url := a;
       ProfileUpdate.favorite_gesture_slug := Some s;
       ProfileUpdate.remove_favorite := false;
       ProfileUpdate.completed_module_slug := c |}
    "favorite_gesture_slugs" old
  = add_to_set (VStr s) old.
Proof.
  intros Ht. unfold profile_after, profile_pulls, profile_adds, profile_set.
  simpl. now rewrite Ht.
Qed.

Lemma profile_after_completed_array os p old :
  array_or_absent old = true ->
  array_or_absent (profile_after os p "completed_module_slugs" old) = true.
Proof.
  intros Ho. unfold profile_after, profile_pulls, profile_adds, profile_set.
  simpl. destruct (ProfileUpdate.completed_module_slug p) as [w|]; simpl;
    [|exact Ho].
  destruct (truthy w); simpl; [|exact Ho]. now apply add_to_set_array.
Qed.

(** One request that adds the favorite [s]. *)
Lemma add_favorite_step os st u n a s c :
  truthy s = true ->
  favorites_ok s (user_doc st "profile" u) ->
  exists d' st' l,
    update_profile os (Some st) u
      {| ProfileUpdate.name := n; ProfileUpdate.avatar_url := a;
         ProfileUpdate.favorite_gesture_slug := Some s;
         ProfileUpdate.remove_favorite := false;
         ProfileUpdate.completed_module_slug := c |}
    = (Ok (_to_json (Some d')), Some st')
    /\ user_doc st' "profile" u = Some d'
    /\ d' !! "favorite_gesture_slugs" = Some (VList l)
    /\ count_str s l = 1
    /\ array_or_absent (d' !! "completed_module_slugs") = true.
Proof.
  intros Ht Hok.
  set (p := {| ProfileUpdate.name := n; ProfileUpdate.avatar_url := a;
               ProfileUpdate.favorite_gesture_slug := Some s;
               ProfileUpdate.remove_favorite := false;
               ProfileUpdate.completed_module_slug := c |}).
  destruct (user_doc st "profile" u) as [d|] eqn:Hd.
  - destruct Hok as [Hc Hf].
    destruct (apply_profile_update_ok os p d) as [d' Hup].
    { unfold slug_lists_ok. rewrite Hc, andb_true_r.
      now destruct (d !! "favorite_gesture_slugs") as [[| | | | | |l|]|]. }
    destruct (update_profile_hit os st u p d d' Hd Hup)
      as (st' & Hrun & Hdoc & Hk & _).
    destruct (add_to_set_count s (d !! "favorite_gesture_slugs") Hf)
      as (l & Hl & Hn).
    exists d', st', l. repeat split; try assumption.
    + rewrite Hk. unfold p. now rewrite profile_after_add_favorite.
    + rewrite Hk. now apply profile_after_completed_array.
  - destruct (update_profile_miss os st u p Hd)
      as (d' & st' & Hrun & Hdoc & _ & Hk).
    destruct (add_to_set_count s None I) as (l & Hl & Hn).
    exists d', st', l. repeat split; try assumption.
    + rewrite Hk by discriminate. unfold p.
      now rewrite profile_after_add_favorite.
    + rewrite Hk by discriminate. now apply profile_after_completed_array.
Qed.
End ProfileProps.

(** ** The claims about the accessibility preferences *)

Section AccessibilityClaims.
Context `{Runtime}.

(** C9: on a user with a stored Accessibility document, the update
    overwrites exactly the fields the body supplies (those that are not
    null among dark_mode, high_contrast, font_scale, reduce_motion);
    every other field of the document keeps its prior value, and the
    updated document is the one returned. *)
Theorem update_accessibility_frame st u p d :
  user_doc st "accessibility" u = Some d ->
  exists d' st' l1 l2,
    update_accessibility (Some st) u p = (Ok (_to_json (Some d')), Some st')
    /\ user_doc st' "accessibility" u = Some d'
    /\ (forall k, d' !! k = match supplied p k with
                            | Some v => Some v
                            | None => d !! k
                            end)
    /\ coll st "accessibility" = l1 ++ d :: l2
    /\ coll st' "accessibility" = l1 ++ d' :: l2.
Proof.
  intros Hd. destruct (apply_accessibility_update p d) as [d' Hup].
  destruct (update_accessibility_hit st u p d d' Hd Hup)
    as (l1 & l2 & Hl & Hrun & Hdoc).
  exists d', (set_coll st "accessibility" (l1 ++ d' :: l2)), l1, l2.
  split; [exact Hrun|]. split; [exact Hdoc|]. split; [|split].
  - intros k. exact (accessibility_update_lookup p d d' k Hup).
  - exact Hl.
  - apply coll_set_coll.
Qed.

(** C1, on the code: the schema bounds font_scale to [0.85, 1.6], which
    admits 1.2 and excludes 2.0, yet the body class of the update carries
    no bound: a body with any font_scale, 2.0 as well as 1.2, passes the
    validation, the handler answers normally, and that font_scale is what
    the store then holds. *)
Theorem update_accessibility_stores_any_font_scale st u x :
  check_float Accessibility.font_scale_field 1.2%float = true
  /\ check_float Accessibility.font_scale_field 2%float = false
  /\ AccessibilityUpdate.validate (font_scale_body x) = true
  /\ exists d' st',
       update_accessibility (Some st) u (font_scale_body x)
       = (Ok (_to_json (Some d')), Some st')
       /\ user_doc st' "accessibility" u = Some d'
       /\ d' !! "font_scale" = Some (VFloat x).
Proof.
  split; [reflexivity|]. split; [reflexivity|]. split; [reflexivity|].
  destruct (user_doc st "accessibility" u) as [d|] eqn:Hd.
  - destruct (apply_accessibility_update (font_scale_body x) d)
      as [d' Hup].
    destruct (update_accessibility_hit st u _ d d' Hd Hup)
      as (l1 & l2 & _ & Hrun & Hdoc).
    exists d', (set_coll st "accessibility" (l1 ++ d' :: l2)).
    repeat split; try assumption.
    now rewrite (accessibility_update_lookup _ d d' "font_scale" Hup).
  - destruct (update_accessibility_miss st u (font_scale_body x) Hd)
      as (d' & st' & Hrun & Hdoc & _ & Hk & _).
    exists d', st'. repeat split; try assumption.
    now rewrite Hk by discriminate.
Qed.

(** At the failing input: font_scale 2.0 for a user without preferences,
    on the empty store. *)
Example update_accessibility_stores_font_scale_2 :
  update_accessibility (H := fragment_runtime) (Some empty_store) "u"
    (font_scale_body 2%float)
  = (Ok (Some (<["id" := VStr "000000000000000000000000"]>
              (<["user_id" := VStr "u"]>
              (<["font_scale" := VFloat 2%float]> ∅)))),
     Some {| colls :=
               {["accessibility" :=
                   [ <["_id" := VObjectId 0]>
                     (<["user_id" := VStr "u"]>
                     (<["font_scale" := VFloat 2%float]> ∅)) ]]};
             next_id := 1 |}).
Proof. reflexivity. Qed.
End AccessibilityClaims.

Lemma update_accessibility_frame_witness :
  let d := <["_id" := VObjectId 0]>
             (Accessibility.model_dump (Accessibility.make "u")) in
  user_doc visited_store "accessibility" "u" = Some d
  /\ exists d' st' l1 l2,
       update_accessibility (H := fragment_runtime) (Some visited_store) "u"
         (font_scale_body 1.2%float)
       = (Ok (_to_json (H := fragment_runtime) (Some d')), Some st')
       /\ user_doc st' "accessibility" "u" = Some d'
       /\ (forall k, d' !! k = match supplied (font_scale_body 1.2%float) k with
                               | Some v => Some v
                               | None => d !! k
                               end)
       /\ coll visited_store "accessibility" = l1 ++ d :: l2
       /\ coll st' "accessibility" = l1 ++ d' :: l2.
Proof.
  split; [reflexivity|].
  apply (update_accessibility_frame (H := fragment_runtime)). reflexivity.
Defined.

(** ** The claims about profile updates *)

Section ProfileClaims.
Context `{Runtime}.

(** C10: an empty-string favorite_gesture_slug leaves
    favorite_gesture_slugs of the user's profile as it was, whatever
    remove_favorite says, and an empty-string completed_module_slug
    leaves completed_module_slugs as it was. *)
Theorem update_profile_empty_slug os st u n a rm f c :
  (exists r st',
     update_profile os (Some st) u
       {| ProfileUpdate.name := n; ProfileUpdate.avatar_url := a;
          ProfileUpdate.favorite_gesture_slug := Some "";
          ProfileUpdate.remove_favorite := rm;
          ProfileUpdate.completed_module_slug := c |}
     = (r, Some st')
     /\ user_field st' "profile" u "favorite_gesture_slugs"
        = user_field st "profile" u "favorite_gesture_slugs")
  /\ (exists r st',
        update_profile os (Some st) u
          {| ProfileUpdate.name := n; ProfileUpdate.avatar_url := a;
             ProfileUpdate.favorite_gesture_slug := f;
             ProfileUpdate.remove_favorite := rm;
             ProfileUpdate.completed_module_slug := Some "" |}
        = (r, Some st')
        /\ user_field st' "profile" u "completed_module_slugs"
           = user_field st "profile" u "completed_module_slugs").
Proof.
  split; apply update_profile_field_frame;
    try reflexivity; try discriminate.
Qed.

(** Two requests that add the same non-empty favorite [s] leave
    favorite_gesture_slugs holding [s] exactly once, on a profile that does
    not hold [s] twice already. *)
Lemma add_favorite_twice_ok os1 os2 st u s n1 a1 c1 n2 a2 c2 :
  truthy s = true ->
  favorites_ok s (user_doc st "profile" u) ->
  exists r1 st1 d2 st2 l,
    update_profile os1 (Some st) u
      {| ProfileUpdate.name := n1; ProfileUpdate.avatar_url := a1;
         ProfileUpdate.favorite_gesture_slug := Some s;
         ProfileUpdate.remove_favorite := false;
         ProfileUpdate.completed_module_slug := c1 |}
    = (Ok r1, Some st1)
    /\ update_profile os2 (Some st1) u
         {| ProfileUpdate.name := n2; ProfileUpdate.avatar_url := a2;
            ProfileUpdate.favorite_gesture_slug := Some s;
            ProfileUpdate.remove_favorite := false;
            ProfileUpdate.completed_module_slug := c2 |}
       = (Ok (_to_json (Some d2)), Some st2)
    /\ user_doc st2 "profile" u = Some d2
    /\ d2 !! "favorite_gesture_slugs" = Some (VList l)
    /\ count_str s l = 1.
Proof.
  intros Ht Hok.
  destruct (add_favorite_step os1 st u n1 a1 s c1 Ht Hok)
    as (d1 & st1 & l1 & Hrun1 & Hdoc1 & Hf1 & Hn1 & Hc1).
  destruct (add_favorite_step os2 st1 u n2 a2 s c2 Ht)
    as (d2 & st2 & l2 & Hrun2 & Hdoc2 & Hf2 & Hn2 & _).
  { rewrite Hdoc1. simpl. rewrite Hf1, Hn1. auto. }
  exists (_to_json (Some d1)), st1, d2, st2, l2. auto.
Qed.

(** The update always writes updated_at, on a profile whose slug lists
    the store accepts an update of. *)
Lemma update_profile_updated_at_ok os st u p :
  profile_lists_ok (user_doc st "profile" u) = true ->
  exists d' st',
    update_profile os (Some st) u p = (Ok (_to_json (Some d')), Some st')
    /\ user_doc st' "profile" u = Some d'
    /\ d' !! "updated_at"
       = Some (match os with
               | Some x => VFloat x
               | None => VNull
               end).
Proof.
  intros Hok. destruct (user_doc st "profile" u) as [d|] eqn:Hd.
  - destruct (apply_profile_update_ok os p d Hok) as [d' Hup].
    destruct (update_profile_hit os st u p d d' Hd Hup)
      as (st' & Hrun & Hdoc & Hk & _).
    exists d', st'. repeat split; try assumption. now rewrite Hk.
  - destruct (update_profile_miss os st u p Hd)
      as (d' & st' & Hrun & Hdoc & _ & Hk).
    exists d', st'. repeat split; try assumption.
    now rewrite Hk by discriminate.
Qed.

(** C2, on the code: for a user without a Profile document, the upsert
    creates a document from the filter and the update alone.  It carries
    none of the defaults of the Profile schema: no email, points, level or
    streak_days, and a name only if the payload supplies one. *)
Theorem update_profile_upsert_lacks_defaults os st u p :
  user_doc st "profile" u = None ->
  exists d' st',
    update_profile os (Some st) u p = (Ok (_to_json (Some d')), Some st')
    /\ user_doc st' "profile" u = Some d'
    /\ d' !! "email" = None /\ d' !! "points" = None
    /\ d' !! "level" = None /\ d' !! "streak_days" = None
    /\ d' !! "name" = VStr <$> ProfileUpdate.name p.
Proof.
  intros Hd.
  destruct (update_profile_miss os st u p Hd)
    as (d' & st' & Hrun & Hdoc & _ & Hk).
  exists d', st'. repeat split; try assumption;
    rewrite Hk by discriminate; try reflexivity.
  unfold profile_after, profile_pulls, profile_adds, profile_set. simpl.
  now destruct (ProfileUpdate.name p).
Qed.
End ProfileClaims.

(** C3, as stated, fails where os has times: after a request with the
    reading [elapsed_reading], updated_at of the stored profile is that
    float. *)
Lemma update_profile_updated_at_is_set :
  exists st',
    (update_profile (H := fragment_runtime) (Some elapsed_reading)
       (Some empty_store) "u" (name_body "Ana")).2 = Some st'
    /\ user_field st' "profile" "u" "updated_at"
       = Some (VFloat elapsed_reading)
    /\ ~ updated_at_unset st' "u".
Proof.
  eexists. split; [reflexivity|]. split; [reflexivity|].
  intros [Hu|Hu]; discriminate Hu.
Qed.

Lemma update_profile_upsert_lacks_defaults_witness :
  user_doc empty_store "profile" "u1" = None
  /\ exists d' st',
       update_profile (H := fragment_runtime) (Some elapsed_reading)
         (Some empty_store) "u1" (name_body "Ana")
       = (Ok (_to_json (H := fragment_runtime) (Some d')), Some st')
       /\ user_doc st' "profile" "u1" = Some d'
       /\ d' !! "email" = None /\ d' !! "points" = None
       /\ d' !! "level" = None /\ d' !! "streak_days" = None
       /\ d' !! "name" = Some (VStr "Ana").
Proof.
  split; [reflexivity|].
  apply (update_profile_upsert_lacks_defaults (H := fragment_runtime)
           (Some elapsed_reading) empty_store "u1" (name_body "Ana")).
  reflexivity.
Defined.

(** On an empty store, a request that names the new user creates a
    document with an identifier, user_id, updated_at and name, and nothing
    else: no email, points, level, streak_days, nor slug lists. *)
Example update_profile_upsert_has_no_defaults :
  update_profile (H := fragment_runtime) (Some elapsed_reading)
    (Some empty_store) "u1" (name_body "Ana")
  = (Ok (Some (<["id" := VStr "000000000000000000000000"]>
              (<["user_id" := VStr "u1"]>
              (<["updated_at" := VFloat elapsed_reading]>
              (<["name" := VStr "Ana"]> ∅))))),
     Some {| colls :=
               {["profile" :=
                   [ <["_id" := VObjectId 0]>
                     (<["user_id" := VStr "u1"]>
                     (<["updated_at" := VFloat elapsed_reading]>
                     (<["name" := VStr "Ana"]> ∅))) ]]};
             next_id := 1 |}).
Proof. reflexivity. Qed.

(** ** The claim about reading a profile *)

Section ReadClaims.
Context `{Runtime}.

Lemma doc_falsy_stored d k v : d !! k = Some v -> doc_falsy (Some d) = false.
Proof.
  intros Hk. unfold doc_falsy. apply bool_decide_eq_false.
  intros He%dom_empty_inv_L. subst d. now rewrite lookup_empty in Hk.
Qed.

(** What the handlers answer for a stored document: the document with its
    [_id] rendered under [id]. *)
Lemma to_json_stored d i :
  d !! "_id" = Some i ->
  _to_json (Some d) = Some (<["id" := VStr (py_str i)]> (delete "_id" d)).
Proof.
  intros Hi. unfold _to_json. rewrite (doc_falsy_stored d "_id" i Hi).
  now rewrite Hi.
Qed.

(** C4: for a user without a Profile document, on an available store,
    [get_profile] makes up the default profile (the placeholder name
    "Pengguna", the email [user_id@example.com], points 0, level 1,
    streak_days 0 and empty slug lists), appends it to the profile
    collection under a fresh identifier, and answers with that stored
    document, its identifier rendered under [id]. *)
Theorem get_profile_creates_default st u :
  user_doc st "profile" u = None ->
  exists d st',
    get_profile (Some st) u = (Ok (_to_json (Some d)), Some st')
    /\ d = <["_id" := VObjectId (next_id st)]> (default_profile u)
    /\ coll st' "profile" = coll st "profile" ++ [d]
    /\ user_doc st' "profile" u = Some d
    /\ _to_json (Some d)
       = Some (<["id" := VStr (py_str (VObjectId (next_id st)))]>
                 (default_profile u))
    /\ default_profile u !! "user_id" = Some (VStr u)
    /\ default_profile u !! "name" = Some (VStr "Pengguna")
    /\ default_profile u !! "email" = Some (VStr (u +:+ "@example.com"))
    /\ default_profile u !! "points" = Some (VInt 0)
    /\ default_profile u !! "level" = Some (VInt 1)
    /\ default_profile u !! "streak_days" = Some (VInt 0)
    /\ default_profile u !! "favorite_gesture_slugs" = Some (VList [])
    /\ default_profile u !! "completed_module_slugs" = Some (VList []).
Proof.
  intros Hd.
  assert (Hdoc : user_doc (insert_one st "profile" (default_profile u))
                   "profile" u
                 = Some (<["_id" := VObjectId (next_id st)]> (default_profile u))).
  { now apply user_doc_insert_one. }
  exists (<["_id" := VObjectId (next_id st)]> (default_profile u)),
    (insert_one st "profile" (default_profile u)).
  split.
  { unfold get_profile, with_db, bind, db_find_one, query, create_document, ret.
    rewrite find_one_by_user, Hd. cbn [doc_falsy].
    fold (default_profile u). now rewrite find_one_by_user, Hdoc. }
  split; [reflexivity|]. split; [now rewrite coll_insert_one|].
  split; [exact Hdoc|]. split; [|now repeat split].
  rewrite (to_json_stored _ (VObjectId (next_id st)))
    by apply lookup_insert_eq.
  now rewrite delete_insert_id.
Qed.
End ReadClaims.

Lemma get_profile_creates_default_witness :
  user_doc empty_store "profile" "u" = None
  /\ exists d st',
       get_profile (H := fragment_runtime) (Some empty_store) "u"
       = (Ok (_to_json (H := fragment_runtime) (Some d)), Some st')
       /\ d = <["_id" := VObjectId (next_id empty_store)]> (default_profile "u")
       /\ coll st' "profile" = coll empty_store "profile" ++ [d]
       /\ user_doc st' "profile" "u" = Some d.
Proof.
  split; [reflexivity|].
  destruct (get_profile_creates_default (H := fragment_runtime)
              empty_store "u" eq_refl)
    as (d & st' & Hrun & Hd & Hcoll & Hdoc & _).
  exists d, st'. auto.
Defined.

(** ** The claim about the seed routine *)

Section SeedClaims.
Context `{Runtime}.

Lemma count_documents_all st c : count_documents st c [] = Ok (length (coll st c)).
Proof.
  unfold count_documents, find. cbn [filter_ok forallb].
  replace (List.filter (matches []) (coll st c)) with (coll st c);
    [reflexivity|].
  induction (coll st c) as [|d l IH]; [reflexivity|].
  cbn [List.filter matches forallb]. now rewrite <- IH.
Qed.

Lemma for_each_create {A} c (f : A -> doc) (l : list A) st :
  for_each l (fun x => create_document c (f x)) st
  = (Ok tt, foldl (fun s d => insert_one s c d) st (map f l)).
Proof.
  revert st. induction l as [|x l IH]; intros st; [reflexivity|].
  cbn [for_each map foldl]. unfold bind at 1. unfold create_document at 1.
  apply IH.
Qed.

(** A block of the routine: count, and insert when the count is zero. *)
Lemma seed_block_run {A B} c (f : A -> doc) (l : list A) (k : M B) st :
  (n <- db_count_documents c [] ;;
   (if (n =? 0)%nat then for_each l (fun x => create_document c (f x))
    else ret tt) ;;
   k) st
  = k (seed_block c (map f l) st).
Proof.
  unfold bind at 1, db_count_documents, query.
  rewrite count_documents_all. unfold bind at 1, seed_block.
  destruct (coll st c) as [|d ds]; cbn [length Nat.eqb].
  - now rewrite for_each_create.
  - reflexivity.
Qed.

Lemma coll_insert_all_ne c c' docs st :
  c <> c' -> coll (foldl (fun s d => insert_one s c d) st docs) c' = coll st c'.
Proof.
  intros Hne. revert st. induction docs as [|d docs IH]; intros st;
    [reflexivity|].
  cbn [foldl]. rewrite IH. now apply coll_insert_one_ne.
Qed.

Lemma coll_seed_block_ne c c' docs st :
  c <> c' -> coll (seed_block c docs st) c' = coll st c'.
Proof.
  intros Hne. unfold seed_block.
  destruct (coll st c); [now apply coll_insert_all_ne|reflexivity].
Qed.

(** Inserting documents that carry no [_id] appends them, each under an
    identifier of its own. *)
Lemma coll_insert_all c docs st :
  Forall (fun d => d !! "_id" = None) docs ->
  map (delete "_id") (coll (foldl (fun s d => insert_one s c d) st docs) c)
  = map (delete "_id") (coll st c) ++ docs.
Proof.
  intros Hdocs. revert st.
  induction Hdocs as [|d docs Hd _ IH]; intros st.
  - cbn [foldl]. now rewrite app_nil_r.
  - cbn [foldl]. rewrite IH, coll_insert_one, Hd, map_app. cbn [map].
    rewrite delete_insert_id by exact Hd. now rewrite <- app_assoc.
Qed.

Lemma coll_seed_block c docs st :
  Forall (fun d => d !! "_id" = None) docs ->
  match coll st c with
  | [] => map (delete "_id") (coll (seed_block c docs st) c) = docs
  | _ :: _ => coll (seed_block c docs st) c = coll st c
  end.
Proof.
  intros Hdocs. unfold seed_block.
  destruct (coll st c) as [|d ds] eqn:Hc; [|exact Hc].
  now rewrite coll_insert_all, Hc.
Qed.

Lemma length_insert_all c docs st :
  length (coll (foldl (fun s d => insert_one s c d) st docs) c)
  = length (coll st c) + length docs.
Proof.
  revert st. induction docs as [|d docs IH]; intros st.
  - cbn [foldl length]. lia.
  - cbn [foldl length]. rewrite IH, coll_insert_one, length_app.
    cbn [length]. lia.
Qed.

Lemma seed_block_nonempty c docs st :
  docs <> [] -> coll (seed_block c docs st) c <> [].
Proof.
  intros Hne Hc. unfold seed_block in Hc.
  destruct (coll st c) as [|d ds] eqn:Hst; [|congruence].
  apply (f_equal length) in Hc. rewrite length_insert_all in Hc.
  destruct docs; [congruence|]. cbn [length] in Hc. lia.
Qed.

(** A block has nothing to do on a collection that holds a document. *)
Lemma seed_block_id c docs st : coll st c <> [] -> seed_block c docs st = st.
Proof. intros Hne. unfold seed_block. now destruct (coll st c). Qed.

Lemma seed_block_run_one {B} c d (k : M B) st :
  (n <- db_count_documents c [] ;;
   (if (n =? 0)%nat then create_document c d else ret tt) ;;
   k) st
  = k (seed_block c [d] st).
Proof.
  unfold bind at 1, db_count_documents, query.
  rewrite count_documents_all. unfold bind at 1, seed_block.
  now destruct (coll st c) as [|x ds].
Qed.

Lemma seed_data_run st :
  seed_data (Some st) = (Ok {["status" := VStr "ok"]}, Some (seed_all st)).
Proof.
  unfold seed_data, with_db.
  rewrite seed_block_run, seed_block_run, seed_block_run_one.
  reflexivity.
Qed.

Lemma catalog_samples_fresh c :
  Forall (fun d => d !! "_id" = None) (catalog_samples c).
Proof.
  unfold catalog_samples.
  destruct (String.eqb c "gesture"); [now repeat constructor|].
  destruct (String.eqb c "module"); [now repeat constructor|].
  destruct (String.eqb c "quiz"); now repeat constructor.
Qed.

(** What the routine leaves in a catalog collection, from what the
    collection held. *)
Lemma seed_all_coll st c :
  In c ["gesture"; "module"; "quiz"] ->
  match coll st c with
  | [] => map (delete "_id") (coll (seed_all st) c) = catalog_samples c
  | _ :: _ => coll (seed_all st) c = coll st c
  end.
Proof.
  unfold seed_all. intros [<-|[<-|[<-|[]]]].
  - rewrite !coll_seed_block_ne by discriminate.
    apply coll_seed_block, catalog_samples_fresh.
  - rewrite coll_seed_block_ne by discriminate.
    rewrite <- (coll_seed_block_ne "gesture" "module"
                  (catalog_samples "gesture") st) by discriminate.
    apply coll_seed_block, catalog_samples_fresh.
  - rewrite <- (coll_seed_block_ne "gesture" "quiz"
                  (catalog_samples "gesture") st) by discriminate.
    rewrite <- (coll_seed_block_ne "module" "quiz"
                  (catalog_samples "module")
                  (seed_block "gesture" (catalog_samples "gesture") st))
      by discriminate.
    apply coll_seed_block, catalog_samples_fresh.
Qed.

(** After the routine, every catalog collection holds a document. *)
Lemma seed_all_nonempty st c :
  In c ["gesture"; "module"; "quiz"] -> coll (seed_all st) c <> [].
Proof.
  unfold seed_all. intros [<-|[<-|[<-|[]]]].
  - rewrite !coll_seed_block_ne by discriminate.
    now apply seed_block_nonempty.
  - rewrite coll_seed_block_ne by discriminate.
    now apply seed_block_nonempty.
  - now apply seed_block_nonempty.
Qed.

Lemma seed_all_again st : seed_all (seed_all st) = seed_all st.
Proof.
  unfold seed_all at 1.
  rewrite (seed_block_id "gesture") by (apply seed_all_nonempty; simpl; auto).
  rewrite (seed_block_id "module") by (apply seed_all_nonempty; simpl; auto).
  apply seed_block_id, seed_all_nonempty. simpl. auto.
Qed.

(** C8: without a database the routine inserts nothing.  On every
    available store it answers with the status;
    into each of the collections gesture, module and quiz it inserts the
    sample documents when the collection holds no document, and leaves the
    collection as it is when it holds one.  A second run finds every
    collection filled and changes nothing: the store, and with it the three
    counts, is the same after the second run as after the first. *)
Theorem seed_data_fills_empty_collections st :
  seed_data None = (Ok {["inserted" := VInt 0]}, None)
  /\
  exists st',
    seed_data (Some st) = (Ok {["status" := VStr "ok"]}, Some st')
    /\ Forall (fun c =>
                match coll st c with
                | [] => map (delete "_id") (coll st' c) = catalog_samples c
                | _ :: _ => coll st' c = coll st c
                end) ["gesture"; "module"; "quiz"]
    /\ seed_data (Some st') = (Ok {["status" := VStr "ok"]}, Some st')
    /\ length (catalog_samples "gesture") = 3
    /\ length (catalog_samples "module") = 1
    /\ length (catalog_samples "quiz") = 1.
Proof.
  split; [reflexivity|].
  exists (seed_all st). split; [apply seed_data_run|]. split.
  { repeat constructor; apply seed_all_coll; simpl; auto. }
  split; [|now repeat split].
  now rewrite seed_data_run, seed_all_again.
Qed.
End SeedClaims.

(** ** The claims about the gesture listing *)

Section ListingClaims.
Context `{Runtime}.

Lemma field_is_entry k s d :
  entry_matches (FEq k (VStr s)) d = field_is k s d.
Proof.
  unfold field_is. cbn [entry_matches]. destruct (d !! k) as [v|]; [|reflexivity].
  unfold eq_value. destruct v as [| | | |w| |vs|]; try reflexivity.
  cbn [value_eqb]. apply orb_false_r.
Qed.

Lemma field_hit_entry k s m d :
  regex_compile s "i" = Some m ->
  entry_matches (FRegex k s "i") d = field_hit m k d.
Proof.
  intros Hm. unfold field_hit. cbn [entry_matches]. rewrite Hm.
  destruct (d !! k) as [v|]; [|reflexivity]. now destruct v.
Qed.

Lemma text_entry s d :
  entry_matches (FOr [[FRegex "name" s "i"]; [FRegex "tags" s "i"]]) d
  = match regex_compile s "i" with
    | Some m => field_hit m "name" d || field_hit m "tags" d
    | None => false
    end.
Proof.
  destruct (regex_compile s "i") as [m|] eqn:Hm.
  - cbn [entry_matches existsb forallb].
    change (match regex_compile s "i" with
            | Some m0 => match d !! "name" with
                         | Some fv => regex_value m0 fv
                         | None => false
                         end
            | None => false
            end) with (entry_matches (FRegex "name" s "i") d).
    change (match regex_compile s "i" with
            | Some m0 => match d !! "tags" with
                         | Some fv => regex_value m0 fv
                         | None => false
                         end
            | None => false
            end) with (entry_matches (FRegex "tags" s "i") d).
    rewrite !(field_hit_entry _ s m d Hm).
    now rewrite !andb_true_r, orb_false_r.
  - cbn [entry_matches existsb forallb]. now rewrite Hm.
Qed.

(** The filter the handler builds, entry by entry. *)
Lemma gesture_filter_given q category difficulty :
  gesture_filter q category difficulty
  = match given q with
    | Some s => [FOr [[FRegex "name" s "i"]; [FRegex "tags" s "i"]]]
    | None => []
    end
    ++ match given category with
       | Some c => [FEq "category" (VStr c)]
       | None => []
       end
    ++ match given difficulty with
       | Some c => [FEq "difficulty" (VStr c)]
       | None => []
       end.
Proof.
  unfold gesture_filter, given.
  destruct q as [s|], category as [c|], difficulty as [e|];
    try destruct (truthy s); try destruct (truthy c);
    try destruct (truthy e); reflexivity.
Qed.

(** The store selects with the filter of the handler the documents that
    match the query parameters. *)
Lemma matches_gesture_selected q category difficulty d :
  matches (gesture_filter q category difficulty) d
  = gesture_selected q category difficulty d.
Proof.
  rewrite gesture_filter_given. unfold matches, gesture_selected.
  rewrite !forallb_app.
  destruct (given q) as [s|], (given category) as [c|],
    (given difficulty) as [e|]; cbn [forallb];
    rewrite ?text_entry, ?field_is_entry;
    try destruct (regex_compile s "i") as [m|];
    try destruct (field_hit m "name" d); try destruct (field_hit m "tags" d);
    try destruct (field_is "category" c d);
    try destruct (field_is "difficulty" e d); reflexivity.
Qed.

Lemma filter_ok_text_accepted q category difficulty :
  filter_ok (gesture_filter q category difficulty) = text_accepted q.
Proof.
  rewrite gesture_filter_given. unfold filter_ok, text_accepted.
  rewrite !forallb_app.
  destruct (given q) as [s|], (given category) as [c|],
    (given difficulty) as [e|]; cbn [forallb entry_ok];
    try reflexivity; now destruct (regex_compile s "i").
Qed.

(** C5, amended: the listing hands the text query to the store as a
    regular expression, and the claim holds of the requests whose text
    query the store accepts.  For page >= 1 and limit >= 1, on every
    store, such a request is answered with at most [limit] items: the
    documents that match the filter after the first [(page - 1) * limit]
    of them, up to [limit]; and [total] is the number of documents of the
    collection that match the filter (text query, category and difficulty,
    each where given), whatever page and limit are.  A request whose text
    query the store rejects fails.  Without a database the page is empty
    and the total 0. *)
Theorem list_gestures_page_and_total st q category difficulty page limit :
  (1 <= page)%Z -> (1 <= limit)%Z ->
  let selected :=
    List.filter (gesture_selected q category difficulty)
      (coll st "gesture") in
  list_gestures None q category difficulty page limit
  = (Ok {| items := []; total := 0; page := page; limit := limit |}, None)
  /\
  if text_accepted q then
    exists its,
      list_gestures (Some st) q category difficulty page limit
      = (Ok {| items := its; total := length selected;
               page := page; limit := limit |}, Some st)
      /\ its = map (fun x => _to_json (Some x))
                 (take (Z.to_nat limit)
                    (drop (Z.to_nat ((page - 1) * limit)) selected))
      /\ (Z.of_nat (length its) <= limit)%Z
  else
    exists e,
      list_gestures (Some st) q category difficulty page limit
      = (Raise e, Some st).
Proof.
  intros Hp Hl selected. split; [reflexivity|].
  unfold list_gestures, with_db, bind, db_count_documents, db_find, query,
    ret, count_documents, find.
  rewrite filter_ok_text_accepted.
  destruct (text_accepted q); [|eauto].
  rewrite (List.filter_ext _ _
             (matches_gesture_selected q category difficulty)).
  fold selected. unfold cursor_skip, cursor_limit.
  replace ((page - 1) * limit <? 0)%Z with false by (symmetry; apply Z.ltb_ge; nia).
  replace (limit =? 0)%Z with false by (symmetry; apply Z.eqb_neq; lia).
  replace (Z.abs_nat limit) with (Z.to_nat limit) by lia.
  eexists. split; [reflexivity|]. split; [reflexivity|].
  rewrite length_map, length_take. lia.
Qed.

(** The listing depends on its filter through what [find] returns. *)
Lemma list_gestures_by_find st q q' category difficulty page limit :
  find st "gesture" (gesture_filter q' category difficulty)
  = find st "gesture" (gesture_filter q category difficulty) ->
  list_gestures (Some st) q' category difficulty page limit
  = list_gestures (Some st) q category difficulty page limit.
Proof.
  intros Hfind.
  unfold list_gestures, with_db, bind, db_count_documents, db_find, query,
    count_documents.
  now rewrite Hfind.
Qed.

(** Without a text query the store never refuses the filter. *)
Lemma gesture_filter_ok_no_text q category difficulty :
  opt_truthy q = false ->
  filter_ok (gesture_filter q category difficulty) = true.
Proof.
  intros Hq. unfold gesture_filter.
  destruct q as [s|]; simpl in Hq; rewrite ?Hq;
    destruct category as [c|], difficulty as [d|];
    try destruct (truthy c); try destruct (truthy d); reflexivity.
Qed.
End ListingClaims.

Lemma list_gestures_page_and_total_witness :
  (1 <= 2)%Z /\ (1 <= 1)%Z
  /\ length (coll (seed_all empty_store) "gesture") = 3
  /\ exists its,
       list_gestures (H := fragment_runtime) (Some (seed_all empty_store))
         (Some "h") (Some "basic") None 2 1
       = (Ok {| items := its; total := 2; page := 2; limit := 1 |},
          Some (seed_all empty_store))
       /\ length its = 1.
Proof.
  split; [lia|]. split; [lia|]. split; [reflexivity|].
  pose proof (list_gestures_page_and_total (H := fragment_runtime)
                (seed_all empty_store) (Some "h") (Some "basic") None 2 1
                ltac:(lia) ltac:(lia)) as Hw.
  cbv zeta in Hw. destruct Hw as [_ Hw].
  change (text_accepted (H := fragment_runtime) (Some "h")) with true in Hw.
  destruct Hw as (its & Hrun & Hits & _).
  exists its. split; [exact Hrun|]. now rewrite Hits.
Defined.

(** C5, as stated, fails for a text query that is no regular expression:
    with the query ["("], page 1 and limit 24, the listing raises and
    answers with no page. *)
Lemma list_gestures_rejected_query :
  (1 <= 1)%Z /\ (1 <= 24)%Z
  /\ ~ exists r db,
        list_gestures (H := fragment_runtime) (Some (seed_all empty_store))
          (Some "(") None None 1 24
        = (Ok r, db).
Proof.
  split; [lia|]. split; [lia|].
  intros (r & db & Hrun).
  assert (Hraise : list_gestures (H := fragment_runtime)
                     (Some (seed_all empty_store)) (Some "(") None None 1 24
                   = (Raise (StoreError "invalid filter"),
                      Some (seed_all empty_store)))
    by reflexivity.
  rewrite Hraise in Hrun. discriminate Hrun.
Qed.

(** ** The text query *)

Section TextSearch.
Context `{R : Runtime}.

Lemma gesture_filter_text q category difficulty :
  truthy q = true ->
  gesture_filter (Some q) category difficulty
  = FOr [[FRegex "name" q "i"]; [FRegex "tags" q "i"]]
    :: gesture_filter None category difficulty.
Proof.
  intros Hq. unfold gesture_filter. rewrite Hq.
  destruct category as [c|], difficulty as [d|];
    try destruct (truthy c); try destruct (truthy d); reflexivity.
Qed.

Lemma existsb_str_list (m : string -> bool) (l : list string) :
  existsb (fun x => match x with VStr s => m s | _ => false end) (map VStr l)
  = existsb m l.
Proof. induction l as [|t l IH]; [reflexivity|]. simpl. now rewrite IH. Qed.

(** The text entry of the filter on a gesture document. *)
Lemma text_entry_gesture q m d g :
  regex_compile q "i" = Some m ->
  is_gesture d g ->
  entry_matches (FOr [[FRegex "name" q "i"]; [FRegex "tags" q "i"]]) d
  = m (Gesture.name g) || existsb m (Gesture.tags g).
Proof.
  intros Hm [Hn Ht]. cbn [entry_matches existsb forallb].
  rewrite Hm, Hn, Ht. unfold str_list. cbn [regex_value].
  rewrite existsb_str_list.
  now rewrite !andb_true_r, orb_false_r.
Qed.

Lemma regex_match_iff m g :
  m (Gesture.name g) || existsb m (Gesture.tags g) = true <-> regex_match m g.
Proof.
  unfold regex_match. rewrite orb_true_iff, existsb_exists. tauto.
Qed.

(** C6, amended: the handler hands a non-empty text query to the store
    unescaped, as a regular expression with the option [i].  Where the
    store accepts the expression, the listing selects, among the gestures
    that pass the other filters, exactly those in whose name or in one of
    whose tags the expression finds a match, and a query whose expression
    finds a match in the same strings selects the same documents; where
    the store rejects the expression, the listing fails.  Without a query
    (absent or empty) no text filter is applied: without other filters
    every gesture is selected. *)
Theorem text_search_regex st q category difficulty :
  truthy q = true ->
  match regex_compile q "i" with
  | Some m =>
      text_search_by m st q category difficulty
      /\ forall q' m' page limit,
           truthy q' = true ->
           regex_compile q' "i" = Some m' ->
           (forall s, m' s = m s) ->
           list_gestures (Some st) (Some q') category difficulty page limit
           = list_gestures (Some st) (Some q) category difficulty page limit
  | None =>
      forall page limit,
        exists e,
          list_gestures (Some st) (Some q) category difficulty page limit
          = (Raise e, Some st)
  end
  /\ find st "gesture" (gesture_filter None None None)
     = Ok (coll st "gesture")
  /\ gesture_filter (Some "") category difficulty
     = gesture_filter None category difficulty.
Proof.
  intros Hq.
  assert (Hok : filter_ok (gesture_filter None category difficulty) = true)
    by now apply gesture_filter_ok_no_text.
  split; [|split].
  - destruct (regex_compile q "i") as [m|] eqn:Hm.
    + split.
      * exists (List.filter
                  (matches (gesture_filter (Some q) category difficulty))
                  (coll st "gesture")),
          (List.filter (matches (gesture_filter None category difficulty))
             (coll st "gesture")).
        split; [|split].
        -- unfold find. rewrite (gesture_filter_text q) by exact Hq.
           unfold filter_ok in *. cbn [forallb entry_ok andb negb].
           now rewrite Hm, Hok.
        -- unfold find. now rewrite Hok.
        -- intros d g Hg. rewrite !filter_In.
           rewrite (gesture_filter_text q) by exact Hq.
           unfold matches at 1. cbn [forallb].
           fold (matches (gesture_filter None category difficulty) d).
           rewrite andb_true_iff, (text_entry_gesture q m d g Hm Hg).
           rewrite (regex_match_iff m g). tauto.
      * intros q' m' page limit Hq' Hm' Hmm. apply list_gestures_by_find.
        unfold find. rewrite !gesture_filter_text by assumption.
        unfold filter_ok. cbn [forallb entry_ok andb negb]. rewrite Hm, Hm'.
        cbn [andb].
        fold (filter_ok (gesture_filter None category difficulty)).
        rewrite Hok. f_equal. apply List.filter_ext. intros d.
        unfold matches. cbn [forallb entry_matches existsb]. rewrite Hm, Hm'.
        assert (Hv : forall v, regex_value m' v = regex_value m v).
        { intros [| | | |s| |l|]; cbn [regex_value]; try reflexivity;
            [apply Hmm|].
          induction l as [|x l IH]; [reflexivity|]. cbn [existsb].
          rewrite IH. now destruct x; rewrite ?Hmm. }
        destruct (d !! "name"), (d !! "tags"); now rewrite ?Hv.
    + intros page limit.
      unfold list_gestures, with_db, bind, db_count_documents, query,
        count_documents, find.
      rewrite (gesture_filter_text q) by exact Hq.
      unfold filter_ok. cbn [forallb entry_ok andb]. rewrite Hm.
      cbn [andb]. eauto.
  - unfold find. cbn [gesture_filter filter_ok forallb].
    f_equal. induction (coll st "gesture") as [|d l IH]; [reflexivity|].
    cbn [List.filter matches forallb]. now rewrite IH.
  - reflexivity.
Qed.
End TextSearch.

(** ** The runtime to compute with folds the case of letters *)

Lemma match_here_literals q s :
  match_here true (literals q) s = true
  <-> exists post, lower_string s = lower_string q +:+ post.
Proof.
  revert s. induction q as [|c q IH]; intros s.
  - split; [intros _; now exists (lower_string s)|reflexivity].
  - change (literals (String c q)) with (Lit c :: literals q).
    destruct s as [|b s]; cbn [match_here atom_matches lower_string].
    + split; [discriminate|intros [post Hp]; discriminate Hp].
    + rewrite andb_true_iff, IH. split.
      * intros [Hc%Ascii.eqb_eq [post Hp]]. exists post.
        cbn [String.append]. now rewrite Hc, Hp.
      * intros [post Hp]. cbn [String.append] in Hp.
        injection Hp as Hc Hp. split; [|now exists post].
        apply Ascii.eqb_eq. now symmetry.
Qed.

Lemma search_literals q s :
  search true (literals q) s = true <-> contains_ci q s.
Proof.
  unfold contains_ci. induction s as [|b s IH]; cbn [search].
  - rewrite orb_false_r, match_here_literals. split.
    + intros [post Hp]. now exists EmptyString, post.
    + intros ([|c pre] & post & Hp); [now exists post|].
      discriminate Hp.
  - rewrite orb_true_iff, match_here_literals, IH. split.
    + intros [[post Hp]|(pre & post & Hp)].
      * now exists EmptyString, post.
      * exists (String (lower b) pre), post.
        cbn [lower_string String.append]. now rewrite Hp.
    + intros ([|c pre] & post & Hp).
      * left. now exists post.
      * right. cbn [lower_string String.append] in Hp.
        injection Hp as _ Hp. now exists pre, post.
Qed.

Lemma text_search_regex_witness :
  truthy "HALO" = true
  /\ text_search_by (H := fragment_runtime) (search true (literals "HALO"))
       (seed_all empty_store) "HALO" None None
  /\ list_gestures (H := fragment_runtime) (Some (seed_all empty_store))
       (Some "halo") None None 1 24
     = list_gestures (H := fragment_runtime) (Some (seed_all empty_store))
         (Some "HALO") None None 1 24.
Proof.
  split; [reflexivity|].
  destruct (text_search_regex (R := fragment_runtime) (seed_all empty_store)
              "HALO" None None eq_refl)
    as ((Hby & Hsame) & _).
  split; [exact Hby|].
  apply (Hsame "halo" (search true (literals "halo")) 1%Z 24%Z);
    [reflexivity|reflexivity|].
  intros s.
  change (search true (literals "halo") s = search true (literals "HALO") s).
  apply eq_true_iff_eq. rewrite !search_literals.
  unfold contains_ci. reflexivity.
Defined.

Lemma Ok_inj {A} (a b : A) : Ok a = Ok b -> a = b.
Proof. now intros [= ->]. Qed.

(** C6, as stated, fails for a query that the engine reads as an
    expression: with the query ["."], the gesture named "A", which has no
    tags, is selected, and "A" does not contain ".". *)
Lemma text_search_dot_not_exact :
  ~ text_search_exact (H := fragment_runtime) one_gesture_store
      "." None None.
Proof.
  intros (found & others & Hfound & _ & Hiff).
  assert (Hall : find (H := fragment_runtime) one_gesture_store "gesture"
                   (gesture_filter (Some ".") None None)
                 = Ok (coll one_gesture_store "gesture"))
    by reflexivity.
  rewrite Hall in Hfound. apply Ok_inj in Hfound. subst found.
  set (d := <["_id" := VObjectId 0]> (Gesture.model_dump gesture_a)).
  assert (Hg : is_gesture d gesture_a) by (split; reflexivity).
  assert (Hin : In d (coll one_gesture_store "gesture")).
  { unfold one_gesture_store. rewrite coll_insert_one. now left. }
  destruct (proj1 (Hiff d gesture_a Hg) Hin) as [_ [Hname|(t & [] & _)]].
  destruct Hname as ([|c [|c' pre]] & post & Hp); discriminate Hp.
Qed.

(** ** The stores that requests lead to *)

Section Reachability.
Context `{Runtime}.

Lemma count_str_app s l1 l2 :
  count_str s (l1 ++ l2) = count_str s l1 + count_str s l2.
Proof. unfold count_str. now rewrite List.filter_app, length_app. Qed.

Lemma count_str_filter s (p : value -> bool) l :
  count_str s (List.filter p l) <= count_str s l.
Proof.
  unfold count_str. induction l as [|x l IH]; [reflexivity|].
  cbn [List.filter]. destruct (p x); cbn [List.filter];
    destruct (is_str s x); cbn [length]; lia.
Qed.

Lemma slugs_wf_add v old : slugs_wf old -> slugs_wf (add_to_set (VStr v) old).
Proof.
  destruct old as [[| | | | | |l|]|]; try contradiction; intros Hwf;
    unfold add_to_set, slugs_wf.
  - rewrite existsb_count_str.
    destruct (count_str v l) as [|n] eqn:Hn; cbn [Nat.eqb negb]; [|exact Hwf].
    intros s. rewrite count_str_app.
    destruct (String.eqb_spec s v) as [->|Hne].
    + rewrite Hn. unfold count_str. cbn [List.filter is_str].
      rewrite String.eqb_refl. cbn [length]. lia.
    + specialize (Hwf s). unfold count_str at 2. cbn [List.filter is_str].
      apply String.eqb_neq in Hne. rewrite Hne. cbn [length]. lia.
  - intros s. unfold count_str. cbn [List.filter is_str].
    destruct (String.eqb s v); cbn [length]; lia.
Qed.

Lemma slugs_wf_pull v old : slugs_wf old -> slugs_wf (pull_from v old).
Proof.
  destruct old as [[| | | | | |l|]|]; try contradiction; intros Hwf;
    unfold pull_from, slugs_wf; [|exact I].
  intros s. specialize (Hwf s).
  pose proof (count_str_filter s (fun x => negb (value_eqb v x)) l). lia.
Qed.

Lemma slugs_wf_after os p k old :
  k = "favorite_gesture_slugs" \/ k = "completed_module_slugs" ->
  slugs_wf old -> slugs_wf (profile_after os p k old).
Proof.
  intros [-> | ->] Hwf;
    unfold profile_after, profile_pulls, profile_adds, profile_set; simpl.
  - destruct (ProfileUpdate.favorite_gesture_slug p) as [v|]; [|exact Hwf].
    destruct (truthy v), (ProfileUpdate.remove_favorite p); simpl;
      auto using slugs_wf_add, slugs_wf_pull.
  - destruct (ProfileUpdate.completed_module_slug p) as [v|]; [|exact Hwf].
    destruct (truthy v); simpl; auto using slugs_wf_add.
Qed.

(** The profile collection after a profile update. *)
Lemma update_profile_profiles os st u p st' :
  (update_profile os (Some st) u p).2 = Some st' ->
  profiles_wf st -> profiles_wf st'.
Proof.
  unfold profiles_wf. intros Hrun Hwf.
  destruct (user_doc st "profile" u) as [d|] eqn:Hd.
  - destruct (apply_update (profile_update os p) d) as [d'|e] eqn:Hup.
    + destruct (update_profile_hit os st u p d d' Hd Hup)
        as (st1 & Hrun1 & _ & Hk & l1 & l2 & Hl & ->).
      rewrite Hrun1 in Hrun. injection Hrun as <-.
      rewrite coll_set_coll. rewrite Hl in Hwf.
      apply Forall_app in Hwf as [Hl1 Hl2].
      apply Forall_cons in Hl2 as [[Hf Hc] Hl2].
      apply Forall_app. split; [exact Hl1|]. apply Forall_cons.
      split; [|exact Hl2].
      split; rewrite Hk; apply slugs_wf_after; auto.
    + rewrite (update_profile_hit_raise os st u p d e Hd Hup) in Hrun.
      now injection Hrun as <-.
  - destruct (update_profile_miss os st u p Hd)
      as (d' & st1 & Hrun1 & _ & Hcoll & Hk).
    rewrite Hrun1 in Hrun. injection Hrun as <-. rewrite Hcoll.
    apply Forall_app. split; [exact Hwf|]. apply Forall_cons.
    split; [|constructor].
    split; rewrite Hk by discriminate; apply slugs_wf_after; auto;
      exact I.
Qed.

Lemma user_doc_stored st c u d :
  user_doc st c u = Some d -> In d (coll st c) /\ is_Some (d !! "user_id").
Proof.
  unfold user_doc. intros Hd.
  destruct (head_filter_split _ _ _ Hd) as (l1 & l2 & -> & _ & Hu).
  split; [apply in_or_app; right; now left|].
  unfold has_user in Hu. destruct (d !! "user_id"); [eauto|discriminate].
Qed.

(** A read that creates the missing document. *)
Lemma lazy_create_store c u data st :
  ((doc <- db_find_one c [FEq "user_id" (VStr u)] ;;
    doc <- (if doc_falsy doc then
              create_document c data ;;
              db_find_one c [FEq "user_id" (VStr u)]
            else ret doc) ;;
    ret (_to_json doc)) st).2
  = match user_doc st c u with
    | Some _ => st
    | None => insert_one st c data
    end.
Proof.
  unfold bind, db_find_one, query, create_document, ret.
  rewrite find_one_by_user.
  destruct (user_doc st c u) as [d|] eqn:Hd.
  - destruct (user_doc_stored st c u d Hd) as [_ [v Hv]].
    rewrite (doc_falsy_stored d "user_id" v Hv). reflexivity.
  - cbn [doc_falsy]. now rewrite find_one_by_user.
Qed.
Lemma with_db_snd {A} st (unavailable : outcome A) (m : M A) :
  (with_db (Some st) unavailable m).2 = Some (m st).2.
Proof. unfold with_db. now destruct (m st). Qed.

(** The handlers that only read leave the store as it is. *)
Lemma query_bind_snd {A B} (f : store -> outcome A) (k : A -> M B) st :
  (forall a, (k a st).2 = st) -> ((a <- query f ;; k a) st).2 = st.
Proof.
  intros Hk. unfold bind, query. destruct (f st); [apply Hk|reflexivity].
Qed.

Lemma lookup_snd {A} (c : string) (flt : list filter) (e : exn)
    (k : option doc -> A) st :
  ((doc <- db_find_one c flt ;;
    if doc_falsy doc then raise e else ret (k doc)) st).2 = st.
Proof.
  apply query_bind_snd. intros doc. now destruct (doc_falsy doc).
Qed.

Lemma list_gestures_snd st q category difficulty page limit :
  (list_gestures (Some st) q category difficulty page limit).2 = Some st.
Proof.
  unfold list_gestures. rewrite with_db_snd. f_equal.
  apply query_bind_snd. intros n.
  apply query_bind_snd. intros found.
  now apply query_bind_snd.
Qed.

Lemma default_profile_wf u n :
  profile_wf (<["_id" := VObjectId n]> (default_profile u)).
Proof.
  unfold profile_wf. rewrite !lookup_insert_ne by discriminate.
  change (default_profile u !! "favorite_gesture_slugs")
    with (Some (VList [])).
  change (default_profile u !! "completed_module_slugs")
    with (Some (VList [])).
  split; intros s; apply le_0_n.
Qed.

(** Every request keeps the slug lists of the profiles well formed. *)
Lemma serve_profiles_wf r st st' :
  serve r (Some st) = Some st' -> profiles_wf st -> profiles_wf st'.
Proof.
  destruct r as [q c d pg lm|slug| |slug|slug|u|os u p|u|u p| ];
    cbn [serve]; intros Hrun Hwf.
  - rewrite list_gestures_snd in Hrun. now injection Hrun as <-.
  - unfold get_gesture in Hrun. rewrite with_db_snd, lookup_snd in Hrun.
    now injection Hrun as <-.
  - unfold list_modules, db_find in Hrun. rewrite with_db_snd in Hrun.
    rewrite query_bind_snd in Hrun by reflexivity. now injection Hrun as <-.
  - unfold get_module in Hrun. rewrite with_db_snd, lookup_snd in Hrun.
    now injection Hrun as <-.
  - unfold get_quiz in Hrun. rewrite with_db_snd, lookup_snd in Hrun.
    now injection Hrun as <-.
  - unfold get_profile in Hrun.
    rewrite with_db_snd, lazy_create_store in Hrun. injection Hrun as <-.
    destruct (user_doc st "profile" u); [exact Hwf|].
    unfold profiles_wf. rewrite coll_insert_one.
    apply Forall_app. split; [exact Hwf|].
    apply Forall_cons. split; [|constructor]. apply default_profile_wf.
  - now apply (update_profile_profiles os st u p).
  - unfold get_accessibility in Hrun.
    rewrite with_db_snd, lazy_create_store in Hrun. injection Hrun as <-.
    destruct (user_doc st "accessibility" u); [exact Hwf|].
    unfold profiles_wf. now rewrite coll_insert_one_ne by discriminate.
  - unfold profiles_wf.
    destruct (user_doc st "accessibility" u) as [d|] eqn:Hd.
    + destruct (apply_accessibility_update p d) as [d' Hup].
      destruct (update_accessibility_hit st u p d d' Hd Hup)
        as (l1 & l2 & _ & Hrun1 & _).
      rewrite Hrun1 in Hrun. injection Hrun as <-.
      now rewrite coll_set_coll_ne by discriminate.
    + destruct (update_accessibility_miss st u p Hd)
        as (d' & st1 & Hrun1 & _ & _ & _ & Hc).
      rewrite Hrun1 in Hrun. injection Hrun as <-.
      now rewrite Hc by discriminate.
  - rewrite seed_data_run in Hrun. injection Hrun as <-.
    unfold profiles_wf, seed_all.
    now rewrite !coll_seed_block_ne by discriminate.
Qed.

Lemma reachable_profiles_wf st : reachable st -> profiles_wf st.
Proof.
  induction 1 as [|st r st' _ IH Hrun]; [constructor|].
  exact (serve_profiles_wf r st st' Hrun IH).
Qed.

Lemma slugs_wf_array o : slugs_wf o -> array_or_absent o = true.
Proof. now destruct o as [[| | | | | |l|]|]. Qed.

(** On a store that requests lead to, the profile of every user can take
    another favorite. *)
Lemma reachable_favorites_ok st u s :
  reachable st -> favorites_ok s (user_doc st "profile" u).
Proof.
  intros Hwf%reachable_profiles_wf. unfold favorites_ok.
  destruct (user_doc st "profile" u) as [d|] eqn:Hd; [|exact I].
  destruct (user_doc_stored st "profile" u d Hd) as [Hin _].
  unfold profiles_wf in Hwf. rewrite List.Forall_forall in Hwf.
  destruct (Hwf d Hin) as [Hf Hc]. split; [now apply slugs_wf_array|].
  unfold slugs_wf in Hf.
  destruct (d !! "favorite_gesture_slugs") as [[| | | | | |l|]|]; auto.
Qed.

(** C7: on every store that requests lead to, for every user and every
    non-empty slug [s], two requests that add [s] to the favorites (with
    remove_favorite false, whatever their other fields and the readings of
    the clock) both succeed, and favorite_gesture_slugs of the stored
    profile then holds [s] exactly once. *)
Theorem add_favorite_twice os1 os2 st u s n1 a1 c1 n2 a2 c2 :
  reachable st ->
  truthy s = true ->
  exists r1 st1 d2 st2 l,
    update_profile os1 (Some st) u
      {| ProfileUpdate.name := n1; ProfileUpdate.avatar_url := a1;
         ProfileUpdate.favorite_gesture_slug := Some s;
         ProfileUpdate.remove_favorite := false;
         ProfileUpdate.completed_module_slug := c1 |}
    = (Ok r1, Some st1)
    /\ update_profile os2 (Some st1) u
         {| ProfileUpdate.name := n2; ProfileUpdate.avatar_url := a2;
            ProfileUpdate.favorite_gesture_slug := Some s;
            ProfileUpdate.remove_favorite := false;
            ProfileUpdate.completed_module_slug := c2 |}
       = (Ok (_to_json (Some d2)), Some st2)
    /\ user_doc st2 "profile" u = Some d2
    /\ d2 !! "favorite_gesture_slugs" = Some (VList l)
    /\ count_str s l = 1.
Proof.
  intros Hreach Ht.
  apply add_favorite_twice_ok; [exact Ht|].
  now apply reachable_favorites_ok.
Qed.
(** C3, amended: on every store that requests lead to, the update
    succeeds and always writes updated_at.  The stored value is the reading
    of os.times().elapsed, a float, where os has times, and null only where
    it has not. *)
Theorem update_profile_updated_at os st u p :
  reachable st ->
  exists d' st',
    update_profile os (Some st) u p = (Ok (_to_json (Some d')), Some st')
    /\ user_doc st' "profile" u = Some d'
    /\ d' !! "updated_at"
       = Some (match os with
               | Some x => VFloat x
               | None => VNull
               end).
Proof.
  intros Hreach. apply update_profile_updated_at_ok.
  pose proof (reachable_favorites_ok st u "" Hreach) as Hok.
  unfold favorites_ok in Hok. unfold profile_lists_ok, slug_lists_ok.
  destruct (user_doc st "profile" u) as [d|]; [|reflexivity].
  destruct Hok as [-> Hf]. rewrite andb_true_r.
  now destruct (d !! "favorite_gesture_slugs") as [[| | | | | |l|]|].
Qed.
End Reachability.

Lemma visited_store_reachable : reachable (H := fragment_runtime) visited_store.
Proof.
  apply (reachable_serve (H := fragment_runtime)
           (insert_one empty_store "accessibility"
              (Accessibility.model_dump (Accessibility.make "u")))
           (GetProfile "u")).
  - apply (reachable_serve (H := fragment_runtime) empty_store
             (GetAccessibility "u")); [constructor|reflexivity].
  - reflexivity.
Qed.

Lemma add_favorite_twice_witness :
  reachable (H := fragment_runtime) visited_store
  /\ truthy "halo" = true
  /\ exists r1 st1 d2 st2 l,
       update_profile (H := fragment_runtime) (Some elapsed_reading)
         (Some visited_store) "u"
         {| ProfileUpdate.name := None; ProfileUpdate.avatar_url := None;
            ProfileUpdate.favorite_gesture_slug := Some "halo";
            ProfileUpdate.remove_favorite := false;
            ProfileUpdate.completed_module_slug := None |}
       = (Ok r1, Some st1)
       /\ update_profile (H := fragment_runtime) (Some elapsed_reading)
            (Some st1) "u"
            {| ProfileUpdate.name := None; ProfileUpdate.avatar_url := None;
               ProfileUpdate.favorite_gesture_slug := Some "halo";
               ProfileUpdate.remove_favorite := false;
               ProfileUpdate.completed_module_slug := None |}
          = (Ok (_to_json (H := fragment_runtime) (Some d2)), Some st2)
       /\ user_doc st2 "profile" "u" = Some d2
       /\ d2 !! "favorite_gesture_slugs" = Some (VList l)
       /\ count_str "halo" l = 1.
Proof.
  split; [exact visited_store_reachable|]. split; [reflexivity|].
  apply (add_favorite_twice (H := fragment_runtime));
    [exact visited_store_reachable|reflexivity].
Defined.

Lemma update_profile_updated_at_witness :
  reachable (H := fragment_runtime) visited_store
  /\ exists d' st',
       update_profile (H := fragment_runtime) (Some elapsed_reading)
         (Some visited_store) "u" (name_body "Ana")
       = (Ok (_to_json (H := fragment_runtime) (Some d')), Some st')
       /\ user_doc st' "profile" "u" = Some d'
       /\ d' !! "updated_at" = Some (VFloat elapsed_reading).
Proof.
  split; [exact visited_store_reachable|].
  apply (update_profile_updated_at (H := fragment_runtime)
           (Some elapsed_reading)).
  exact visited_store_reachable.
Defined.

(** ** Further properties: the answer for a document *)

Section ToJson.
Context `{Runtime}.

Lemma to_json_no_id (d : doc) :
  d !! "_id" = None -> _to_json (Some d) = Some d.
Proof.
  intros Hi. unfold _to_json. rewrite Hi. now destruct (doc_falsy (Some d)).
Qed.

(** X1: the answer for a document never carries [_id].  Where the document
    has an [_id], the answer carries it rendered as a string under [id],
    in place of any [id] the document had; every other field is as in the
    document.  Nothing and the empty document are answered as they are. *)
Theorem to_json_fields (d : doc) :
  _to_json None = None
  /\ _to_json (Some ∅) = Some ∅
  /\ exists r,
       _to_json (Some d) = Some r
       /\ r !! "_id" = None
       /\ r !! "id" = match d !! "_id" with
                      | Some i => Some (VStr (py_str i))
                      | None => d !! "id"
                      end
       /\ forall k, k <> "id" -> k <> "_id" -> r !! k = d !! k.
Proof.
  split; [reflexivity|]. split; [reflexivity|].
  unfold _to_json. destruct (doc_falsy (Some d)) eqn:Hf.
  - exists d. apply bool_decide_eq_true, dom_empty_inv_L in Hf. subst d.
    rewrite !lookup_empty. auto.
  - destruct (d !! "_id") as [i|] eqn:Hi.
    + eexists. split; [reflexivity|]. split; [|split].
      * rewrite lookup_insert_ne by discriminate. apply lookup_delete_eq.
      * apply lookup_insert_eq.
      * intros k Hk Hk'.
        rewrite lookup_insert_ne by congruence.
        apply lookup_delete_ne. congruence.
    + exists d. auto.
Qed.

(** X2: answering an answer changes nothing. *)
Theorem to_json_idempotent (o : option doc) :
  _to_json (_to_json o) = _to_json o.
Proof.
  destruct o as [d|]; [|reflexivity].
  assert (Hr : exists r, _to_json (Some d) = Some r /\ r !! "_id" = None).
  { unfold _to_json. destruct (doc_falsy (Some d)) eqn:Hf.
    - exists d. split; [reflexivity|].
      apply bool_decide_eq_true, dom_empty_inv_L in Hf. subst d.
      apply lookup_empty.
    - destruct (d !! "_id") as [i|] eqn:Hi; [|now exists d].
      eexists. split; [reflexivity|].
      rewrite lookup_insert_ne by discriminate. apply lookup_delete_eq. }
  destruct Hr as (r & -> & Hr). now apply to_json_no_id.
Qed.
End ToJson.

(** ** Further properties: the handlers that only read *)

Section Reads.
Context `{Runtime}.

Lemma matches_by_slug slug d :
  matches [FEq "slug" (VStr slug)] d = has_slug slug d.
Proof.
  unfold matches, has_slug. simpl. rewrite andb_true_r.
  now destruct (d !! "slug").
Qed.

Lemma find_one_by_slug st c slug :
  find_one st c [FEq "slug" (VStr slug)] = Ok (slug_doc st c slug).
Proof.
  unfold find_one, find, slug_doc. simpl. f_equal. f_equal.
  apply List.filter_ext. intros d. apply matches_by_slug.
Qed.

Lemma slug_doc_stored st c slug d :
  slug_doc st c slug = Some d ->
  In d (coll st c) /\ has_slug slug d = true.
Proof.
  unfold slug_doc. intros Hd.
  destruct (head_filter_split _ _ _ Hd) as (l1 & l2 & -> & _ & Hs).
  split; [apply in_or_app; right; now left|exact Hs].
Qed.

(** A lookup by slug: the first document with the slug, or the 404 of the
    handler. *)
Lemma lookup_by_slug c slug detail st :
  (doc <- db_find_one c [FEq "slug" (VStr slug)] ;;
   if doc_falsy doc then raise (HTTPException 404 detail)
   else ret (_to_json doc)) st
  = (match slug_doc st c slug with
     | Some d => Ok (_to_json (Some d))
     | None => Raise (HTTPException 404 detail)
     end, st).
Proof.
  unfold bind, db_find_one, query, raise, ret. rewrite find_one_by_slug.
  destruct (slug_doc st c slug) as [d|] eqn:Hd; [|reflexivity].
  destruct (slug_doc_stored st c slug d Hd) as [_ Hs].
  unfold has_slug in Hs. destruct (d !! "slug") as [v|] eqn:Hv; [|discriminate].
  now rewrite (doc_falsy_stored d "slug" v Hv).
Qed.

Lemma find_all st c : find st c [] = Ok (coll st c).
Proof.
  unfold find. cbn [filter_ok forallb]. f_equal.
  induction (coll st c) as [|d l IH]; [reflexivity|].
  cbn [List.filter matches forallb]. now rewrite IH.
Qed.

(** X3: a lookup by slug answers with the first stored document whose
    slug is the one asked for (the answer carries that slug), and with 404
    and the detail of its route exactly when the collection holds no such
    document; the store is left as it is.  So for gestures, modules and
    quizzes. *)
Theorem lookup_by_slug_outcome st slug :
  let outcome_of c detail :=
    (match slug_doc st c slug with
     | Some d => Ok (_to_json (Some d))
     | None => Raise (HTTPException 404 detail)
     end, Some st) in
  get_gesture (Some st) slug = outcome_of "gesture" "Gesture not found"
  /\ get_module (Some st) slug = outcome_of "module" "Module not found"
  /\ get_quiz (Some st) slug = outcome_of "quiz" "Quiz not found"
  /\ forall c d,
       slug_doc st c slug = Some d ->
       In d (coll st c)
       /\ has_slug slug d = true
       /\ exists r, _to_json (Some d) = Some r /\ r !! "slug" = d !! "slug".
Proof.
  cbv zeta. unfold get_gesture, get_module, get_quiz, with_db.
  rewrite !lookup_by_slug. repeat split; try reflexivity.
  - now apply (slug_doc_stored st c slug).
  - now apply (slug_doc_stored st c slug).
  - unfold _to_json.
    destruct (doc_falsy (Some d)); [now exists d|].
    destruct (d !! "_id"); eexists; (split; [reflexivity|]); [|reflexivity].
    rewrite lookup_insert_ne by discriminate.
    now rewrite lookup_delete_ne by discriminate.
Qed.

(** X4: the module listing answers with every stored module, once and in
    the order of the store, never fails, and leaves the store as it is;
    without a database the list is empty. *)
Theorem list_modules_all st :
  list_modules (Some st)
  = (Ok (map (fun x => _to_json (Some x)) (coll st "module")), Some st)
  /\ list_modules None = (Ok [], None).
Proof.
  split; [|reflexivity].
  unfold list_modules, with_db, bind, db_find, query, ret.
  now rewrite find_all.
Qed.
End Reads.

(** ** Further properties: reads that create *)

Section LazyCreate.
Context `{Runtime}.

(** A read that creates the missing document, with its answer. *)
Lemma lazy_create_run c u data st :
  (doc <- db_find_one c [FEq "user_id" (VStr u)] ;;
   doc <- (if doc_falsy doc then
             create_document c data ;;
             db_find_one c [FEq "user_id" (VStr u)]
           else ret doc) ;;
   ret (_to_json doc)) st
  = match user_doc st c u with
    | Some d => (Ok (_to_json (Some d)), st)
    | None => (Ok (_to_json (user_doc (insert_one st c data) c u)),
               insert_one st c data)
    end.
Proof.
  unfold bind, db_find_one, query, create_document, ret.
  rewrite find_one_by_user.
  destruct (user_doc st c u) as [d|] eqn:Hd.
  - destruct (user_doc_stored st c u d Hd) as [_ [v Hv]].
    now rewrite (doc_falsy_stored d "user_id" v Hv).
  - cbn [doc_falsy]. now rewrite find_one_by_user.
Qed.

Lemma get_profile_run st u :
  get_profile (Some st) u
  = match user_doc st "profile" u with
    | Some d => (Ok (_to_json (Some d)), Some st)
    | None =>
        (Ok (_to_json (Some (<["_id" := VObjectId (next_id st)]>
                               (default_profile u)))),
         Some (insert_one st "profile" (default_profile u)))
    end.
Proof.
  unfold get_profile, with_db. fold (default_profile u).
  rewrite lazy_create_run.
  destruct (user_doc st "profile" u) as [d|] eqn:Hd; [reflexivity|].
  now rewrite (user_doc_insert_one st "profile" u (default_profile u) Hd).
Qed.

Lemma get_accessibility_run st u :
  get_accessibility (Some st) u
  = match user_doc st "accessibility" u with
    | Some d => (Ok (_to_json (Some d)), Some st)
    | None =>
        (Ok (_to_json (Some (<["_id" := VObjectId (next_id st)]>
                               (default_accessibility u)))),
         Some (insert_one st "accessibility" (default_accessibility u)))
    end.
Proof.
  unfold get_accessibility, with_db. fold (default_accessibility u).
  rewrite lazy_create_run.
  destruct (user_doc st "accessibility" u) as [d|] eqn:Hd; [reflexivity|].
  now rewrite (user_doc_insert_one st "accessibility" u
                 (default_accessibility u) Hd).
Qed.

(** X5: reading a profile never fails, and reading it again gives the same
    answer and changes nothing: the first read of an unknown user creates
    the document, the second finds it.  A read of a known user answers with
    the stored document and leaves the store as it is. *)
Theorem get_profile_idempotent st u :
  exists r st1,
    get_profile (Some st) u = (Ok r, Some st1)
    /\ get_profile (Some st1) u = (Ok r, Some st1)
    /\ match user_doc st "profile" u with
       | Some d => st1 = st /\ r = _to_json (Some d)
       | None => coll st1 "profile"
                 = coll st "profile"
                   ++ [<["_id" := VObjectId (next_id st)]> (default_profile u)]
       end.
Proof.
  rewrite get_profile_run.
  destruct (user_doc st "profile" u) as [d|] eqn:Hd.
  - exists (_to_json (Some d)), st.
    split; [reflexivity|]. split; [|auto].
    now rewrite get_profile_run, Hd.
  - eexists _, _. split; [reflexivity|]. split.
    + rewrite get_profile_run.
      now rewrite (user_doc_insert_one st "profile" u (default_profile u) Hd).
    + now rewrite coll_insert_one.
Qed.

(** X6: for a user without preferences, reading them stores the defaults
    of the schema (dark_mode and high_contrast off, font_scale 1.0, which
    the bounds of the schema admit, reduce_motion off) under a fresh
    identifier and answers with that document. *)
Theorem get_accessibility_creates_default st u :
  user_doc st "accessibility" u = None ->
  exists d st',
    get_accessibility (Some st) u = (Ok (_to_json (Some d)), Some st')
    /\ d = <["_id" := VObjectId (next_id st)]> (default_accessibility u)
    /\ coll st' "accessibility" = coll st "accessibility" ++ [d]
    /\ user_doc st' "accessibility" u = Some d
    /\ default_accessibility u !! "user_id" = Some (VStr u)
    /\ default_accessibility u !! "dark_mode" = Some (VBool false)
    /\ default_accessibility u !! "high_contrast" = Some (VBool false)
    /\ default_accessibility u !! "font_scale" = Some (VFloat 1%float)
    /\ default_accessibility u !! "reduce_motion" = Some (VBool false)
    /\ Accessibility.validate (Accessibility.make u) = true.
Proof.
  intros Hd. rewrite get_accessibility_run, Hd.
  eexists _, _. split; [reflexivity|]. split; [reflexivity|].
  split; [now rewrite coll_insert_one|].
  split; [now apply user_doc_insert_one|].
  now repeat split.
Qed.

(** X7: reading the preferences never fails, and reading them again gives
    the same answer and changes nothing; a read of a user with stored
    preferences leaves the store as it is. *)
Theorem get_accessibility_idempotent st u :
  exists r st1,
    get_accessibility (Some st) u = (Ok r, Some st1)
    /\ get_accessibility (Some st1) u = (Ok r, Some st1)
    /\ match user_doc st "accessibility" u with
       | Some d => st1 = st /\ r = _to_json (Some d)
       | None => True
       end.
Proof.
  rewrite get_accessibility_run.
  destruct (user_doc st "accessibility" u) as [d|] eqn:Hd.
  - exists (_to_json (Some d)), st.
    split; [reflexivity|]. split; [|auto].
    now rewrite get_accessibility_run, Hd.
  - eexists _, _. split; [reflexivity|]. split; [|exact I].
    rewrite get_accessibility_run.
    now rewrite (user_doc_insert_one st "accessibility" u
                   (default_accessibility u) Hd).
Qed.
End LazyCreate.

Lemma get_accessibility_creates_default_witness :
  user_doc empty_store "accessibility" "u" = None
  /\ exists d st',
       get_accessibility (H := fragment_runtime) (Some empty_store) "u"
       = (Ok (_to_json (H := fragment_runtime) (Some d)), Some st')
       /\ d = <["_id" := VObjectId 0]> (default_accessibility "u")
       /\ user_doc st' "accessibility" "u" = Some d.
Proof.
  split; [reflexivity|].
  destruct (get_accessibility_creates_default (H := fragment_runtime)
              empty_store "u" eq_refl)
    as (d & st' & Hrun & Hd & _ & Hdoc & _).
  exists d, st'. auto.
Defined.

(** ** Further properties: profile updates *)

Section ProfileUpdates.
Context `{Runtime}.

Lemma profile_after_other os p k old :
  ~ In k profile_update_fields -> profile_after os p k old = old.
Proof.
  intros Hk. apply profile_after_untouched.
  - unfold profile_set.
    destruct (String.eqb_spec k "updated_at") as [->|_];
      [exfalso; apply Hk; simpl; auto|].
    destruct (String.eqb_spec k "name") as [->|_];
      [exfalso; apply Hk; simpl; auto|].
    destruct (String.eqb_spec k "avatar_url") as [->|_];
      [exfalso; apply Hk; simpl; auto|reflexivity].
  - unfold profile_adds.
    destruct (String.eqb_spec k "favorite_gesture_slugs") as [->|_];
      [exfalso; apply Hk; simpl; auto|].
    destruct (String.eqb_spec k "completed_module_slugs") as [->|_];
      [exfalso; apply Hk; simpl; auto 6|reflexivity].
  - unfold profile_pulls.
    destruct (String.eqb_spec k "favorite_gesture_slugs") as [->|_];
      [exfalso; apply Hk; simpl; auto|reflexivity].
Qed.

(** X8: an update of a stored profile overwrites name and avatar_url
    exactly when the payload supplies them, writes updated_at, and leaves
    every field beyond the five it can write (email, points, level,
    streak_days, the identifier, ...) as it was; the other profiles and
    the other collections are untouched, and the answer is the updated
    document. *)
Theorem update_profile_frame os st u p d :
  user_doc st "profile" u = Some d ->
  slug_lists_ok d = true ->
  exists d' st' l1 l2,
    update_profile os (Some st) u p = (Ok (_to_json (Some d')), Some st')
    /\ user_doc st' "profile" u = Some d'
    /\ d' !! "name" = match ProfileUpdate.name p with
                      | Some v => Some (VStr v)
                      | None => d !! "name"
                      end
    /\ d' !! "avatar_url" = match ProfileUpdate.avatar_url p with
                            | Some v => Some (VStr v)
                            | None => d !! "avatar_url"
                            end
    /\ (forall k, ~ In k profile_update_fields -> d' !! k = d !! k)
    /\ coll st "profile" = l1 ++ d :: l2
    /\ coll st' "profile" = l1 ++ d' :: l2
    /\ forall c, c <> "profile" -> coll st' c = coll st c.
Proof.
  intros Hd Hok. destruct (apply_profile_update_ok os p d Hok) as [d' Hup].
  destruct (update_profile_hit os st u p d d' Hd Hup)
    as (st' & Hrun & Hdoc & Hk & l1 & l2 & Hl & ->).
  exists d', (set_coll st "profile" (l1 ++ d' :: l2)), l1, l2.
  split; [exact Hrun|]. split; [exact Hdoc|].
  split; [|split; [|split; [|split; [exact Hl|split]]]].
  - rewrite Hk. unfold profile_after, profile_pulls, profile_adds, profile_set.
    simpl. now destruct (ProfileUpdate.name p).
  - rewrite Hk. unfold profile_after, profile_pulls, profile_adds, profile_set.
    simpl. now destruct (ProfileUpdate.avatar_url p).
  - intros k Hne. rewrite Hk. now apply profile_after_other.
  - apply coll_set_coll.
  - intros c Hc. apply coll_set_coll_ne. congruence.
Qed.

(** An accepted update, on a user with or without a profile. *)
Lemma update_profile_ok_run os st u p :
  profile_lists_ok (user_doc st "profile" u) = true ->
  exists d' st',
    update_profile os (Some st) u p = (Ok (_to_json (Some d')), Some st')
    /\ user_doc st' "profile" u = Some d'
    /\ forall k, k <> "_id" -> k <> "user_id" ->
         d' !! k = profile_after os p k (user_field st "profile" u k).
Proof.
  intros Hok. unfold user_field.
  destruct (user_doc st "profile" u) as [d|] eqn:Hd.
  - destruct (apply_profile_update_ok os p d Hok) as [d' Hup].
    destruct (update_profile_hit os st u p d d' Hd Hup)
      as (st' & Hrun & Hdoc & Hk & _).
    exists d', st'. auto.
  - destruct (update_profile_miss os st u p Hd)
      as (d' & st' & Hrun & Hdoc & _ & Hk).
    exists d', st'. split; [exact Hrun|]. split; [exact Hdoc|].
    intros k Hi Hu. rewrite (Hk k Hi).
    now rewrite lookup_singleton_ne by congruence.
Qed.

Lemma reachable_user_slugs_wf st u k :
  reachable st ->
  k = "favorite_gesture_slugs" \/ k = "completed_module_slugs" ->
  slugs_wf (user_field st "profile" u k).
Proof.
  intros Hwf%reachable_profiles_wf Hk. unfold user_field.
  destruct (user_doc st "profile" u) as [d|] eqn:Hd; [|exact I].
  destruct (user_doc_stored st "profile" u d Hd) as [Hin _].
  unfold profiles_wf in Hwf. rewrite List.Forall_forall in Hwf.
  destruct (Hwf d Hin) as [Hf Hc]. now destruct Hk as [-> | ->].
Qed.

Lemma reachable_lists_ok st u :
  reachable st -> profile_lists_ok (user_doc st "profile" u) = true.
Proof.
  intros Hreach.
  pose proof (reachable_user_slugs_wf st u "favorite_gesture_slugs" Hreach
                (or_introl eq_refl)) as Hf.
  pose proof (reachable_user_slugs_wf st u "completed_module_slugs" Hreach
                (or_intror eq_refl)) as Hc.
  unfold user_field in Hf, Hc. unfold profile_lists_ok, slug_lists_ok.
  destruct (user_doc st "profile" u) as [d|]; [|reflexivity].
  now rewrite (slugs_wf_array _ Hf), (slugs_wf_array _ Hc).
Qed.

Lemma count_str_pull s t l :
  count_str t (List.filter (fun x => negb (value_eqb (VStr s) x)) l)
  = if String.eqb t s then 0 else count_str t l.
Proof.
  unfold count_str. induction l as [|x l IH]; [now destruct (String.eqb t s)|].
  cbn [List.filter]. rewrite value_eqb_str.
  destruct (is_str s x) eqn:Hs; cbn [negb List.filter].
  - rewrite IH. destruct (String.eqb_spec t s) as [->|Hne]; [reflexivity|].
    destruct x; try discriminate. cbn [is_str] in *.
    apply String.eqb_eq in Hs. subst s0.
    apply String.eqb_neq in Hne. now rewrite Hne.
  - destruct (is_str t x) eqn:Ht; cbn [length]; rewrite IH.
    + destruct (String.eqb_spec t s) as [->|Hne]; [congruence|reflexivity].
    + reflexivity.
Qed.

(** X9: on every store that requests lead to, a request that removes the
    non-empty favorite [s] succeeds; afterwards the favorites of the user
    hold [s] no more, and every other slug as often as before. *)
Theorem remove_favorite_clears os st u s n a c :
  reachable st ->
  truthy s = true ->
  exists d' st',
    update_profile os (Some st) u
      {| ProfileUpdate.name := n; ProfileUpdate.avatar_url := a;
         ProfileUpdate.favorite_gesture_slug := Some s;
         ProfileUpdate.remove_favorite := true;
         ProfileUpdate.completed_module_slug := c |}
    = (Ok (_to_json (Some d')), Some st')
    /\ user_doc st' "profile" u = Some d'
    /\ forall t,
         count_str t (slug_list (d' !! "favorite_gesture_slugs"))
         = if String.eqb t s then 0
           else count_str t
                  (slug_list (user_field st "profile" u "favorite_gesture_slugs")).
Proof.
  intros Hreach Ht.
  destruct (update_profile_ok_run os st u
              {| ProfileUpdate.name := n; ProfileUpdate.avatar_url := a;
                 ProfileUpdate.favorite_gesture_slug := Some s;
                 ProfileUpdate.remove_favorite := true;
                 ProfileUpdate.completed_module_slug := c |}
              (reachable_lists_ok st u Hreach))
    as (d' & st' & Hrun & Hdoc & Hk).
  exists d', st'. split; [exact Hrun|]. split; [exact Hdoc|].
  intros t. rewrite Hk by discriminate.
  unfold profile_after, profile_pulls, profile_adds, profile_set. simpl.
  rewrite Ht. simpl.
  pose proof (reachable_user_slugs_wf st u "favorite_gesture_slugs" Hreach
                (or_introl eq_refl)) as Hwf.
  destruct (user_field st "profile" u "favorite_gesture_slugs")
    as [[| | | | | |l|]|]; try contradiction; cbn [pull_from slug_list].
  - apply count_str_pull.
  - now destruct (String.eqb t s).
Qed.

(** X10: on every store that requests lead to, a request that names the
    non-empty completed module [s] succeeds; afterwards the completed
    modules of the user hold [s] exactly once, and every other slug as
    often as before. *)
Theorem complete_module_once os st u s n a f rm :
  reachable st ->
  truthy s = true ->
  exists d' st',
    update_profile os (Some st) u
      {| ProfileUpdate.name := n; ProfileUpdate.avatar_url := a;
         ProfileUpdate.favorite_gesture_slug := f;
         ProfileUpdate.remove_favorite := rm;
         ProfileUpdate.completed_module_slug := Some s |}
    = (Ok (_to_json (Some d')), Some st')
    /\ user_doc st' "profile" u = Some d'
    /\ forall t,
         count_str t (slug_list (d' !! "completed_module_slugs"))
         = if String.eqb t s then 1
           else count_str t
                  (slug_list (user_field st "profile" u "completed_module_slugs")).
Proof.
  intros Hreach Ht.
  destruct (update_profile_ok_run os st u
              {| ProfileUpdate.name := n; ProfileUpdate.avatar_url := a;
                 ProfileUpdate.favorite_gesture_slug := f;
                 ProfileUpdate.remove_favorite := rm;
                 ProfileUpdate.completed_module_slug := Some s |}
              (reachable_lists_ok st u Hreach))
    as (d' & st' & Hrun & Hdoc & Hk).
  exists d', st'. split; [exact Hrun|]. split; [exact Hdoc|].
  intros t. rewrite Hk by discriminate.
  unfold profile_after, profile_pulls, profile_adds, profile_set. simpl.
  rewrite Ht. simpl.
  pose proof (reachable_user_slugs_wf st u "completed_module_slugs" Hreach
                (or_intror eq_refl)) as Hwf.
  destruct (user_field st "profile" u "completed_module_slugs")
    as [[| | | | | |l|]|]; try contradiction;
    cbn [slugs_wf] in Hwf; unfold add_to_set; cbn [slug_list].
  - rewrite existsb_count_str.
    destruct (String.eqb_spec t s) as [->|Hne].
    + specialize (Hwf s).
      destruct (count_str s l) as [|[|m]] eqn:Hn; cbn [Nat.eqb negb];
        [now rewrite count_str_snoc, Hn|exact Hn|lia].
    + destruct (count_str s l =? 0)%nat; cbn [negb]; [|reflexivity].
      rewrite count_str_app. unfold count_str at 2. cbn [List.filter is_str].
      apply String.eqb_neq in Hne. rewrite Hne. cbn [length]. lia.
  - unfold count_str. cbn [List.filter is_str].
    now destruct (String.eqb t s).
Qed.
End ProfileUpdates.

Section ProfileUpdatesTwice.
Context `{Runtime}.

Lemma add_to_set_again s old :
  add_to_set (VStr s) (add_to_set (VStr s) old) = add_to_set (VStr s) old.
Proof.
  destruct old as [[| | | | | |l|]|]; try reflexivity; unfold add_to_set.
  - destruct (existsb (value_eqb (VStr s)) l) eqn:Hl; [now rewrite Hl|].
    rewrite existsb_app, Hl. cbn [existsb value_eqb orb].
    now rewrite String.eqb_refl.
  - cbn [existsb value_eqb orb]. now rewrite String.eqb_refl.
Qed.

Lemma filter_again {A} (p : A -> bool) l :
  List.filter p (List.filter p l) = List.filter p l.
Proof.
  induction l as [|x l IH]; [reflexivity|]. cbn [List.filter].
  destruct (p x) eqn:Hx; [|exact IH]. cbn [List.filter]. now rewrite Hx, IH.
Qed.

Lemma pull_from_again v old :
  pull_from v (pull_from v old) = pull_from v old.
Proof.
  destruct old as [[| | | | | |l|]|]; try reflexivity.
  unfold pull_from. now rewrite filter_again.
Qed.

(** Apart from updated_at, the update of a field is idempotent. *)
Lemma profile_after_again os1 os2 p k old :
  k <> "updated_at" ->
  profile_after os2 p k (profile_after os1 p k old)
  = profile_after os1 p k old.
Proof.
  intros Hk. unfold profile_after, profile_pulls, profile_adds, profile_set.
  destruct (String.eqb_spec k "updated_at") as [->|_]; [congruence|].
  destruct (String.eqb_spec k "name") as [->|_].
  { simpl. now destruct (ProfileUpdate.name p). }
  destruct (String.eqb_spec k "avatar_url") as [->|_].
  { simpl. now destruct (ProfileUpdate.avatar_url p). }
  destruct (String.eqb_spec k "favorite_gesture_slugs") as [->|_].
  { destruct (ProfileUpdate.favorite_gesture_slug p) as [v|]; [|reflexivity].
    destruct (truthy v), (ProfileUpdate.remove_favorite p); simpl;
      auto using add_to_set_again, pull_from_again. }
  destruct (String.eqb_spec k "completed_module_slugs") as [->|_];
    [|reflexivity].
  destruct (ProfileUpdate.completed_module_slug p) as [v|]; [|reflexivity].
  destruct (truthy v); simpl; auto using add_to_set_again.
Qed.

(** X11: on every store that requests lead to, sending a profile update a
    second time succeeds and changes nothing but updated_at: the profile
    agrees with the one after the first request on every other field, and
    no collection gains or loses a document. *)
Theorem update_profile_twice os1 os2 st u p :
  reachable st ->
  exists d1 st1 d2 st2,
    update_profile os1 (Some st) u p = (Ok (_to_json (Some d1)), Some st1)
    /\ update_profile os2 (Some st1) u p = (Ok (_to_json (Some d2)), Some st2)
    /\ user_doc st2 "profile" u = Some d2
    /\ (forall k, k <> "updated_at" -> d2 !! k = d1 !! k)
    /\ forall c, length (coll st2 c) = length (coll st1 c).
Proof.
  intros Hreach.
  destruct (update_profile_ok_run os1 st u p (reachable_lists_ok st u Hreach))
    as (d1 & st1 & Hrun1 & Hdoc1 & Hk1).
  assert (Hreach1 : reachable st1).
  { apply (reachable_serve st (UpdateProfile os1 u p)); [exact Hreach|].
    cbn [serve]. now rewrite Hrun1. }
  pose proof (reachable_lists_ok st1 u Hreach1) as Hok1.
  rewrite Hdoc1 in Hok1. cbn [profile_lists_ok] in Hok1.
  destruct (apply_profile_update_ok os2 p d1 Hok1) as [d2 Hup].
  destruct (update_profile_hit os2 st1 u p d1 d2 Hdoc1 Hup)
    as (st2 & Hrun2 & Hdoc2 & Hk2 & l1 & l2 & Hl & ->).
  exists d1, st1, d2, (set_coll st1 "profile" (l1 ++ d2 :: l2)).
  split; [exact Hrun1|]. split; [exact Hrun2|]. split; [exact Hdoc2|]. split.
  - intros k Hk. rewrite Hk2.
    destruct (String.eqb_spec k "_id") as [->|Hi];
      [apply profile_after_id|].
    destruct (String.eqb_spec k "user_id") as [->|Hu];
      [apply profile_after_user_id|].
    rewrite (Hk1 k Hi Hu). now apply profile_after_again.
  - intros c. destruct (String.eqb_spec c "profile") as [->|Hc].
    + rewrite coll_set_coll, Hl, !length_app. reflexivity.
    + now rewrite coll_set_coll_ne by congruence.
Qed.

(** X12: what a profile update answers is what a read of the profile
    answers right after it, and that read changes nothing. *)
Theorem update_profile_then_get os st u p r st' :
  update_profile os (Some st) u p = (Ok r, Some st') ->
  get_profile (Some st') u = (Ok r, Some st').
Proof.
  intros Hrun.
  assert (Hdoc : exists d', r = _to_json (Some d')
                            /\ user_doc st' "profile" u = Some d').
  { destruct (user_doc st "profile" u) as [d|] eqn:Hd.
    - destruct (apply_update (profile_update os p) d) as [d'|e] eqn:Hup.
      + destruct (update_profile_hit os st u p d d' Hd Hup)
          as (st1 & Hrun1 & Hdoc1 & _).
        rewrite Hrun1 in Hrun. injection Hrun as <- <-. eauto.
      + rewrite (update_profile_hit_raise os st u p d e Hd Hup) in Hrun.
        discriminate Hrun.
    - destruct (update_profile_miss os st u p Hd)
        as (d' & st1 & Hrun1 & Hdoc1 & _).
      rewrite Hrun1 in Hrun. injection Hrun as <- <-. eauto. }
  destruct Hdoc as (d' & -> & Hdoc).
  now rewrite get_profile_run, Hdoc.
Qed.

(** X13: for a user without preferences, an update creates a document
    from the filter and the payload alone: beside its identifier and
    user_id it holds exactly the fields the payload supplies, and none of
    the defaults of the schema.  A read of the preferences right after it
    answers with that document and fills in nothing. *)
Theorem update_accessibility_upsert st u p :
  user_doc st "accessibility" u = None ->
  exists d' st',
    update_accessibility (Some st) u p = (Ok (_to_json (Some d')), Some st')
    /\ user_doc st' "accessibility" u = Some d'
    /\ d' !! "_id" = Some (VObjectId (next_id st))
    /\ d' !! "user_id" = Some (VStr u)
    /\ (forall k, k <> "_id" -> k <> "user_id" -> d' !! k = supplied p k)
    /\ get_accessibility (Some st') u = (Ok (_to_json (Some d')), Some st').
Proof.
  intros Hd.
  destruct (update_accessibility_miss st u p Hd)
    as (d' & st' & Hrun & Hdoc & Hid & Hk & _).
  exists d', st'. split; [exact Hrun|]. split; [exact Hdoc|].
  split; [exact Hid|]. split; [|split].
  - now rewrite Hk by discriminate.
  - intros k Hi Hu. rewrite (Hk k Hi).
    apply String.eqb_neq in Hu. rewrite Hu. now destruct (supplied p k).
  - now rewrite get_accessibility_run, Hdoc.
Qed.
End ProfileUpdatesTwice.

Lemma liked_store_reachable : reachable (H := fragment_runtime) liked_store.
Proof.
  apply (reachable_serve (H := fragment_runtime) visited_store
           (UpdateProfile (Some elapsed_reading) "u" like_halo_body)).
  - exact visited_store_reachable.
  - reflexivity.
Qed.

Lemma update_profile_frame_witness :
  let d := <["_id" := VObjectId 1]> (default_profile "u") in
  user_doc visited_store "profile" "u" = Some d
  /\ slug_lists_ok d = true
  /\ exists d' st' l1 l2,
       update_profile (H := fragment_runtime) (Some elapsed_reading)
         (Some visited_store) "u" (name_body "Ana")
       = (Ok (_to_json (H := fragment_runtime) (Some d')), Some st')
       /\ user_doc st' "profile" "u" = Some d'
       /\ d' !! "name" = Some (VStr "Ana")
       /\ d' !! "avatar_url" = d !! "avatar_url"
       /\ (forall k, ~ In k profile_update_fields -> d' !! k = d !! k)
       /\ coll visited_store "profile" = l1 ++ d :: l2
       /\ coll st' "profile" = l1 ++ d' :: l2
       /\ forall c, c <> "profile" -> coll st' c = coll visited_store c.
Proof.
  split; [reflexivity|]. split; [reflexivity|].
  apply (update_profile_frame (H := fragment_runtime) (Some elapsed_reading)
           visited_store "u" (name_body "Ana")); reflexivity.
Defined.

Lemma remove_favorite_clears_witness :
  reachable (H := fragment_runtime) liked_store
  /\ truthy "halo" = true
  /\ user_field liked_store "profile" "u" "favorite_gesture_slugs"
     = Some (VList [VStr "halo"])
  /\ exists d' st',
       update_profile (H := fragment_runtime) (Some elapsed_reading)
         (Some liked_store) "u"
         {| ProfileUpdate.name := None; ProfileUpdate.avatar_url := None;
            ProfileUpdate.favorite_gesture_slug := Some "halo";
            ProfileUpdate.remove_favorite := true;
            ProfileUpdate.completed_module_slug := None |}
       = (Ok (_to_json (H := fragment_runtime) (Some d')), Some st')
       /\ user_doc st' "profile" "u" = Some d'
       /\ forall t,
            count_str t (slug_list (d' !! "favorite_gesture_slugs"))
            = if String.eqb t "halo" then 0
              else count_str t
                     (slug_list (user_field liked_store "profile" "u"
                                   "favorite_gesture_slugs")).
Proof.
  split; [exact liked_store_reachable|]. split; [reflexivity|].
  split; [reflexivity|].
  apply (remove_favorite_clears (H := fragment_runtime));
    [exact liked_store_reachable|reflexivity].
Defined.

Lemma complete_module_once_witness :
  reachable (H := fragment_runtime) visited_store
  /\ truthy "dasar-bahasa-isyarat" = true
  /\ exists d' st',
       update_profile (H := fragment_runtime) (Some elapsed_reading)
         (Some visited_store) "u"
         {| ProfileUpdate.name := None; ProfileUpdate.avatar_url := None;
            ProfileUpdate.favorite_gesture_slug := None;
            ProfileUpdate.remove_favorite := false;
            ProfileUpdate.completed_module_slug := Some "dasar-bahasa-isyarat" |}
       = (Ok (_to_json (H := fragment_runtime) (Some d')), Some st')
       /\ user_doc st' "profile" "u" = Some d'
       /\ forall t,
            count_str t (slug_list (d' !! "completed_module_slugs"))
            = if String.eqb t "dasar-bahasa-isyarat" then 1
              else count_str t
                     (slug_list (user_field visited_store "profile" "u"
                                   "completed_module_slugs")).
Proof.
  split; [exact visited_store_reachable|]. split; [reflexivity|].
  apply (complete_module_once (H := fragment_runtime));
    [exact visited_store_reachable|reflexivity].
Defined.

Lemma update_profile_twice_witness :
  reachable (H := fragment_runtime) visited_store
  /\ exists d1 st1 d2 st2,
       update_profile (H := fragment_runtime) (Some elapsed_reading)
         (Some visited_store) "u" like_halo_body
       = (Ok (_to_json (H := fragment_runtime) (Some d1)), Some st1)
       /\ update_profile (H := fragment_runtime) None (Some st1) "u"
            like_halo_body
          = (Ok (_to_json (H := fragment_runtime) (Some d2)), Some st2)
       /\ user_doc st2 "profile" "u" = Some d2
       /\ (forall k, k <> "updated_at" -> d2 !! k = d1 !! k)
       /\ forall c, length (coll st2 c) = length (coll st1 c).
Proof.
  split; [exact visited_store_reachable|].
  apply (update_profile_twice (H := fragment_runtime)).
  exact visited_store_reachable.
Defined.

Lemma update_profile_then_get_witness :
  exists r st',
    update_profile (H := fragment_runtime) (Some elapsed_reading)
      (Some empty_store) "u1" (name_body "Ana") = (Ok r, Some st')
    /\ get_profile (H := fragment_runtime) (Some st') "u1" = (Ok r, Some st').
Proof.
  eexists _, _. split; [reflexivity|].
  apply (update_profile_then_get (H := fragment_runtime)
           (Some elapsed_reading) empty_store "u1" (name_body "Ana")).
  reflexivity.
Defined.

Lemma update_accessibility_upsert_witness :
  user_doc empty_store "accessibility" "u" = None
  /\ exists d' st',
       update_accessibility (H := fragment_runtime) (Some empty_store) "u"
         (font_scale_body 1.2%float)
       = (Ok (_to_json (H := fragment_runtime) (Some d')), Some st')
       /\ user_doc st' "accessibility" "u" = Some d'
       /\ d' !! "_id" = Some (VObjectId 0)
       /\ d' !! "user_id" = Some (VStr "u")
       /\ (forall k, k <> "_id" -> k <> "user_id" ->
             d' !! k = supplied (font_scale_body 1.2%float) k)
       /\ get_accessibility (H := fragment_runtime) (Some st') "u"
          = (Ok (_to_json (H := fragment_runtime) (Some d')), Some st').
Proof.
  split; [reflexivity|].
  apply (update_accessibility_upsert (H := fragment_runtime) empty_store "u"
           (font_scale_body 1.2%float)).
  reflexivity.
Defined.

(** ** Further properties: the gesture listing *)

Section Listing.
Context `{Runtime}.

Lemma matches_app flt1 flt2 x :
  matches (flt1 ++ flt2) x = matches flt1 x && matches flt2 x.
Proof. unfold matches. apply forallb_app. Qed.

Lemma filter_ok_app flt1 flt2 :
  filter_ok (flt1 ++ flt2) = filter_ok flt1 && filter_ok flt2.
Proof. unfold filter_ok. apply forallb_app. Qed.

(** The filter of the listing, part by part. *)
Lemma gesture_filter_parts q c d :
  gesture_filter q c d
  = gesture_filter q None None
    ++ gesture_filter None c None ++ gesture_filter None None d.
Proof.
  unfold gesture_filter.
  destruct q as [s|], c as [s1|], d as [s2|];
    try destruct (truthy s); try destruct (truthy s1);
    try destruct (truthy s2); reflexivity.
Qed.

Lemma gesture_filter_ok_text q c d :
  filter_ok (gesture_filter q c d) = filter_ok (gesture_filter q None None).
Proof.
  rewrite (gesture_filter_parts q c d), !filter_ok_app.
  rewrite (gesture_filter_ok_no_text None c None) by reflexivity.
  rewrite (gesture_filter_ok_no_text None None d) by reflexivity.
  now rewrite !andb_true_r.
Qed.

(** X14: the filters of the listing combine by conjunction: with a
    category and a difficulty it selects the documents that the listing
    selects with the category alone and with the difficulty alone (under
    the same text query).  An empty category or difficulty is no filter. *)
Theorem gesture_filters_intersect st q c d :
  gesture_filter q (Some "") d = gesture_filter q None d
  /\ gesture_filter q c (Some "") = gesture_filter q c None
  /\ match find st "gesture" (gesture_filter q c d),
           find st "gesture" (gesture_filter q c None),
           find st "gesture" (gesture_filter q None d) with
     | Ok l, Ok l1, Ok l2 => forall x, In x l <-> In x l1 /\ In x l2
     | Raise _, Raise _, Raise _ => True
     | _, _, _ => False
     end.
Proof.
  split; [now destruct q as [s|]; [destruct (truthy s) eqn:Hs;
            unfold gesture_filter; rewrite Hs|]|].
  split; [now destruct q as [s|], c as [s1|];
            unfold gesture_filter;
            try destruct (truthy s); try destruct (truthy s1)|].
  unfold find.
  rewrite (gesture_filter_ok_text q c d), (gesture_filter_ok_text q c None),
    (gesture_filter_ok_text q None d).
  destruct (filter_ok (gesture_filter q None None)); [|exact I].
  intros x. rewrite !filter_In.
  rewrite (gesture_filter_parts q c d), (gesture_filter_parts q c None),
    (gesture_filter_parts q None d), !matches_app.
  change (matches (gesture_filter None None None) x) with true.
  rewrite !andb_true_r, !andb_true_iff. tauto.
Qed.

(** The listing on an accepted filter, for page >= 1 and limit >= 1. *)
Lemma list_gestures_run st q c d page limit :
  (1 <= page)%Z -> (1 <= limit)%Z ->
  filter_ok (gesture_filter q c d) = true ->
  list_gestures (Some st) q c d page limit
  = (Ok {| items :=
             map (fun x => _to_json (Some x))
               (take (Z.to_nat limit)
                  (drop (Z.to_nat (page - 1) * Z.to_nat limit)
                     (List.filter (matches (gesture_filter q c d))
                        (coll st "gesture"))));
           total := length (List.filter (matches (gesture_filter q c d))
                              (coll st "gesture"));
           page := page; limit := limit |}, Some st).
Proof.
  intros Hp Hl Hok.
  unfold list_gestures, with_db, bind, db_count_documents, db_find, query,
    ret, count_documents, find.
  rewrite Hok. unfold cursor_skip, cursor_limit.
  replace ((page - 1) * limit <? 0)%Z with false
    by (symmetry; apply Z.ltb_ge; nia).
  replace (limit =? 0)%Z with false by (symmetry; apply Z.eqb_neq; lia).
  replace (Z.abs_nat limit) with (Z.to_nat limit) by lia.
  replace (Z.to_nat ((page - 1) * limit))
    with (Z.to_nat (page - 1) * Z.to_nat limit) by nia.
  reflexivity.
Qed.

(** X15: for page >= 1 and limit >= 1 the page holds exactly
    min (limit, total - (page - 1) * limit) items, and none when that is
    negative: every page before the last is full, and a page beyond the
    matches is empty. *)
Theorem list_gestures_page_length st q c d page limit :
  (1 <= page)%Z -> (1 <= limit)%Z ->
  filter_ok (gesture_filter q c d) = true ->
  exists its n,
    list_gestures (Some st) q c d page limit
    = (Ok {| items := its; total := n; page := page; limit := limit |},
       Some st)
    /\ Z.of_nat (length its)
       = Z.max 0 (Z.min limit (Z.of_nat n - (page - 1) * limit)).
Proof.
  intros Hp Hl Hok. rewrite (list_gestures_run st q c d page limit Hp Hl Hok).
  eexists _, _. split; [reflexivity|].
  rewrite length_map, length_take, length_drop. nia.
Qed.

Lemma page_items_run st q c d (p : nat) limit :
  (1 <= limit)%Z ->
  filter_ok (gesture_filter q c d) = true ->
  page_items st q c d (Z.of_nat (S p)) limit
  = map (fun x => _to_json (Some x))
      (take (Z.to_nat limit)
         (drop (p * Z.to_nat limit)
            (List.filter (matches (gesture_filter q c d))
               (coll st "gesture")))).
Proof.
  intros Hl Hok. unfold page_items.
  rewrite (list_gestures_run st q c d (Z.of_nat (S p)) limit) by (lia || exact Hok).
  cbn [fst items]. do 3 f_equal. lia.
Qed.

(** X16: for limit >= 1, the pages 1 to n, one after the other, are the
    first n * limit matching documents in the order of the store: pages
    neither overlap nor leave a document out. *)
Theorem list_gestures_pages_cover st q c d limit (n : nat) :
  (1 <= limit)%Z ->
  filter_ok (gesture_filter q c d) = true ->
  concat (map (fun p => page_items st q c d (Z.of_nat p) limit) (seq 1 n))
  = map (fun x => _to_json (Some x))
      (take (n * Z.to_nat limit)
         (List.filter (matches (gesture_filter q c d)) (coll st "gesture"))).
Proof.
  intros Hl Hok. induction n as [|n IH]; [reflexivity|].
  rewrite seq_S, map_app, concat_app, IH. cbn [map concat plus].
  rewrite app_nil_r, (page_items_run st q c d n limit Hl Hok).
  rewrite <- map_app, take_take_drop. do 2 f_equal. lia.
Qed.

(** X17: the handler does not check page and limit.  With page <= 0 and
    limit >= 1 the store is asked to skip a negative number of documents
    and the listing fails; with limit 0 the store applies no limit and the
    listing answers with every matching document. *)
Theorem list_gestures_unchecked_bounds st q c d :
  (forall page limit, (page <= 0)%Z -> (1 <= limit)%Z ->
     exists e, list_gestures (Some st) q c d page limit = (Raise e, Some st))
  /\ (forall page,
        filter_ok (gesture_filter q c d) = true ->
        list_gestures (Some st) q c d page 0
        = (Ok {| items :=
                   map (fun x => _to_json (Some x))
                     (List.filter (matches (gesture_filter q c d))
                        (coll st "gesture"));
                 total := length (List.filter (matches (gesture_filter q c d))
                                    (coll st "gesture"));
                 page := page; limit := 0 |}, Some st)).
Proof.
  split.
  - intros page limit Hp Hl.
    unfold list_gestures, with_db, bind, db_count_documents, db_find, query,
      ret, count_documents, find.
    destruct (filter_ok (gesture_filter q c d)); [|eauto].
    unfold cursor_skip.
    replace ((page - 1) * limit <? 0)%Z with true
      by (symmetry; apply Z.ltb_lt; nia).
    eauto.
  - intros page Hok.
    unfold list_gestures, with_db, bind, db_count_documents, db_find, query,
      ret, count_documents, find.
    rewrite Hok. unfold cursor_skip, cursor_limit.
    replace ((page - 1) * 0)%Z with 0%Z by lia. reflexivity.
Qed.
End Listing.

Lemma list_gestures_page_length_witness :
  (1 <= 2)%Z /\ (1 <= 2)%Z
  /\ filter_ok (H := fragment_runtime) (gesture_filter (Some "a") None None)
     = true
  /\ exists its n,
       list_gestures (H := fragment_runtime) (Some (seed_all empty_store))
         (Some "a") None None 2 2
       = (Ok {| items := its; total := n; page := 2; limit := 2 |},
          Some (seed_all empty_store))
       /\ Z.of_nat (length its)
          = Z.max 0 (Z.min 2 (Z.of_nat n - (2 - 1) * 2)).
Proof.
  split; [lia|]. split; [lia|]. split; [reflexivity|].
  apply (list_gestures_page_length (H := fragment_runtime)
           (seed_all empty_store) (Some "a") None None 2 2);
    [lia|lia|reflexivity].
Defined.

Lemma list_gestures_pages_cover_witness :
  (1 <= 2)%Z
  /\ filter_ok (H := fragment_runtime) (gesture_filter None None None) = true
  /\ concat (map (fun p => page_items (H := fragment_runtime)
                             (seed_all empty_store) None None None
                             (Z.of_nat p) 2) (seq 1 2))
     = map (fun x => _to_json (H := fragment_runtime) (Some x))
         (take (2 * Z.to_nat 2)
            (List.filter
               (matches (H := fragment_runtime) (gesture_filter None None None))
               (coll (seed_all empty_store) "gesture"))).
Proof.
  split; [lia|]. split; [reflexivity|].
  apply (list_gestures_pages_cover (H := fragment_runtime)
           (seed_all empty_store) None None None 2 2); [lia|reflexivity].
Defined.

(** ** Further properties: what requests do to the store *)

Section Effects.
Context `{Runtime}.

(** An upsert followed by the read of its answer. *)
Lemma upsert_read_store c u upd st :
  ((db_update_one c [FEq "user_id" (VStr u)] upd true ;;
    doc <- db_find_one c [FEq "user_id" (VStr u)] ;;
    ret (_to_json doc)) st).2
  = match update_one st c [FEq "user_id" (VStr u)] upd true with
    | Ok st' => st'
    | Raise _ => st
    end.
Proof.
  unfold bind, db_update_one, db_find_one, query, ret.
  destruct (update_one st c [FEq "user_id" (VStr u)] upd true);
    [|reflexivity].
  now rewrite find_one_by_user.
Qed.

Lemma update_one_effect cs c u upd st :
  In c cs -> In c user_collections ->
  (forall d d', apply_update upd d = Ok d' ->
                d' !! "user_id" = d !! "user_id"
                /\ d' !! "_id" = d !! "_id") ->
  effect cs (Some u) st
    (match update_one st c [FEq "user_id" (VStr u)] upd true with
     | Ok st' => st'
     | Raise _ => st
     end).
Proof.
  intros Hc Hu Hkeep. destruct (user_doc st c u) as [d|] eqn:Hd.
  - destruct (apply_update upd d) as [d'|e] eqn:Hup.
    + destruct (Hkeep d d' Hup) as [Hid _].
      destruct (update_one_hit st c u upd d d' Hd Hup Hid)
        as (l1 & l2 & Hl & -> & _).
      now apply (effect_update cs (Some u) st c u d d' l1 l2).
    + rewrite (update_one_hit_raise st c u upd d e Hd Hup). constructor.
  - rewrite (update_one_miss st c u upd Hd).
    destruct (apply_update upd {["user_id" := VStr u]}) as [d0|e] eqn:Hup;
      [|constructor].
    destruct (Hkeep _ d0 Hup) as [Hid Hi].
    apply (effect_insert cs (Some u) st c u d0); auto.
Qed.

Lemma lazy_create_effect cs c u data st :
  In c cs -> In c user_collections ->
  data !! "_id" = None -> data !! "user_id" = Some (VStr u) ->
  effect cs (Some u) st
    (match user_doc st c u with
     | Some _ => st
     | None => insert_one st c data
     end).
Proof.
  intros Hc Hu Hi Hid. destruct (user_doc st c u) eqn:Hd; [constructor|].
  now apply (effect_insert cs (Some u) st c u data).
Qed.

(** What the handler of a request does to the store. *)
Lemma serve_effect r st st' :
  serve r (Some st) = Some st' -> effect (touched r) (request_user r) st st'.
Proof.
  destruct r as [q c d pg lm|slug| |slug|slug|u|os u p|u|u p| ];
    cbn [serve touched request_user]; intros Hrun.
  - rewrite list_gestures_snd in Hrun. injection Hrun as <-. constructor.
  - unfold get_gesture in Hrun. rewrite with_db_snd, lookup_snd in Hrun.
    injection Hrun as <-. constructor.
  - unfold list_modules, db_find in Hrun. rewrite with_db_snd in Hrun.
    rewrite query_bind_snd in Hrun by reflexivity.
    injection Hrun as <-. constructor.
  - unfold get_module in Hrun. rewrite with_db_snd, lookup_snd in Hrun.
    injection Hrun as <-. constructor.
  - unfold get_quiz in Hrun. rewrite with_db_snd, lookup_snd in Hrun.
    injection Hrun as <-. constructor.
  - unfold get_profile in Hrun.
    rewrite with_db_snd, lazy_create_store in Hrun. injection Hrun as <-.
    apply lazy_create_effect; simpl; auto.
  - unfold update_profile in Hrun.
    rewrite with_db_snd, upsert_read_store in Hrun. injection Hrun as <-.
    apply update_one_effect; simpl; auto.
    intros d d' Hup.
    rewrite !(profile_update_lookup os p d d' _ Hup).
    now rewrite profile_after_user_id, profile_after_id.
  - unfold get_accessibility in Hrun.
    rewrite with_db_snd, lazy_create_store in Hrun. injection Hrun as <-.
    apply lazy_create_effect; simpl; auto.
  - unfold update_accessibility in Hrun.
    rewrite with_db_snd, upsert_read_store in Hrun. injection Hrun as <-.
    apply update_one_effect; simpl; auto.
    intros d d' Hup.
    now rewrite !(accessibility_update_lookup p d d' _ Hup).
  - rewrite seed_data_run in Hrun. injection Hrun as <-.
    now apply effect_seed.
Qed.

Lemma coll_seed_all_ne st c :
  ~ In c catalog_collections -> coll (seed_all st) c = coll st c.
Proof.
  intros Hc. unfold seed_all.
  rewrite !coll_seed_block_ne; [reflexivity| | |];
    intros <-; apply Hc; simpl; auto.
Qed.

Lemma effect_untouched cs ou st st' c :
  effect cs ou st st' -> ~ In c cs -> coll st' c = coll st c.
Proof.
  intros [|c0 u d d' l1 l2 Hc0 _ _ _ _ _|c0 u d0 Hc0 _ _ _ _ _| -> ] Hc.
  - reflexivity.
  - apply coll_set_coll_ne. congruence.
  - apply coll_insert_one_ne. congruence.
  - now apply coll_seed_all_ne.
Qed.

Lemma length_seed_block c docs st c' :
  length (coll st c') <= length (coll (seed_block c docs st) c').
Proof.
  unfold seed_block. destruct (coll st c) as [|x l] eqn:Hc; [|reflexivity].
  destruct (String.eqb_spec c c') as [<-|Hne].
  - rewrite length_insert_all. lia.
  - now rewrite coll_insert_all_ne.
Qed.

(** X18: a request writes to the collection of its resource only: profile
    reads and updates to the profiles, preference reads and updates to the
    preferences, the seed routine to the three catalog collections; every
    other collection is left as it was.  The listing and the lookups leave
    the whole store as it was, whatever they answer. *)
Theorem serve_touches_only r st st' :
  serve r (Some st) = Some st' ->
  (forall c, ~ In c (touched r) -> coll st' c = coll st c)
  /\ (touched r = [] -> st' = st).
Proof.
  intros Hrun. split.
  - intros c Hc. exact (effect_untouched _ _ st st' c (serve_effect r st st' Hrun) Hc).
  - destruct r; cbn [touched]; try discriminate; intros _;
      cbn [serve] in Hrun.
    + rewrite list_gestures_snd in Hrun. now injection Hrun.
    + unfold get_gesture in Hrun. rewrite with_db_snd, lookup_snd in Hrun.
      now injection Hrun.
    + unfold list_modules, db_find in Hrun. rewrite with_db_snd in Hrun.
      rewrite query_bind_snd in Hrun by reflexivity. now injection Hrun.
    + unfold get_module in Hrun. rewrite with_db_snd, lookup_snd in Hrun.
      now injection Hrun.
    + unfold get_quiz in Hrun. rewrite with_db_snd, lookup_snd in Hrun.
      now injection Hrun.
Qed.

(** X19: no request removes a document: after every request each
    collection holds at least as many documents as before. *)
Theorem serve_never_deletes r st st' c :
  serve r (Some st) = Some st' ->
  length (coll st c) <= length (coll st' c).
Proof.
  intros Hrun.
  destruct (serve_effect r st st' Hrun)
    as [|c0 u d d' l1 l2 _ _ _ _ Hl _|c0 u d0 _ _ _ _ _ _|_].
  - reflexivity.
  - destruct (String.eqb_spec c0 c) as [<-|Hne].
    + rewrite coll_set_coll, Hl, !length_app. reflexivity.
    + now rewrite coll_set_coll_ne.
  - destruct (String.eqb_spec c0 c) as [<-|Hne].
    + rewrite coll_insert_one, length_app. lia.
    + now rewrite coll_insert_one_ne.
  - unfold seed_all.
    etransitivity; [|apply length_seed_block].
    etransitivity; [|apply length_seed_block].
    apply length_seed_block.
Qed.

Lemma has_user_string u w d :
  d !! "user_id" = Some (VStr w) -> has_user u d = String.eqb u w.
Proof.
  intros Hw. unfold has_user. rewrite Hw.
  change (eq_value (VStr u) (VStr w)) with (String.eqb u w || false).
  apply orb_false_r.
Qed.

Lemma filter_replace {A} (p : A -> bool) l1 l2 x y :
  p y = p x ->
  length (List.filter p (l1 ++ y :: l2)) = length (List.filter p (l1 ++ x :: l2)).
Proof.
  intros Hp. rewrite !List.filter_app, !length_app. cbn [List.filter].
  rewrite Hp. now destruct (p x).
Qed.

Lemma user_ids_ok_update l1 l2 d d' :
  d' !! "user_id" = d !! "user_id" ->
  user_ids_ok (l1 ++ d :: l2) -> user_ids_ok (l1 ++ d' :: l2).
Proof.
  intros Hid [Hstr Huniq]. split.
  - apply Forall_app in Hstr as [H1 H2].
    apply Forall_cons in H2 as [Hd H2].
    apply Forall_app. split; [exact H1|]. apply Forall_cons.
    split; [now rewrite Hid|exact H2].
  - intros u. rewrite (filter_replace (has_user u) l1 l2 d d');
      [apply Huniq|now apply has_user_same].
Qed.

Lemma user_ids_ok_insert l d u :
  List.filter (has_user u) l = [] ->
  d !! "user_id" = Some (VStr u) ->
  user_ids_ok l -> user_ids_ok (l ++ [d]).
Proof.
  intros Hnone Hid [Hstr Huniq]. split.
  - apply Forall_app. split; [exact Hstr|].
    apply Forall_cons. split; [eauto|constructor].
  - intros u0. rewrite List.filter_app, length_app. cbn [List.filter].
    rewrite (has_user_string u0 u d Hid).
    destruct (String.eqb_spec u0 u) as [->|Hne]; cbn [length].
    + rewrite Hnone. cbn [length]. lia.
    + specialize (Huniq u0). lia.
Qed.

Lemma effect_users_unique cs ou st st' :
  effect cs ou st st' -> users_unique st -> users_unique st'.
Proof.
  unfold users_unique.
  intros [|c0 u d d' l1 l2 _ _ _ _ Hl Hid|c0 u d0 _ _ _ Hd Hi Hid| -> ] Hwf;
    [exact Hwf| | |].
  - rewrite List.Forall_forall in *. intros c Hc.
    destruct (String.eqb_spec c0 c) as [<-|Hne].
    + rewrite coll_set_coll. specialize (Hwf c0 Hc). rewrite Hl in Hwf.
      now apply (user_ids_ok_update l1 l2 d d').
    + rewrite coll_set_coll_ne by exact Hne. now apply Hwf.
  - rewrite List.Forall_forall in *. intros c Hc.
    destruct (String.eqb_spec c0 c) as [<-|Hne].
    + rewrite coll_insert_one, Hi.
      apply (user_ids_ok_insert _ _ u); [|now rewrite lookup_insert_ne|now apply Hwf].
      unfold user_doc in Hd. now apply head_filter_none.
    + rewrite coll_insert_one_ne by exact Hne. now apply Hwf.
  - rewrite List.Forall_forall in *. intros c Hc.
    rewrite coll_seed_all_ne; [now apply Hwf|].
    unfold user_collections, catalog_collections in *. simpl in *.
    intros [<-|[<-|[<-|[]]]]; destruct Hc as [Hc|[Hc|[]]]; discriminate Hc.
Qed.

Lemma reachable_users_wf st : reachable st -> users_unique st.
Proof.
  intros Hreach. induction Hreach as [|st r st' _ IH Hrun].
  - unfold users_unique. repeat constructor.
  - exact (effect_users_unique _ _ st st' (serve_effect r st st' Hrun) IH).
Qed.

(** X20: on every store that requests lead to, every profile and every
    preferences document names its user by a string, and no user has two
    profiles or two preferences documents. *)
Theorem reachable_users_unique st :
  reachable st ->
  forall c, In c user_collections ->
    Forall (fun d => exists w, d !! "user_id" = Some (VStr w)) (coll st c)
    /\ forall u, length (List.filter (has_user u) (coll st c)) <= 1.
Proof.
  intros Hreach. pose proof (reachable_users_wf st Hreach) as Hwf.
  unfold users_unique in Hwf. rewrite List.Forall_forall in Hwf.
  intros c Hc. exact (Hwf c Hc).
Qed.

Lemma filter_other_user u u' w d l1 l2 (d' : doc) :
  u' <> u ->
  d !! "user_id" = Some (VStr w) -> has_user u d = true ->
  d' !! "user_id" = d !! "user_id" ->
  List.filter (has_user u') (l1 ++ d' :: l2)
  = List.filter (has_user u') (l1 ++ d :: l2).
Proof.
  intros Hne Hw Hu Hid. rewrite !List.filter_app. cbn [List.filter].
  rewrite (has_user_same u' d d' Hid).
  rewrite (has_user_string u w d Hw) in Hu.
  apply String.eqb_eq in Hu as <-.
  rewrite (has_user_string u' u d Hw).
  now destruct (String.eqb_spec u' u).
Qed.

(** X22: a request changes the documents of its own user only: on a store
    that requests lead to, the profile and the preferences document of
    every other user are after the request what they were before it,
    present or absent. *)
Theorem serve_other_users r st st' u' c :
  reachable st ->
  request_user r <> Some u' ->
  In c user_collections ->
  serve r (Some st) = Some st' ->
  user_doc st' c u' = user_doc st c u'.
Proof.
  intros Hreach Hother Hc Hrun.
  pose proof (reachable_users_wf st Hreach) as Hwf.
  unfold users_unique in Hwf. rewrite List.Forall_forall in Hwf.
  destruct (serve_effect r st st' Hrun)
    as [|c0 u d d' l1 l2 _ Hc0 Hu Hd Hl Hid|c0 u d0 _ Hc0 Hu Hd Hi Hid|Hseed].
  - reflexivity.
  - unfold user_doc. destruct (String.eqb_spec c0 c) as [<-|Hne].
    + rewrite coll_set_coll, Hl. f_equal.
      destruct (Hwf c0 Hc0) as [Hstr _]. rewrite Hl in Hstr.
      apply Forall_app in Hstr as [_ Hstr].
      apply Forall_cons in Hstr as [[w Hw] _].
      apply (filter_other_user u u' w); auto.
      * intros ->. now apply Hother.
      * unfold user_doc in Hd.
        now destruct (head_filter_split _ _ _ Hd) as (? & ? & _ & _ & ?).
    + now rewrite coll_set_coll_ne.
  - unfold user_doc. destruct (String.eqb_spec c0 c) as [<-|Hne].
    + rewrite coll_insert_one, Hi, List.filter_app. cbn [List.filter].
      rewrite (has_user_string u' u); [|now rewrite lookup_insert_ne].
      destruct (String.eqb_spec u' u) as [->|_]; [now destruct Hother|].
      now rewrite app_nil_r.
    + now rewrite coll_insert_one_ne.
  - unfold user_doc. rewrite coll_seed_all_ne; [reflexivity|].
    unfold user_collections, catalog_collections in *. simpl in *.
    intros [<-|[<-|[<-|[]]]]; destruct Hc as [Hc|[Hc|[]]]; discriminate Hc.
Qed.

Lemma effect_catalog_fixed cs ou st st' :
  effect cs ou st st' -> catalog_fixed st -> catalog_fixed st'.
Proof.
  unfold catalog_fixed.
  assert (Hdisj : forall c, In c catalog_collections ->
                            ~ In c user_collections).
  { unfold user_collections, catalog_collections. simpl.
    intros c [<-|[<-|[<-|[]]]] [Hc|[Hc|[]]]; discriminate Hc. }
  intros [|c0 u d d' l1 l2 _ Hu _ _ _ _|c0 u d0 _ Hu _ _ _ _|_] Hwf;
    [exact Hwf| | |]; rewrite List.Forall_forall in *; intros c Hc.
  - rewrite coll_set_coll_ne; [now apply Hwf|].
    intros ->. now apply (Hdisj c).
  - rewrite coll_insert_one_ne; [now apply Hwf|].
    intros ->. now apply (Hdisj c).
  - pose proof (seed_all_coll st c Hc) as Hs.
    pose proof (Hwf c Hc) as Hold.
    destruct (coll st c) as [|x l] eqn:Hcoll; [now right|].
    rewrite Hs. exact Hold.
Qed.

(** X21: on every store that requests lead to, each of the collections
    gesture, module and quiz is empty or holds exactly the sample documents
    of the seed routine, in their order and once each: no request changes,
    repeats or removes a catalog document. *)
Theorem reachable_catalog_fixed st :
  reachable st ->
  forall c, In c catalog_collections ->
    coll st c = [] \/ map (delete "_id") (coll st c) = catalog_samples c.
Proof.
  intros Hreach.
  assert (Hwf : catalog_fixed st).
  { induction Hreach as [|st r st' _ IH Hrun].
    - unfold catalog_fixed. repeat constructor.
    - exact (effect_catalog_fixed _ _ st st' (serve_effect r st st' Hrun) IH). }
  unfold catalog_fixed in Hwf. rewrite List.Forall_forall in Hwf.
  intros c Hc. exact (Hwf c Hc).
Qed.
End Effects.

Lemma serve_touches_only_witness :
  let st := insert_one empty_store "accessibility"
              (default_accessibility "u") in
  serve (H := fragment_runtime) (GetProfile "u") (Some st)
  = Some visited_store
  /\ (forall c, ~ In c ["profile"] -> coll visited_store c = coll st c)
  /\ (["profile"] = [] -> visited_store = st).
Proof.
  split; [reflexivity|].
  exact (serve_touches_only (H := fragment_runtime) (GetProfile "u")
           (insert_one empty_store "accessibility"
              (default_accessibility "u"))
           visited_store eq_refl).
Defined.

Lemma serve_never_deletes_witness :
  serve (H := fragment_runtime)
    (UpdateProfile (Some elapsed_reading) "u" like_halo_body)
    (Some visited_store) = Some liked_store
  /\ length (coll visited_store "profile")
     <= length (coll liked_store "profile").
Proof.
  split; [reflexivity|].
  exact (serve_never_deletes (H := fragment_runtime)
           (UpdateProfile (Some elapsed_reading) "u" like_halo_body)
           visited_store liked_store "profile" eq_refl).
Defined.

Lemma reachable_users_unique_witness :
  reachable (H := fragment_runtime) visited_store
  /\ forall c, In c user_collections ->
       Forall (fun d => exists w, d !! "user_id" = Some (VStr w))
         (coll visited_store c)
       /\ forall u, length (List.filter (has_user u) (coll visited_store c))
                    <= 1.
Proof.
  split; [exact visited_store_reachable|].
  exact (reachable_users_unique (H := fragment_runtime) visited_store
           visited_store_reachable).
Defined.

Lemma seeded_store_reachable :
  reachable (H := fragment_runtime) (seed_all empty_store).
Proof.
  apply (reachable_serve (H := fragment_runtime) empty_store SeedData);
    [constructor|].
  cbn [serve]. now rewrite seed_data_run.
Qed.

Lemma reachable_catalog_fixed_witness :
  reachable (H := fragment_runtime) (seed_all empty_store)
  /\ map (fun c => length (coll (seed_all empty_store) c))
       catalog_collections = [3; 1; 1]
  /\ forall c, In c catalog_collections ->
       coll (seed_all empty_store) c = []
       \/ map (delete "_id") (coll (seed_all empty_store) c)
          = catalog_samples c.
Proof.
  split; [exact seeded_store_reachable|].
  split; [reflexivity|].
  exact (reachable_catalog_fixed (H := fragment_runtime)
           (seed_all empty_store) seeded_store_reachable).
Defined.

Lemma serve_other_users_witness :
  reachable (H := fragment_runtime) visited_store
  /\ request_user (UpdateProfile (Some elapsed_reading) "v" (name_body "Ana"))
     <> Some "u"
  /\ In "profile" user_collections
  /\ exists st',
       serve (H := fragment_runtime)
         (UpdateProfile (Some elapsed_reading) "v" (name_body "Ana"))
         (Some visited_store) = Some st'
       /\ user_doc st' "profile" "u" = user_doc visited_store "profile" "u".
Proof.
  split; [exact visited_store_reachable|].
  split; [discriminate|].
  split; [now left|].
  eexists. split; [reflexivity|].
  apply (serve_other_users (H := fragment_runtime)
           (UpdateProfile (Some elapsed_reading) "v" (name_body "Ana"))
           visited_store _ "u" "profile" visited_store_reachable).
  - discriminate.
  - now left.
  - reflexivity.
Defined.
